(** * Wedding List Organiser: the domain model of [model.py]

    A shallow embedding of the classes [Product], [GiftItem] and
    [WeddingList] of [model.py], and of [init_db] and the routes of
    [wedding_lister.py], together with the properties that the
    specification states about them and further properties of the code.

    Python values are dynamically typed, so the fields that the source fills
    from a JSON description or from a database row are kept as values of a
    small universe [pyval]; a Python exception is a value of [exn], and a
    method is a function from the state of the world (the objects that exist
    and the database) to a result and the state it leaves behind. *)

From Stdlib Require Import ZArith Floats.SpecFloat Floats.FloatOps.
From stdpp Require Import base option list gmap strings sorting.

Local Open Scope Z_scope.

(** ** Python values *)

(** A Python [float] is an IEEE 754 binary64 number: [spec_float] at
    precision 53 and maximal exponent 1024. *)
Abbreviation pyfloat := spec_float.

Definition float_sub (x y : pyfloat) : pyfloat := SFsub prec emax x y.
Definition float_div (x y : pyfloat) : pyfloat := SFdiv prec emax x y.

(** [float(z)]: the nearest binary64 number, ties to even. Python raises
    [OverflowError] where the result would not be finite. *)
Definition float_of_Z (z : Z) : option pyfloat :=
  match binary_normalize prec emax z 0 false with
  | S754_infinity _ | S754_nan => None
  | f => Some f
  end.

(** Python compares an [int] with a [float] by their exact values. *)
Definition float_eq_Z (f : pyfloat) (z : Z) : bool :=
  match f with
  | S754_zero _ => z =? 0
  | S754_finite s m e =>
      let sm := if s then Z.neg m else Z.pos m in
      if 0 <=? e then sm * 2 ^ e =? z else sm =? z * 2 ^ (- e)
  | _ => false
  end.

Definition float_zero : pyfloat := S754_zero false.

(** The scalar values of JSON and of a database cell, as Python sees them.
    (JSON arrays and objects nested inside a description are not modelled:
    no method of the model looks inside one.) *)
Inductive pyval :=
| PyNone
| PyBool (b : bool)
| PyInt (z : Z)
| PyFloat (f : pyfloat)
| PyStr (s : string).

(** The exceptions that the model can raise. [PriceMissing] is the plain
    [Exception("Price is missing! ...")] of [Product.__init__]. *)
Inductive exn :=
| OutOfStock
| UnknownProduct
| PriceMissing
| KeyError (key : string)
| AttributeError
| TypeError
| ValueError
| OverflowError
| IntegrityError.

(** [inl e]: the exception [e] was raised; [inr a]: the value [a] was
    returned. *)
Definition result (A : Type) : Type := exn + A.

Definition Z_of_bool (b : bool) : Z := if b then 1 else 0.

(** [a == b] on scalars: [bool] is a subclass of [int], numbers compare by
    value across [int] and [float], and values of unrelated types are
    unequal. *)
Definition py_eq (a b : pyval) : bool :=
  match a, b with
  | PyNone, PyNone => true
  | PyStr s, PyStr t => bool_decide (s = t)
  | PyInt x, PyInt y => x =? y
  | PyInt x, PyBool c | PyBool c, PyInt x => x =? Z_of_bool c
  | PyBool c, PyBool d => Z_of_bool c =? Z_of_bool d
  | PyFloat f, PyFloat g => SFeqb f g
  | PyFloat f, PyInt x | PyInt x, PyFloat f => float_eq_Z f x
  | PyFloat f, PyBool c | PyBool c, PyFloat f => float_eq_Z f (Z_of_bool c)
  | _, _ => false
  end.

(** [a > 0]. Ordering a string or [None] against an [int] is a
    [TypeError]. *)
Definition py_gt0 (a : pyval) : result bool :=
  match a with
  | PyInt z => inr (0 <? z)
  | PyBool b => inr b
  | PyFloat f => inr (SFltb float_zero f)
  | PyNone | PyStr _ => inl TypeError
  end.

(** [a - 1]. *)
Definition py_sub1 (a : pyval) : result pyval :=
  match a with
  | PyInt z => inr (PyInt (z - 1))
  | PyBool b => inr (PyInt (Z_of_bool b - 1))
  | PyFloat f => inr (PyFloat (float_sub f (binary_normalize prec emax 1 0 false)))
  | PyNone | PyStr _ => inl TypeError
  end.

(** [a / 100.]: true division by the float literal [100.]. *)
Definition py_div100 (a : pyval) : result pyval :=
  let hundred := binary_normalize prec emax 100 0 false in
  match a with
  | PyInt z =>
      match float_of_Z z with
      | Some f => inr (PyFloat (float_div f hundred))
      | None => inl OverflowError
      end
  | PyBool b =>
      match float_of_Z (Z_of_bool b) with
      | Some f => inr (PyFloat (float_div f hundred))
      | None => inl OverflowError
      end
  | PyFloat f => inr (PyFloat (float_div f hundred))
  | PyNone | PyStr _ => inl TypeError
  end.

(** ** The price pattern *)

(** Strings are sequences of 8-bit characters and [\d] is the class of the
    ten ASCII digits. On a Python [str] the class also holds the other
    Unicode decimal digits, which [int] reads as well: they are outside
    this model, so a statement that a text is not matched is made for
    ASCII text only. *)
Fixpoint ascii_text (s : string) : bool :=
  match s with
  | EmptyString => true
  | String c s' => (Ascii.nat_of_ascii c <? 128)%nat && ascii_text s'
  end.

Definition is_digit (c : Ascii.ascii) : bool :=
  let n := Ascii.nat_of_ascii c in (48 <=? n)%nat && (n <=? 57)%nat.

Definition digit_value (c : Ascii.ascii) : Z := Z.of_nat (Ascii.nat_of_ascii c) - 48.

Fixpoint all_digits (s : string) : bool :=
  match s with
  | EmptyString => true
  | String c s' => is_digit c && all_digits s'
  end.

(** The number that a string of digits denotes. *)
Fixpoint int_of_digits_from (acc : Z) (s : string) : Z :=
  match s with
  | EmptyString => acc
  | String c s' => int_of_digits_from (acc * 10 + digit_value c) s'
  end.

Definition int_of_digits (s : string) : Z := int_of_digits_from 0 s.

(** [int(s)] for a string of digits. CPython 3.11, and the later releases
    of the older lines, converts no more than
    [sys.int_info.default_max_str_digits] digits, leading zeros included,
    and raises [ValueError] for a longer string. *)
Definition max_str_digits : Z := 4300.

Definition digit_count (s : string) : Z := Z.of_nat (String.length s).

Definition py_int (s : string) : result Z :=
  if max_str_digits <? digit_count s then inl ValueError else inr (int_of_digits s).

(** The matcher tries its alternatives in the order of Python's
    backtracking engine and answers with the first that succeeds. A
    sub-pattern maps the text to the list of its possible matches, each
    with the text that is left. *)

(** [(\d+)], greedy: the longest run of digits first, then the shorter
    ones. *)
Fixpoint digits_plus (s : string) : list (string * string) :=
  match s with
  | String c s' =>
      if is_digit c
      then (prod_map (String c) id <$> digits_plus s') ++ [(String c "", s')]
      else []
  | EmptyString => []
  end.

(** A literal: the text must start with it. *)
Fixpoint literal (p s : string) : list string :=
  match p, s with
  | EmptyString, _ => [s]
  | String a p', String b s' => if bool_decide (a = b) then literal p' s' else []
  | String _ _, EmptyString => []
  end.

(** The alternatives of [(\d+)\.(\d+)GBP] at the start of [s], in the
    order in which the engine reaches them, as the pairs of groups. *)
Definition price_re_alternatives (s : string) : list (string * string) :=
  '(g1, r1) ← digits_plus s;
  r2 ← literal "." r1;
  '(g2, r3) ← digits_plus r2;
  _ ← literal "GBP" r3;
  [(g1, g2)].

(** [re.compile(r'(\d+)\.(\d+)GBP').match(s)]: [None], or the two groups
    of the first match that starts at the beginning of [s]. *)
Definition price_re_match (s : string) : option (string * string) :=
  head (price_re_alternatives s).

(** What the specification says of the pattern: the text starts with a
    run of digits, a dot, a run of digits and the letters GBP. *)
Definition price_shape (s g1 g2 rest : string) : Prop :=
  s = g1 +:+ "." +:+ g2 +:+ "GBP" +:+ rest ∧
  (g1 ≠ "" ∧ all_digits g1 = true) ∧ (g2 ≠ "" ∧ all_digits g2 = true).

(** ** The database *)

(** A cell of a table: one of SQLite's storage classes. *)
Inductive sqlval :=
| SqlNull
| SqlInt (z : Z)
| SqlReal (f : pyfloat)
| SqlText (s : string).

Definition fits_int64 (z : Z) : bool := (- 2 ^ 63 <=? z) && (z <? 2 ^ 63).

(** How [sqlite3] binds a Python value to a [?] of a statement. An [int]
    that does not fit 64 bits is an [OverflowError]; a NaN is stored as
    NULL. *)
Definition to_sql (v : pyval) : result sqlval :=
  match v with
  | PyNone => inr SqlNull
  | PyBool b => inr (SqlInt (Z_of_bool b))
  | PyInt z => if fits_int64 z then inr (SqlInt z) else inl OverflowError
  | PyFloat S754_nan => inr SqlNull
  | PyFloat f => inr (SqlReal f)
  | PyStr s => inr (SqlText s)
  end.

(** The Python value that a fetched cell becomes. *)
Definition of_sql (c : sqlval) : pyval :=
  match c with
  | SqlNull => PyNone
  | SqlInt z => PyInt z
  | SqlReal f => PyFloat f
  | SqlText s => PyStr s
  end.

(** Modelled from the spec: [schema.sql] is not among the sources. The
    two tables have the columns that the statements of [model.py] name and
    that the specification lists: [products] keyed by rowid with [name],
    [brand], [price] and [in_stock_quantity], and [wedding_gift] keyed by
    rowid with [product_id] and [purchased]. No other constraint is
    assumed, and a cell keeps the storage class of the value bound to it
    (as SQLite does for an integer in a column of integer or numeric
    affinity and for a real that is not a whole number). *)
Record ProductRow := mkProductRow {
  row_name : sqlval;
  row_brand : sqlval;
  row_price : sqlval;
  row_in_stock_quantity : sqlval
}.

Record GiftRow := mkGiftRow {
  row_product_id : sqlval;
  row_purchased : sqlval
}.

(** The statements that the program executes, with their bound
    parameters. *)
Inductive stmt :=
| UpdateStock (quantity rowid : sqlval)
    (* UPDATE products SET in_stock_quantity = ? WHERE rowid = ? *)
| UpdateGift (purchased rowid : sqlval)
    (* UPDATE wedding_gift SET purchased = ? WHERE rowid = ? *)
| DeleteGift (rowid : sqlval)
    (* DELETE FROM wedding_gift WHERE rowid = ? *)
| InsertGift (product_id purchased : sqlval)
    (* INSERT INTO wedding_gift (product_id, purchased) VALUES (?, ?) *)
| InsertProduct (rowid : sqlval) (row : ProductRow)
    (* INSERT INTO products (rowid, name, brand, price, in_stock_quantity)
       VALUES (?, ?, ?, ?, ?) *)
| CreateSchema.
    (* the script of schema.sql *)

(** A table is the list of its rows with their rowids, in the order of a
    scan. [journal] is the sequence of the statements executed so far, the
    oldest first: it records that a write took place, and when. *)
Record Db := mkDb {
  products : list (Z * ProductRow);
  wedding_gift : list (Z * GiftRow);
  journal : list stmt
}.

(** [rowid = ?]. (A text parameter that SQLite would read as a number is
    not modelled: it matches no row here.) *)
Definition rowid_is (v : sqlval) (rowid : Z) : bool :=
  match v with
  | SqlInt z => rowid =? z
  | SqlReal f => float_eq_Z f rowid
  | SqlNull | SqlText _ => false
  end.

(** The rowid that SQLite gives to a row inserted without one: one more
    than the largest in use, and 1 in an empty table. *)
Definition next_rowid {A} (t : list (Z * A)) : Z :=
  match t.*1 with
  | [] => 1
  | z :: zs => foldr Z.max z zs + 1
  end.

(** A scan returns the rows by rowid: a new row takes its place among
    them. *)
Fixpoint insert_row {A} (rowid : Z) (row : A) (t : list (Z * A)) : list (Z * A) :=
  match t with
  | [] => [(rowid, row)]
  | (z, r) :: t' =>
      if rowid <? z then (rowid, row) :: t else (z, r) :: insert_row rowid row t'
  end.

Definition set_stock (quantity : sqlval) (r : ProductRow) : ProductRow :=
  mkProductRow (row_name r) (row_brand r) (row_price r) quantity.

Definition set_purchased (purchased : sqlval) (r : GiftRow) : GiftRow :=
  mkGiftRow (row_product_id r) purchased.

Definition update_where {A} (rowid : sqlval) (f : A → A) (t : list (Z * A)) : list (Z * A) :=
  (λ '(z, r), if rowid_is rowid z then (z, f r) else (z, r)) <$> t.

Definition delete_where {A} (rowid : sqlval) (t : list (Z * A)) : list (Z * A) :=
  filter (λ zr, rowid_is rowid zr.1 = false) t.

(** [cur.execute(UPDATE ...)] followed by [db_conn.commit()]. *)
Definition exec_update_stock (quantity rowid : sqlval) (d : Db) : Db :=
  mkDb (update_where rowid (set_stock quantity) (products d))
       (wedding_gift d)
       (journal d ++ [UpdateStock quantity rowid]).

Definition exec_update_gift (purchased rowid : sqlval) (d : Db) : Db :=
  mkDb (products d)
       (update_where rowid (set_purchased purchased) (wedding_gift d))
       (journal d ++ [UpdateGift purchased rowid]).

Definition exec_delete_gift (rowid : sqlval) (d : Db) : Db :=
  mkDb (products d)
       (delete_where rowid (wedding_gift d))
       (journal d ++ [DeleteGift rowid]).

(** The insert of the factory; the second component is [cur.lastrowid]. *)
Definition exec_insert_gift (product_id purchased : sqlval) (d : Db) : Db * Z :=
  let rowid := next_rowid (wedding_gift d) in
  (mkDb (products d)
        (insert_row rowid (mkGiftRow product_id purchased) (wedding_gift d))
        (journal d ++ [InsertGift product_id purchased]),
   rowid).

(** The row with a given rowid, and from it the stored quantity of a
    product and the stored flag of a gift. *)
Definition lookup_row {A} (rowid : Z) (t : list (Z * A)) : option A :=
  (λ found, found.2.2) <$> list_find (λ zr, zr.1 = rowid) t.

Definition stored_quantity (d : Db) (rowid : Z) : option sqlval :=
  row_in_stock_quantity <$> lookup_row rowid (products d).

Definition stored_purchased (d : Db) (rowid : Z) : option sqlval :=
  row_purchased <$> lookup_row rowid (wedding_gift d).

(** ** Objects *)

(** A reference to an object: its position in the store of the objects of
    its class. A new object is added at the end, so a reference is never
    reused. *)
Abbreviation loc := nat.

(** The attributes that [Product.__init__] sets from a description. *)
Record ProductAttrs := mkProduct {
  product_id : pyval;
  name : pyval;
  brand : pyval;
  price : pyval;
  in_stock_quantity : pyval
}.

(** A [Product] instance. When [from_dict] is [None] or empty the
    constructor sets [db_conn] only: the instance has none of the five
    attributes. *)
Inductive ProductObj :=
| Unfilled
| Filled (p : ProductAttrs).

(** A [GiftItem] instance. Every call of the constructor in the source
    passes a rowid as [gift_id], a [Product] as [product] and a boolean as
    [purchased]; [product] is a reference, not a copy. *)
Record GiftItemObj := mkGiftItem {
  gift_id : Z;
  product : loc;
  _purchased : bool
}.

(** The state that the methods act on: the objects that exist and the
    database behind the one connection that they all hold. *)
Record World := mkWorld {
  product_objs : list ProductObj;
  gift_objs : list GiftItemObj;
  db : Db
}.

(** ** Methods as state transformers *)

(** A method maps the world to its outcome and the world that it leaves:
    an exception does not undo what was done before it was raised. *)
Definition M (A : Type) : Type := World → result A * World.

#[global] Instance M_ret : MRet M := λ A a w, (inr a, w).

#[global] Instance M_bind : MBind M := λ A B k m w,
  match m w with
  | (inl e, w') => (inl e, w')
  | (inr a, w') => k a w'
  end.

Definition raise {A} (e : exn) : M A := λ w, (inl e, w).

Definition lift {A} (r : result A) : M A := λ w, (r, w).

Definition get_db : M Db := λ w, (inr (db w), w).

Definition put_db (d : Db) : M unit :=
  λ w, (inr (), mkWorld (product_objs w) (gift_objs w) d).

(** Following a reference. One that denotes no object of the class stands
    for a value of another type, on which the attribute is missing. *)
Definition get_product (l : loc) : M ProductObj := λ w,
  match product_objs w !! l with
  | Some o => (inr o, w)
  | None => (inl AttributeError, w)
  end.

Definition get_gift (l : loc) : M GiftItemObj := λ w,
  match gift_objs w !! l with
  | Some o => (inr o, w)
  | None => (inl AttributeError, w)
  end.

(** [self.attr]: an instance without the attributes raises. *)
Definition get_attrs (l : loc) : M ProductAttrs :=
  o ← get_product l;
  match o with
  | Filled p => mret p
  | Unfilled => raise AttributeError
  end.

Definition set_product (l : loc) (o : ProductObj) : M unit :=
  λ w, (inr (), mkWorld (<[l := o]> (product_objs w)) (gift_objs w) (db w)).

Definition set_gift (l : loc) (o : GiftItemObj) : M unit :=
  λ w, (inr (), mkWorld (product_objs w) (<[l := o]> (gift_objs w)) (db w)).

Definition alloc_product (o : ProductObj) : M loc :=
  λ w, (inr (length (product_objs w)),
        mkWorld (product_objs w ++ [o]) (gift_objs w) (db w)).

Definition alloc_gift (o : GiftItemObj) : M loc :=
  λ w, (inr (length (gift_objs w)),
        mkWorld (product_objs w) (gift_objs w ++ [o]) (db w)).

(** A list comprehension whose element expression can raise. *)
Fixpoint for_each {A B} (f : A → M B) (l : list A) : M (list B) :=
  match l with
  | [] => mret []
  | a :: l' => b ← f a; bs ← for_each f l'; mret (b :: bs)
  end.

(** A list comprehension with a condition that can raise. *)
Fixpoint select {A} (f : A → M bool) (l : list A) : M (list A) :=
  match l with
  | [] => mret []
  | a :: l' => b ← f a; bs ← select f l'; mret (if b : bool then a :: bs else bs)
  end.

(** ** class Product *)

Module Product.

(** [from_dict[k]] *)
Definition getitem (from_dict : gmap string pyval) (k : string) : result pyval :=
  match from_dict !! k with
  | Some v => inr v
  | None => inl (KeyError k)
  end.

(** The branch of [__init__] that sets [self.price]. *)
Definition price_of (from_dict : gmap string pyval) : result pyval :=
  match from_dict !! "int_price" with
  | Some v => inr v
  | None =>
      match from_dict !! "price" with
      | Some (PyStr s) =>
          match price_re_match s with
          | Some (g1, g2) =>
              match py_int g1 with inl e => inl e | inr whole =>
              match py_int g2 with inl e => inl e | inr fractional =>
              inr (PyInt (whole * 100 + fractional))
              end end
          | None => inl AttributeError       (* None.groups() *)
          end
      | Some _ => inl TypeError              (* re.match on a non-string *)
      | None => inl PriceMissing
      end
  end.

(** [Product(db_conn, from_dict)]: the instance that the constructor
    builds, when it returns. [if from_dict:] is false for [None] and for
    the empty dictionary. *)
Definition __init__ (from_dict : option (gmap string pyval)) : result ProductObj :=
  match from_dict with
  | None => inr Unfilled
  | Some d =>
      if bool_decide (size d = 0%nat) then inr Unfilled else
      match getitem d "id" with inl e => inl e | inr i =>
      match getitem d "name" with inl e => inl e | inr n =>
      match getitem d "brand" with inl e => inl e | inr b =>
      match price_of d with inl e => inl e | inr p =>
      match getitem d "in_stock_quantity" with inl e => inl e | inr q =>
      inr (Filled (mkProduct i n b p q))
      end end end end end
  end.

(** The expression [Product(db_conn, from_dict=...)]: a new object, or the
    exception of the constructor and no object. *)
Definition new (from_dict : option (gmap string pyval)) : M loc :=
  o ← lift (__init__ from_dict); alloc_product o.

Definition purchase (self : loc) : M unit :=
  p ← get_attrs self;
  in_stock ← lift (py_gt0 (in_stock_quantity p));
  if in_stock : bool then
    quantity ← lift (py_sub1 (in_stock_quantity p));
    set_product self
      (Filled (mkProduct (product_id p) (name p) (brand p) (price p) quantity));;
    (* Write back to database. *)
    q ← lift (to_sql quantity);
    i ← lift (to_sql (product_id p));
    d ← get_db;
    put_db (exec_update_stock q i d)
  else raise OutOfStock.

(** [get_example_gift_repository], on the descriptions that
    [json.loads] reads from the repository file. *)
Definition get_example_gift_repository (repo : list (gmap string pyval)) : M (list loc) :=
  for_each (λ gift_item, new (Some gift_item)) repo.

(** The dictionary that [get_gift_repository] builds from a row. *)
Definition dict_of_row (zr : Z * ProductRow) : gmap string pyval :=
  {[ "id" := PyInt zr.1;
     "name" := of_sql (row_name zr.2);
     "brand" := of_sql (row_brand zr.2);
     "int_price" := of_sql (row_price zr.2);
     "in_stock_quantity" := of_sql (row_in_stock_quantity zr.2) ]}.

Definition get_gift_repository : M (list loc) :=
  d ← get_db;
  for_each (λ row, new (Some (dict_of_row row))) (products d).

Definition get_product_by_id (requested : pyval) : M loc :=
  products ← get_gift_repository;
  (* Attempt to look up product. *)
  found ← select (λ product, p ← get_attrs product;
                             mret (py_eq (product_id p) requested)) products;
  match found with
  | product :: _ => mret product
  | [] => raise UnknownProduct
  end.

End Product.

(** ** class GiftItem *)

Module GiftItem.

Definition purchase (self : loc) : M unit :=
  g ← get_gift self;
  Product.purchase (product g);;
  (* Assuming OutOfStock was not raised, mark as purchased. *)
  set_gift self (mkGiftItem (gift_id g) (product g) true);;
  (* Write back to database. *)
  d ← get_db;
  put_db (exec_update_gift (SqlInt 1) (SqlInt (gift_id g)) d).

(** The property [purchased]. *)
Definition purchased (self : loc) : M bool :=
  g ← get_gift self; mret (_purchased g).

Definition remove (self : loc) : M unit :=
  g ← get_gift self;
  d ← get_db;
  put_db (exec_delete_gift (SqlInt (gift_id g)) d).

Definition get_new_gift_item (product : loc) : M loc :=
  p ← get_attrs product;
  i ← lift (to_sql (product_id p));
  d ← get_db;
  let '(d', gift_row_id) := exec_insert_gift i (SqlInt 0) d in
  put_db d';;
  alloc_gift (mkGiftItem gift_row_id product false).

End GiftItem.

(** ** class WeddingList *)

(** The list holds references to its members. [GiftItem] defines no
    [__eq__], so [==] on two gift items is the identity of objects. *)
Module WeddingList.

(** [self.index(gift)]: the first position whose element is [gift]. *)
Definition index (self : list loc) (gift : loc) : M nat :=
  match list_find (λ member, member = gift) self with
  | Some (i, _) => mret i
  | None => raise ValueError
  end.

(** [self[i]] *)
Definition getitem (self : list loc) (i : nat) : M loc :=
  match self !! i with
  | Some member => mret member
  | None => raise ValueError
  end.

Definition purchase_gift (self : list loc) (gift : loc) : M unit :=
  i ← index self gift;
  member ← getitem self i;
  GiftItem.purchase member.

Definition get_purchased_gift (self : list loc) : M (list loc) :=
  select (λ a, GiftItem.purchased a) self.

Definition get_non_purchased_gift (self : list loc) : M (list loc) :=
  select (λ a, b ← GiftItem.purchased a; mret (negb b)) self.

Definition get_wedding_gifts : M (list loc) :=
  d ← get_db;
  for_each (λ gift : Z * GiftRow,
              product ← Product.get_product_by_id (of_sql (row_product_id gift.2));
              purchased ← lift (py_gt0 (of_sql (row_purchased gift.2)));
              alloc_gift (mkGiftItem gift.1 product purchased))
           (wedding_gift d).

(** [append] and [remove] of [UserList], which return the new contents
    here. [remove] takes out the first occurrence. *)
Definition append (self : list loc) (gift : loc) : list loc := self ++ [gift].

Definition remove (self : list loc) (gift : loc) : M (list loc) :=
  i ← index self gift; mret (delete i self).

End WeddingList.

(** ** [init_db] of [wedding_lister.py] *)

(** The insert of one product of the example repository. The rowid is the
    product's [id]. (A text or a real that SQLite would read as a whole
    number is not modelled as a rowid: it is refused here. What SQLite
    makes of a bound value by the type of its column is not modelled
    either: a cell holds the value as it was bound.) *)
Definition exec_insert_product (rowid : sqlval) (row : ProductRow) : M unit :=
  d ← get_db;
  z ← match rowid with
      | SqlInt z => mret z
      | SqlNull => mret (next_rowid (products d))
      | SqlReal _ | SqlText _ => raise IntegrityError
      end;
  if bool_decide (z ∈ (products d).*1) then raise IntegrityError else
  put_db (mkDb (insert_row z row (products d)) (wedding_gift d)
               (journal d ++ [InsertProduct rowid row])).

Definition insert_example_product (gift : loc) : M unit :=
  p ← get_attrs gift;
  hundredth ← lift (py_div100 (price p));
  i ← lift (to_sql (product_id p));
  n ← lift (to_sql (name p));
  b ← lift (to_sql (brand p));
  c ← lift (to_sql hundredth);
  q ← lift (to_sql (in_stock_quantity p));
  exec_insert_product i (mkProductRow n b c q).

(** [init_db]. [has_products_table] is the outcome of the look into
    [sqlite_master], and [repo] the content of the repository file. The
    script creates the two tables, empty. *)
Definition init_db (has_products_table : bool) (repo : list (gmap string pyval)) : M unit :=
  if has_products_table then mret () else
  d ← get_db;
  put_db (mkDb [] [] (journal d ++ [CreateSchema]));;
  (* Add example gift repository. *)
  gift_repo ← Product.get_example_gift_repository repo;
  for_each insert_example_product gift_repo;;
  mret ().

(** Running a method. *)
Definition outcome {A} (m : M A) (w : World) : result A := (m w).1.
Definition after {A} (m : M A) (w : World) : World := (m w).2.

(** ** Vocabulary of the statements *)

(** The attributes [p] with the stock quantity [q]. *)
Definition with_quantity (p : ProductAttrs) (q : pyval) : ProductAttrs :=
  mkProduct (product_id p) (name p) (brand p) (price p) q.

(** The attributes of the object that a row of [products] becomes. *)
Definition attrs_of_row (zr : Z * ProductRow) : ProductAttrs :=
  mkProduct (PyInt zr.1) (of_sql (row_name zr.2)) (of_sql (row_brand zr.2))
            (of_sql (row_price zr.2)) (of_sql (row_in_stock_quantity zr.2)).

(** The world after a scan of [products]: one new object for each row. *)
Definition loaded (w : World) : World :=
  mkWorld (product_objs w ++ (Filled ∘ attrs_of_row <$> products (db w)))
          (gift_objs w) (db w).

(** A row of [products] has the identity [v], by Python's [==]. *)
Definition product_exists (d : Db) (v : pyval) : Prop :=
  ∃ zr, zr ∈ products d ∧ py_eq (PyInt zr.1) v = true.

(** The flag of a gift row can be read: [gift[2] > 0] has a value. *)
Definition flag_readable (gift : Z * GiftRow) : Prop :=
  ∃ flag, py_gt0 (of_sql (row_purchased gift.2)) = inr flag.

(** The object [l] of the world [w] is the gift item of the row [gift]: it
    has the row's identity and flag, and its product is an object made
    from the row of [products] that the gift refers to. *)
Definition gift_loaded (w : World) (gift : Z * GiftRow) (l : loc) : Prop :=
  ∃ g zr,
    gift_objs w !! l = Some g ∧
    gift_id g = gift.1 ∧
    py_gt0 (of_sql (row_purchased gift.2)) = inr (_purchased g) ∧
    zr ∈ products (db w) ∧
    py_eq (PyInt zr.1) (of_sql (row_product_id gift.2)) = true ∧
    product_objs w !! product g = Some (Filled (attrs_of_row zr)).

(** The objects of [w] are objects of [w'], unchanged, and the database is
    the same. *)
Definition extends (w w' : World) : Prop :=
  product_objs w `prefix_of` product_objs w' ∧
  gift_objs w `prefix_of` gift_objs w' ∧
  db w' = db w.

(** The body of the comprehension of [get_wedding_gifts]. *)
Definition load_gift (gift : Z * GiftRow) : M loc :=
  product ← Product.get_product_by_id (of_sql (row_product_id gift.2));
  purchased ← lift (py_gt0 (of_sql (row_purchased gift.2)));
  alloc_gift (mkGiftItem gift.1 product purchased).

(** The operations of the model, as a caller can invoke them. *)
Inductive operation :=
| Product_purchase (product : loc)
| Product_get_example_gift_repository (repo : list (gmap string pyval))
| Product_get_gift_repository
| Product_get_product_by_id (requested : pyval)
| GiftItem_purchase (gift : loc)
| GiftItem_purchased (gift : loc)
| GiftItem_remove (gift : loc)
| GiftItem_get_new_gift_item (product : loc)
| WeddingList_purchase_gift (self : list loc) (gift : loc)
| WeddingList_get_purchased_gift (self : list loc)
| WeddingList_get_non_purchased_gift (self : list loc)
| WeddingList_get_wedding_gifts
| WeddingList_remove (self : list loc) (gift : loc)
| Init_db (has_products_table : bool) (repo : list (gmap string pyval)).

(** An operation as a step of the world; what it returns is dropped. *)
Definition run (o : operation) : M unit :=
  match o with
  | Product_purchase product => Product.purchase product
  | Product_get_example_gift_repository repo =>
      Product.get_example_gift_repository repo;; mret ()
  | Product_get_gift_repository => Product.get_gift_repository;; mret ()
  | Product_get_product_by_id requested => Product.get_product_by_id requested;; mret ()
  | GiftItem_purchase gift => GiftItem.purchase gift
  | GiftItem_purchased gift => GiftItem.purchased gift;; mret ()
  | GiftItem_remove gift => GiftItem.remove gift
  | GiftItem_get_new_gift_item product => GiftItem.get_new_gift_item product;; mret ()
  | WeddingList_purchase_gift self gift => WeddingList.purchase_gift self gift
  | WeddingList_get_purchased_gift self => WeddingList.get_purchased_gift self;; mret ()
  | WeddingList_get_non_purchased_gift self =>
      WeddingList.get_non_purchased_gift self;; mret ()
  | WeddingList_get_wedding_gifts => WeddingList.get_wedding_gifts;; mret ()
  | WeddingList_remove self gift => WeddingList.remove self gift;; mret ()
  | Init_db has_products_table repo => init_db has_products_table repo
  end.

(** The world after a sequence of operations, whatever each one returns or
    raises. *)
Definition run_all (os : list operation) (w : World) : World :=
  foldl (λ w o, after (run o) w) w os.


(** A method leaves every world in the relation [R] to the world it
    started from, whether it returns or raises. *)
Definition preserves {A} (R : World → World → Prop) (m : M A) : Prop :=
  ∀ w, R w (m w).2.

(** The gift items are the same objects in the same state. *)
Definition same_gifts (w w' : World) : Prop := gift_objs w' = gift_objs w.

(** The gift items that exist are in the same state; there may be new
    ones. *)
Definition more_gifts (w w' : World) : Prop := gift_objs w `prefix_of` gift_objs w'.

(** The flag of the gift item [l] in the world [w]. *)
Definition is_purchased (w : World) (l : loc) : bool :=
  match gift_objs w !! l with
  | Some g => _purchased g
  | None => false
  end.

(** The list of which [xs] holds, in their order, the elements at the
    positions marked [true] and [ys] those at the positions marked
    [false]. *)
Fixpoint interleave {A} (marks : list bool) (xs ys : list A) : list A :=
  match marks, xs, ys with
  | true :: marks', x :: xs', _ => x :: interleave marks' xs' ys
  | false :: marks', _, y :: ys' => y :: interleave marks' xs ys'
  | _, _, _ => []
  end.


(** ** Example data *)

(** A description in the form of the repository file. *)
Definition tea_pot : gmap string pyval :=
  {[ "id" := PyInt 1; "name" := PyStr "Tea pot"; "brand" := PyStr "Le Creuset";
     "price" := PyStr "12.50GBP"; "in_stock_quantity" := PyInt 50 ]}.

(** The same product priced in pence, in another currency, and with the
    other numbers of fractional digits. *)
Definition with_int_price (v : pyval) : gmap string pyval :=
  <["int_price" := v]> (delete "price" tea_pot).

Definition with_price (v : pyval) : gmap string pyval :=
  <["price" := v]> tea_pot.

(** A price whose whole part has 4301 digits. *)
Definition long_whole : string := Nat.iter 4301 (String (Ascii.ascii_of_nat 49)) "".

Definition long_price : string := long_whole +:+ ".00GBP".

(** No object and no table row. *)
Definition empty_world : World := mkWorld [] [] (mkDb [] [] []).

(** A store with one product, in stock or not, and one gift for it, and
    the objects that [get_wedding_gifts] makes of them. *)
Definition example_db (stock : Z) : Db :=
  mkDb [(1, mkProductRow (SqlText "Tea pot") (SqlText "Le Creuset") (SqlInt 1250)
              (SqlInt stock))]
       [(1, mkGiftRow (SqlInt 1) (SqlInt 0))]
       [].

Definition example_world (stock : Z) : World :=
  mkWorld [Filled (mkProduct (PyInt 1) (PyStr "Tea pot") (PyStr "Le Creuset")
                             (PyInt 1250) (PyInt stock))]
          [mkGiftItem 1 0%nat false]
          (example_db stock).

(** The same store after the wedding list was loaded twice: two objects
    for the one gift row. *)
Definition loaded_twice : World :=
  after (WeddingList.get_wedding_gifts;; WeddingList.get_wedding_gifts)
        (mkWorld [] [] (example_db 3)).

(** 12.5 as a binary64 number: 25 / 2. *)
Definition twelve_and_a_half : pyfloat :=
  float_div (binary_normalize prec emax 25 0 false) (binary_normalize prec emax 2 0 false).

(** ** Vocabulary of the further statements *)

(** The first row of [products] whose identity is [v] by Python's [==],
    with its position in the scan: the row that [get_product_by_id]
    answers with. *)
Definition find_product (d : Db) (v : pyval) : option (nat * (Z * ProductRow)) :=
  list_find (λ zr, py_eq (PyInt zr.1) v = true) (products d).

(** The gift item that [get_wedding_gifts] makes of a row, when the
    product of the row is the object [product]. *)
Definition gift_of_row (gift : Z * GiftRow) (product : loc) (purchased : bool) : GiftItemObj :=
  mkGiftItem gift.1 product purchased.

(** The rowids of both tables increase along the scan; in particular no
    two rows of a table have the same rowid. *)
Definition rowids_increasing (d : Db) : Prop :=
  StronglySorted Z.lt (products d).*1 ∧ StronglySorted Z.lt (wedding_gift d).*1.

(** The object [g] is the gift item of the row [gift] of the database
    [d]: it has the row's identity and flag, and its product is an object
    of [w] made from the row of [products] that the lookup finds for the
    gift. *)
Definition gift_object_of (w : World) (d : Db) (gift : Z * GiftRow) (g : GiftItemObj) : Prop :=
  ∃ i zr,
    find_product d (of_sql (row_product_id gift.2)) = Some (i, zr) ∧
    py_gt0 (of_sql (row_purchased gift.2)) = inr (_purchased g) ∧
    gift_id g = gift.1 ∧
    product_objs w !! product g = Some (Filled (attrs_of_row zr)).

(** The database is the same. *)
Definition same_db (w w' : World) : Prop := db w' = db w.

(** A method keeps the property [I] of the world: if it holds before, it
    holds after, whether the method returns or raises. *)
Definition keeps (I : World → Prop) (w w' : World) : Prop := I w → I w'.

(** Every stock quantity is a non-negative integer: the one of every
    product object that has its attributes, and the stored one of every
    row of [products]. *)
Definition stock_ok (w : World) : Prop :=
  (∀ l p, product_objs w !! l = Some (Filled p) →
          ∃ n, in_stock_quantity p = PyInt n ∧ 0 ≤ n) ∧
  (∀ zr, zr ∈ products (db w) →
         ∃ n, row_in_stock_quantity zr.2 = SqlInt n ∧ 0 ≤ n).

(** The stock quantity of a description, when it has one, is a
    non-negative integer. *)
Definition stock_ok_description (d : gmap string pyval) : Prop :=
  ∀ v, d !! "in_stock_quantity" = Some v → ∃ n, v = PyInt n ∧ 0 ≤ n.

(** The descriptions that an operation reads from a repository file have
    such quantities. *)
Definition repository_ok (o : operation) : Prop :=
  match o with
  | Product_get_example_gift_repository repo | Init_db _ repo =>
      Forall stock_ok_description repo
  | _ => True
  end.

(** Nothing has changed. *)
Definition unchanged (w w' : World) : Prop := w' = w.

(** The rowid and the row that [init_db] binds for a product of the
    example repository: the tuple of the insert, with the price divided by
    [100.]. *)
Definition example_row (p : ProductAttrs) : result (sqlval * ProductRow) :=
  match py_div100 (price p) with inl e => inl e | inr hundredth =>
  match to_sql (product_id p) with inl e => inl e | inr i =>
  match to_sql (name p) with inl e => inl e | inr n =>
  match to_sql (brand p) with inl e => inl e | inr b =>
  match to_sql hundredth with inl e => inl e | inr c =>
  match to_sql (in_stock_quantity p) with inl e => inl e | inr q =>
  inr (i, mkProductRow n b c q)
  end end end end end end.

(** The description [d] makes the product row [zr] at the bootstrap: the
    constructor returns a product for it, and the tuple of that product
    has the integer rowid and the cells of [zr]. *)
Definition imports_as (d : gmap string pyval) (zr : Z * ProductRow) : Prop :=
  ∃ p, Product.__init__ (Some d) = inr (Filled p) ∧
       example_row p = inr (SqlInt zr.1, zr.2).

(** The description [d] is imported with the rowid [z]: the constructor
    returns a product for it, every value of the tuple of that product can
    be bound, and the id is the integer [z]. *)
Definition imports_with_rowid (d : gmap string pyval) (z : Z) : Prop :=
  ∃ p row, Product.__init__ (Some d) = inr (Filled p) ∧
           example_row p = inr (SqlInt z, row).

(** A store with one product, three in stock, and two gifts for it, and
    the world after the wedding list was loaded from it. *)
Definition two_gifts_db : Db :=
  mkDb [(1, mkProductRow (SqlText "Tea pot") (SqlText "Le Creuset") (SqlInt 1250)
              (SqlInt 3))]
       [(1, mkGiftRow (SqlInt 1) (SqlInt 0)); (2, mkGiftRow (SqlInt 1) (SqlInt 0))]
       [].

Definition two_gifts_loaded : World :=
  after WeddingList.get_wedding_gifts (mkWorld [] [] two_gifts_db).


(** ** The routes of [wedding_lister.py] *)

(** What [jsonify] is given, as the tree that the encoder walks: a scalar,
    a list, or a dictionary with its members in the order of the source.
    The rendering of the tree as text is not modelled. *)
#[warnings="-register-all"]
Inductive json :=
| JVal (v : pyval)
| JArr (items : list json)
| JObj (members : list (string * json)).

(** What a route answers with: the body given to [jsonify], or the
    [BadRequest] that it raises, which Flask turns into the response 400
    and after which the route does nothing more. Any other exception
    leaves the route as it was raised. *)
Inductive response :=
| Ok (body : json)
| BadRequest (unknown_gift_id : Z).

(** The truth value of a scalar, as [if] takes it. *)
Definition truthy (v : pyval) : bool :=
  match v with
  | PyNone => false
  | PyBool b => b
  | PyInt z => negb (z =? 0)
  | PyFloat f => negb (SFeqb f float_zero)
  | PyStr s => negb (bool_decide (s = ""))
  end.

(** [Product.to_json], which [CustomJSONEncoder.default] hands to the
    encoder: a dictionary of scalars. *)
Definition Product_to_json (self : loc) : M json :=
  p ← get_attrs self;
  mret (JObj [("id", JVal (product_id p));
              ("name", JVal (name p));
              ("brand", JVal (brand p));
              ("price", JVal (price p));
              ("in_stock_quantity", JVal (in_stock_quantity p))]).

(** [GiftItem.to_json]. The dictionary holds the product itself, for which
    the encoder asks [default] again. *)
Definition GiftItem_to_json (self : loc) : M json :=
  g ← get_gift self;
  purchased ← GiftItem.purchased self;
  product_json ← Product_to_json (product g);
  mret (JObj [("id", JVal (PyInt (gift_id g)));
              ("product", product_json);
              ("purchased", JVal (PyBool purchased))]).

(** [WeddingList.to_json], with the two lists encoded member by member. *)
Definition WeddingList_to_json (self : list loc) : M json :=
  purchased_gifts ← WeddingList.get_purchased_gift self;
  not_purchased_gifts ← WeddingList.get_non_purchased_gift self;
  purchased_json ← for_each GiftItem_to_json purchased_gifts;
  not_purchased_json ← for_each GiftItem_to_json not_purchased_gifts;
  mret (JObj [("purchased_gifts", JArr purchased_json);
              ("not_purchased_gifts", JArr not_purchased_json)]).

(** GET /available-products *)
Definition available_products : M response :=
  products ← Product.get_gift_repository;
  body ← for_each Product_to_json products;
  mret (Ok (JArr body)).

(** GET /wedding-list *)
Definition get_wedding_list : M response :=
  wedding_gifts ← WeddingList.get_wedding_gifts;
  body ← for_each GiftItem_to_json wedding_gifts;
  mret (Ok (JArr body)).

(** GET /wedding-list-report *)
Definition get_wedding_list_report : M response :=
  wedding_gifts ← WeddingList.get_wedding_gifts;
  body ← WeddingList_to_json wedding_gifts;
  mret (Ok body).

(** PUT /wedding-list. [request_json] is the body of the request, a JSON
    object with scalar members. *)
Definition add_to_wedding_list (request_json : gmap string pyval) : M response :=
  wedding_gifts ← WeddingList.get_wedding_gifts;
  requested ← lift (Product.getitem request_json "product_id");
  product ← Product.get_product_by_id requested;
  new_gift ← GiftItem.get_new_gift_item product;
  let wedding_gifts := WeddingList.append wedding_gifts new_gift in
  g ← get_gift new_gift;
  mret (Ok (JObj [("gift_id", JVal (PyInt (gift_id g)))])).

(** [[gift for gift in wedding_gifts if gift.gift_id == gift_id]] *)
Definition found_gift (wedding_gifts : list loc) (requested : Z) : M (list loc) :=
  select (λ gift, g ← get_gift gift; mret (gift_id g =? requested)) wedding_gifts.

(** PATCH /wedding-list/<int:gift_id> *)
Definition purchase_gift_from_wedding_list (requested : Z)
    (request_json : gmap string pyval) : M response :=
  purchase ← lift (Product.getitem request_json "purchase");
  if truthy purchase then
    wedding_gifts ← WeddingList.get_wedding_gifts;
    found ← found_gift wedding_gifts requested;
    match found with
    | [] => mret (BadRequest requested)
    | gift :: _ => GiftItem.purchase gift;; mret (Ok (JObj []))
    end
  else mret (Ok (JObj [])).

(** DELETE /wedding-list/<int:gift_id> *)
Definition remove_from_wedding_list (requested : Z) : M response :=
  wedding_gifts ← WeddingList.get_wedding_gifts;
  found ← found_gift wedding_gifts requested;
  match found with
  | [] => mret (BadRequest requested)
  | gift :: _ =>
      WeddingList.remove wedding_gifts gift;;
      (* This could be incorporated into the list remove functionality. *)
      GiftItem.remove gift;;
      mret (Ok (JObj []))
  end.

(** A request to the service, and the route that serves it. *)
Inductive request :=
| GET_available_products
| GET_wedding_list
| GET_wedding_list_report
| PUT_wedding_list (request_json : gmap string pyval)
| PATCH_wedding_list (requested : Z) (request_json : gmap string pyval)
| DELETE_wedding_list (requested : Z).

Definition serve (r : request) : M response :=
  match r with
  | GET_available_products => available_products
  | GET_wedding_list => get_wedding_list
  | GET_wedding_list_report => get_wedding_list_report
  | PUT_wedding_list request_json => add_to_wedding_list request_json
  | PATCH_wedding_list requested request_json =>
      purchase_gift_from_wedding_list requested request_json
  | DELETE_wedding_list requested => remove_from_wedding_list requested
  end.

(** The world after a sequence of requests, whatever each one is answered
    with. *)
Definition serve_all (rs : list request) (w : World) : World :=
  foldl (λ w r, after (serve r) w) w rs.

(** ** Vocabulary of the statements about the routes *)

(** A gift row can be loaded: its flag can be read and its product is
    found. The wedding list of a database can be loaded when all its rows
    can. *)
Definition loadable_row (d : Db) (gift : Z * GiftRow) : Prop :=
  flag_readable gift ∧ product_exists d (of_sql (row_product_id gift.2)).

Definition loadable (d : Db) : Prop := Forall (loadable_row d) (wedding_gift d).

(** The JSON view of a row of [products]. *)
Definition product_view (zr : Z * ProductRow) : json :=
  JObj [("id", JVal (PyInt zr.1));
        ("name", JVal (of_sql (row_name zr.2)));
        ("brand", JVal (of_sql (row_brand zr.2)));
        ("price", JVal (of_sql (row_price zr.2)));
        ("in_stock_quantity", JVal (of_sql (row_in_stock_quantity zr.2)))].

(** The flag and the JSON view of a gift row, with the row of [products]
    that the lookup finds for it. *)
Definition gift_view (d : Db) (gift : Z * GiftRow) : option (bool * json) :=
  match find_product d (of_sql (row_product_id gift.2)),
        py_gt0 (of_sql (row_purchased gift.2)) with
  | Some (_, zr), inr purchased =>
      Some (purchased, JObj [("id", JVal (PyInt gift.1));
                             ("product", product_view zr);
                             ("purchased", JVal (PyBool purchased))])
  | _, _ => None
  end.

(** The store that the routes keep: rowids increase along a scan, the
    wedding list can be loaded, and every product has a rowid and a stock
    quantity that are integers of 64 bits, the quantity not negative. *)
Definition store_ok (d : Db) : Prop :=
  rowids_increasing d ∧ loadable d ∧
  ∀ zr, zr ∈ products d →
        fits_int64 zr.1 = true ∧
        ∃ n, row_in_stock_quantity zr.2 = SqlInt n ∧ 0 ≤ n < 2 ^ 63.

(** The requests that load the wedding list. *)
Definition loads_wedding_list (r : request) : Prop :=
  match r with
  | GET_available_products => False
  | GET_wedding_list | GET_wedding_list_report | PUT_wedding_list _
  | DELETE_wedding_list _ => True
  | PATCH_wedding_list _ request_json =>
      ∃ v, request_json !! "purchase" = Some v ∧ truthy v = true
  end.

(** A store whose only gift row refers to a product that is not there. *)
Definition dangling_world : World :=
  mkWorld [] []
          (mkDb [(1, mkProductRow (SqlText "Tea pot") (SqlText "Le Creuset") (SqlInt 1250)
                       (SqlInt 3))]
                [(1, mkGiftRow (SqlInt 7) (SqlInt 0))]
                []).

(** The products of [d'] are those of [d], row by row with the same
    rowid, name, brand and price: only stock quantities may differ. *)
Definition same_catalogue (d d' : Db) : Prop :=
  Forall2 (λ zr zr' : Z * ProductRow,
             zr'.1 = zr.1 ∧ row_name zr'.2 = row_name zr.2 ∧
             row_brand zr'.2 = row_brand zr.2 ∧ row_price zr'.2 = row_price zr.2)
          (products d) (products d').

Definition keeps_catalogue (w w' : World) : Prop := same_catalogue (db w) (db w').

(** A product row whose rowid and stock quantity are integers of 64 bits,
    the quantity not negative. *)
Definition row_in_range (zr : Z * ProductRow) : Prop :=
  fits_int64 zr.1 = true ∧
  ∃ n, row_in_stock_quantity zr.2 = SqlInt n ∧ 0 ≤ n < 2 ^ 63.
(** * Properties *)

(** ** The price pattern *)

Lemma digits_plus_sound s g r :
  (g, r) ∈ digits_plus s → s = g +:+ r ∧ g ≠ "" ∧ all_digits g = true.
Proof.
  revert g r. induction s as [|c s IH]; intros g r; simpl.
  - by intros ?%elem_of_nil.
  - destruct (is_digit c) eqn:Hc; [|by intros ?%elem_of_nil].
    rewrite elem_of_app, list_elem_of_fmap, list_elem_of_singleton.
    intros [([g' r'] & [= -> ->] & Hin)|[= -> ->]].
    + destruct (IH _ _ Hin) as (-> & _ & Hd). simpl. by rewrite Hc, Hd.
    + simpl. by rewrite Hc.
Qed.

Lemma digits_plus_complete g r :
  g ≠ "" → all_digits g = true → (g, r) ∈ digits_plus (g +:+ r).
Proof.
  induction g as [|c g IH]; [done|]. intros _ [Hc Hg]%andb_prop. simpl.
  rewrite Hc, elem_of_app, list_elem_of_fmap, list_elem_of_singleton.
  destruct g as [|c' g]; [by right|].
  left. exists (String c' g, r). split; [done|]. by apply IH.
Qed.

Lemma literal_sound p s r : r ∈ literal p s → s = p +:+ r.
Proof.
  revert s. induction p as [|a p IH]; intros s; simpl.
  - by intros ->%list_elem_of_singleton.
  - destruct s as [|b s]; [by intros ?%elem_of_nil|].
    case_bool_decide; [|by intros ?%elem_of_nil]. intros ->%IH. by subst.
Qed.

Lemma literal_complete p r : literal p (p +:+ r) = [r].
Proof. induction p as [|a p IH]; [by destruct r|]. simpl. by rewrite bool_decide_true. Qed.

Lemma digit_run_unique g g' c c' t t' :
  all_digits g = true → all_digits g' = true →
  is_digit c = false → is_digit c' = false →
  g +:+ String c t = g' +:+ String c' t' → g = g' ∧ c = c' ∧ t = t'.
Proof.
  revert g'. induction g as [|a g IH]; intros [|a' g']; simpl;
    intros Hg Hg' Hc Hc' Heq; simplify_eq.
  - done.
  - apply andb_prop in Hg' as [? _]. congruence.
  - apply andb_prop in Hg as [? _]. congruence.
  - apply andb_prop in Hg as [_ Hg]. apply andb_prop in Hg' as [_ Hg'].
    destruct (IH g' Hg Hg' Hc Hc') as (-> & -> & ->); done.
Qed.

Lemma price_re_alternatives_shape s g1 g2 :
  (g1, g2) ∈ price_re_alternatives s ↔ ∃ rest, price_shape s g1 g2 rest.
Proof.
  unfold price_re_alternatives, price_shape. split.
  - intros ([h1 r1] & (r2 & ([h2 r3] & (rest & Hx & H4)%list_elem_of_bind
      & H3)%list_elem_of_bind & H2)%list_elem_of_bind & H1)%list_elem_of_bind.
    apply list_elem_of_singleton in Hx as [= -> ->].
    apply digits_plus_sound in H1 as (-> & ? & ?).
    apply digits_plus_sound in H3 as (-> & ? & ?).
    apply literal_sound in H2 as ->. apply literal_sound in H4 as ->.
    by exists rest.
  - intros (rest & -> & [? ?] & [? ?]).
    apply list_elem_of_bind. exists (g1, "." +:+ g2 +:+ "GBP" +:+ rest).
    split; [|by apply digits_plus_complete].
    apply list_elem_of_bind. exists (g2 +:+ "GBP" +:+ rest).
    split; [|apply list_elem_of_singleton; done].
    apply list_elem_of_bind. exists (g2, "GBP" +:+ rest).
    split; [|by apply digits_plus_complete].
    apply list_elem_of_bind. exists rest. split; [by apply list_elem_of_singleton|].
    rewrite literal_complete.
    by apply list_elem_of_singleton.
Qed.

Lemma price_shape_unique s g1 g2 rest h1 h2 rest' :
  price_shape s g1 g2 rest → price_shape s h1 h2 rest' →
  g1 = h1 ∧ g2 = h2 ∧ rest = rest'.
Proof.
  intros (-> & [_ Hg1] & [_ Hg2]) (Heq & [_ Hh1] & [_ Hh2]).
  apply (digit_run_unique g1 h1) in Heq as (-> & _ & Heq); [|done..].
  apply (digit_run_unique g2 h2) in Heq as (-> & _ & Heq); [|done..].
  by simplify_eq.
Qed.

Lemma price_re_match_Some s g1 g2 :
  price_re_match s = Some (g1, g2) ↔ ∃ rest, price_shape s g1 g2 rest.
Proof.
  unfold price_re_match. split.
  - intros H. apply price_re_alternatives_shape.
    destruct (price_re_alternatives s); simplify_eq/=. apply list_elem_of_here.
  - intros [rest Hs].
    assert (Hin : (g1, g2) ∈ price_re_alternatives s)
      by (apply price_re_alternatives_shape; eauto).
    destruct (price_re_alternatives s) as [|[h1 h2] l] eqn:E; [by apply elem_of_nil in Hin|].
    assert (Hh : (h1, h2) ∈ price_re_alternatives s) by (rewrite E; apply list_elem_of_here).
    apply price_re_alternatives_shape in Hh as [rest' Hh].
    destruct (price_shape_unique _ _ _ _ _ _ _ Hs Hh) as (-> & -> & _). done.
Qed.

Lemma price_re_match_None s :
  price_re_match s = None ↔ ∀ g1 g2 rest, ¬ price_shape s g1 g2 rest.
Proof.
  split.
  - intros HN g1 g2 rest Hs.
    assert (price_re_match s = Some (g1, g2)) by (apply price_re_match_Some; eauto).
    congruence.
  - intros Hno. destruct (price_re_match s) as [[g1 g2]|] eqn:E; [|done].
    apply price_re_match_Some in E as [rest Hs]. by destruct (Hno g1 g2 rest).
Qed.

(** ** Tables *)

Lemma lookup_row_cons {A} rowid z (r : A) t :
  lookup_row rowid ((z, r) :: t) = if decide (z = rowid) then Some r else lookup_row rowid t.
Proof.
  unfold lookup_row. simpl. case_decide; [done|].
  by destruct (list_find _ t) as [[? [? ?]]|].
Qed.

Lemma update_where_cons {A} v (f : A → A) z r t :
  update_where v f ((z, r) :: t)
  = (if rowid_is v z then (z, f r) else (z, r)) :: update_where v f t.
Proof. done. Qed.

Lemma rowid_is_int z rowid : rowid_is (SqlInt z) rowid = bool_decide (rowid = z).
Proof. simpl. case_bool_decide; [by apply Z.eqb_eq | by apply Z.eqb_neq]. Qed.

Lemma lookup_row_update_where {A} rowid z (f : A → A) t :
  lookup_row rowid (update_where (SqlInt z) f t)
  = (if decide (rowid = z) then f else id) <$> lookup_row rowid t.
Proof.
  induction t as [|[y r] t IH]; [done|].
  rewrite update_where_cons, rowid_is_int.
  case_bool_decide; rewrite !lookup_row_cons; repeat case_decide; simplify_eq/=;
    try done; rewrite IH; by repeat case_decide.
Qed.

Lemma stored_quantity_update_stock d q z rowid :
  stored_quantity (exec_update_stock q (SqlInt z) d) rowid
  = if decide (rowid = z) then (λ _, q) <$> stored_quantity d rowid else stored_quantity d rowid.
Proof.
  unfold stored_quantity, exec_update_stock. simpl.
  rewrite lookup_row_update_where.
  case_decide; destruct (lookup_row rowid (products d)); done.
Qed.

Lemma stored_purchased_update_gift d q z rowid :
  stored_purchased (exec_update_gift q (SqlInt z) d) rowid
  = if decide (rowid = z) then (λ _, q) <$> stored_purchased d rowid else stored_purchased d rowid.
Proof.
  unfold stored_purchased, exec_update_gift. simpl.
  rewrite lookup_row_update_where.
  case_decide; destruct (lookup_row rowid (wedding_gift d)); done.
Qed.

(** ** Running a method *)

Lemma bind_inr {A B} (m : M A) (k : A → M B) w a w' :
  m w = (inr a, w') → (m ≫= k) w = k a w'.
Proof. unfold mbind, M_bind. by intros ->. Qed.

Lemma bind_inl {A B} (m : M A) (k : A → M B) w e w' :
  m w = (inl e, w') → (m ≫= k) w = (inl e, w').
Proof. unfold mbind, M_bind. by intros ->. Qed.

Lemma get_attrs_filled w l p :
  product_objs w !! l = Some (Filled p) → get_attrs l w = (inr p, w).
Proof. intros H. unfold get_attrs, get_product, mbind, M_bind. by rewrite H. Qed.

Lemma get_gift_live w l g :
  gift_objs w !! l = Some g → get_gift l w = (inr g, w).
Proof. intros H. unfold get_gift. by rewrite H. Qed.

(** ** Product.purchase *)

Lemma purchase_out_of_stock w self p n :
  product_objs w !! self = Some (Filled p) →
  in_stock_quantity p = PyInt n → n ≤ 0 →
  Product.purchase self w = (inl OutOfStock, w).
Proof.
  intros Hp Hq Hn. unfold Product.purchase.
  rewrite (bind_inr _ _ _ _ _ (get_attrs_filled _ _ _ Hp)), Hq.
  unfold mbind, M_bind, lift, raise. simpl.
  by rewrite (proj2 (Z.ltb_ge 0 n) Hn).
Qed.

Lemma purchase_in_stock w self p n pid :
  product_objs w !! self = Some (Filled p) →
  in_stock_quantity p = PyInt n → 0 < n → fits_int64 (n - 1) = true →
  product_id p = PyInt pid → fits_int64 pid = true →
  Product.purchase self w =
    (inr (),
     mkWorld (<[self := Filled (with_quantity p (PyInt (n - 1)))]> (product_objs w))
             (gift_objs w)
             (exec_update_stock (SqlInt (n - 1)) (SqlInt pid) (db w))).
Proof.
  intros Hp Hq Hn Hfit Hid Hpid. unfold Product.purchase, with_quantity.
  rewrite (bind_inr _ _ _ _ _ (get_attrs_filled _ _ _ Hp)), Hq, Hid.
  unfold mbind, M_bind, lift, raise, set_product, get_db, put_db. simpl.
  rewrite (proj2 (Z.ltb_lt 0 n) Hn). simpl. by rewrite Hfit, Hpid.
Qed.

(** C1. [Product.purchase] on a product of the store with a stock quantity
    [n >= 0] (an integer of the store: below 2^63) raises [OutOfStock]
    exactly when [n = 0]. Then nothing changes: the object, the tables and
    the journal of writes are as before. When [n > 0] it returns, the
    quantity of the object is [n - 1], the stored quantity of the product's
    row is [n - 1], and the one write is the update of that row. *)
Theorem C1_product_purchase w self p n pid :
  product_objs w !! self = Some (Filled p) →
  in_stock_quantity p = PyInt n → 0 ≤ n < 2 ^ 63 →
  product_id p = PyInt pid → fits_int64 pid = true →
  is_Some (stored_quantity (db w) pid) →
  (outcome (Product.purchase self) w = inl OutOfStock ↔ n = 0) ∧
  (n = 0 → Product.purchase self w = (inl OutOfStock, w)) ∧
  (0 < n →
   let w' := after (Product.purchase self) w in
   outcome (Product.purchase self) w = inr () ∧
   product_objs w' !! self = Some (Filled (with_quantity p (PyInt (n - 1)))) ∧
   stored_quantity (db w') pid = Some (SqlInt (n - 1)) ∧
   journal (db w') = journal (db w) ++ [UpdateStock (SqlInt (n - 1)) (SqlInt pid)]).
Proof.
  intros Hp Hq Hn Hid Hpid [q0 Hrow].
  assert (Hfit : 0 < n → fits_int64 (n - 1) = true).
  { intros ?. unfold fits_int64. apply andb_true_intro.
    split; [apply Z.leb_le | apply Z.ltb_lt]; lia. }
  unfold outcome, after. split; [|split].
  - destruct (decide (n = 0)) as [->|Hne].
    + by rewrite (purchase_out_of_stock w self p 0).
    + rewrite (purchase_in_stock w self p n pid) by (auto with lia). simpl.
      split; [done | lia].
  - intros ->. by apply (purchase_out_of_stock w self p 0).
  - intros Hpos. rewrite (purchase_in_stock w self p n pid) by auto. simpl.
    split_and!; [done| |..|done].
    + apply list_lookup_insert_eq. by eapply lookup_lt_Some.
    + rewrite stored_quantity_update_stock, decide_True, Hrow by done. done.
Qed.

(** ** GiftItem.purchase *)

(** The method is the product's purchase followed, when that returns, by
    the update of the flag, in memory and then in the table. *)
Lemma gift_purchase_delegates w self g :
  gift_objs w !! self = Some g →
  GiftItem.purchase self w =
    match Product.purchase (product g) w with
    | (inl e, w1) => (inl e, w1)
    | (inr _, w1) =>
        (inr (),
         mkWorld (product_objs w1)
                 (<[self := mkGiftItem (gift_id g) (product g) true]> (gift_objs w1))
                 (exec_update_gift (SqlInt 1) (SqlInt (gift_id g)) (db w1)))
    end.
Proof.
  intros Hg. unfold GiftItem.purchase.
  rewrite (bind_inr _ _ _ _ _ (get_gift_live _ _ _ Hg)).
  unfold mbind at 1, M_bind at 1.
  destruct (Product.purchase (product g) w) as [[e|[]] w1]; done.
Qed.

(** C2. [GiftItem.purchase] hands over to the purchase of the product that
    the gift refers to. An exception of that purchase is the exception of
    the call, and with [OutOfStock] the world is as it was: the flag of the
    gift, its row and the journal of writes are untouched. When the product
    is in stock the call returns, the flag of the object is true, the stored
    flag of the gift's row is 1, and the update of the flag is the write
    that follows the update of the stock. *)
Theorem C2_gift_purchase w self g p n pid :
  gift_objs w !! self = Some g →
  product_objs w !! product g = Some (Filled p) →
  in_stock_quantity p = PyInt n → 0 ≤ n < 2 ^ 63 →
  product_id p = PyInt pid → fits_int64 pid = true →
  (∀ e w1, Product.purchase (product g) w = (inl e, w1) →
           GiftItem.purchase self w = (inl e, w1)) ∧
  (n = 0 →
   outcome (Product.purchase (product g)) w = inl OutOfStock ∧
   GiftItem.purchase self w = (inl OutOfStock, w)) ∧
  (0 < n →
   let w' := after (GiftItem.purchase self) w in
   outcome (GiftItem.purchase self) w = inr () ∧
   gift_objs w' !! self = Some (mkGiftItem (gift_id g) (product g) true) ∧
   product_objs w' !! product g = Some (Filled (with_quantity p (PyInt (n - 1)))) ∧
   (is_Some (stored_purchased (db w) (gift_id g)) →
    stored_purchased (db w') (gift_id g) = Some (SqlInt 1)) ∧
   db w' = exec_update_gift (SqlInt 1) (SqlInt (gift_id g))
             (exec_update_stock (SqlInt (n - 1)) (SqlInt pid) (db w)) ∧
   journal (db w') = journal (db w) ++ [UpdateStock (SqlInt (n - 1)) (SqlInt pid);
                                         UpdateGift (SqlInt 1) (SqlInt (gift_id g))]).
Proof.
  intros Hg Hp Hq Hn Hid Hpid.
  assert (Hfit : 0 < n → fits_int64 (n - 1) = true).
  { intros ?. unfold fits_int64. apply andb_true_intro.
    split; [apply Z.leb_le | apply Z.ltb_lt]; lia. }
  split; [|split].
  - intros e w1 He. by rewrite (gift_purchase_delegates _ _ _ Hg), He.
  - intros ->. unfold outcome.
    rewrite (gift_purchase_delegates _ _ _ Hg).
    by rewrite (purchase_out_of_stock w (product g) p 0).
  - intros Hpos. unfold outcome, after.
    rewrite (gift_purchase_delegates _ _ _ Hg).
    rewrite (purchase_in_stock w (product g) p n pid) by auto. simpl.
    split_and!; try done.
    + apply list_lookup_insert_eq. by eapply lookup_lt_Some.
    + apply list_lookup_insert_eq. by eapply lookup_lt_Some.
    + intros [f Hf]. rewrite stored_purchased_update_gift, decide_True by done.
      unfold stored_purchased in *. simpl. by rewrite Hf.
    + by rewrite <- (assoc_L (++)).
Qed.

(** ** Loading products from the store *)

Lemma init_of_row zr :
  Product.__init__ (Some (Product.dict_of_row zr)) = inr (Filled (attrs_of_row zr)).
Proof. done. Qed.

Lemma new_of_row zr w :
  Product.new (Some (Product.dict_of_row zr)) w
  = (inr (length (product_objs w)),
     mkWorld (product_objs w ++ [Filled (attrs_of_row zr)]) (gift_objs w) (db w)).
Proof. unfold Product.new. by rewrite init_of_row. Qed.

Lemma for_each_new_rows rows w :
  for_each (λ row, Product.new (Some (Product.dict_of_row row))) rows w
  = (inr (seq (length (product_objs w)) (length rows)),
     mkWorld (product_objs w ++ (Filled ∘ attrs_of_row <$> rows)) (gift_objs w) (db w)).
Proof.
  revert w. induction rows as [|zr rows IH]; intros w; simpl.
  - rewrite app_nil_r. by destruct w.
  - rewrite (bind_inr _ _ _ _ _ (new_of_row zr w)).
    unfold mbind, M_bind. rewrite IH. simpl.
    rewrite length_app, <- (assoc_L (++)). simpl.
    by replace (length (product_objs w) + 1)%nat with (S (length (product_objs w))) by lia.
Qed.

Lemma get_gift_repository_spec w :
  Product.get_gift_repository w
  = (inr (seq (length (product_objs w)) (length (products (db w)))), loaded w).
Proof. unfold Product.get_gift_repository, get_db, mbind, M_bind. apply for_each_new_rows. Qed.

Lemma select_pure {A} (f : A → M bool) (P : A → bool) l w :
  (∀ a, a ∈ l → f a w = (inr (P a), w)) →
  select f l w = (inr (filter (λ a, P a = true) l), w).
Proof.
  induction l as [|a l IH]; intros Hf; [done|]. simpl.
  rewrite (bind_inr _ _ _ _ _ (Hf a (list_elem_of_here _ _))).
  unfold mbind, M_bind. rewrite IH by (intros; apply Hf; by apply list_elem_of_further).
  rewrite filter_cons. simpl. destruct (P a); by rewrite ?decide_True, ?decide_False by done.
Qed.

Lemma loaded_lookup w i zr :
  products (db w) !! i = Some zr →
  product_objs (loaded w) !! (length (product_objs w) + i)%nat = Some (Filled (attrs_of_row zr)).
Proof.
  intros H. unfold loaded. simpl.
  rewrite lookup_app_r by lia.
  replace (length (product_objs w) + i - length (product_objs w))%nat with i by lia.
  by rewrite list_lookup_fmap, H.
Qed.

(** The function that the lookup computes: the world is the one after the
    scan, and the answer is decided by the rows. *)
Lemma get_product_by_id_spec v w :
  ∃ r, Product.get_product_by_id v w = (r, loaded w) ∧
    ((r = inl UnknownProduct ∧ ¬ product_exists (db w) v) ∨
     (∃ l zr, r = inr l ∧ zr ∈ products (db w) ∧ py_eq (PyInt zr.1) v = true ∧
              product_objs (loaded w) !! l = Some (Filled (attrs_of_row zr)))).
Proof.
  set (base := length (product_objs w)).
  set (P := λ l : loc, match product_objs (loaded w) !! l with
                       | Some (Filled p) => py_eq (product_id p) v
                       | _ => false
                       end).
  assert (Hsel : select (λ product, p ← get_attrs product;
                                    mret (py_eq (product_id p) v))
                   (seq base (length (products (db w)))) (loaded w)
                 = (inr (filter (λ l, P l = true) (seq base (length (products (db w))))),
                    loaded w)).
  { apply select_pure. intros l [Hl1 Hl2]%elem_of_seq.
    destruct (lookup_lt_is_Some_2 (products (db w)) (l - base)) as [zr Hzr]; [lia|].
    pose proof (loaded_lookup w _ _ Hzr) as Hobj.
    replace (length (product_objs w) + (l - base))%nat with l in Hobj by (unfold base in *; lia).
    rewrite (bind_inr _ _ _ _ _ (get_attrs_filled _ _ _ Hobj)).
    unfold P; cbv beta. by rewrite Hobj. }
  unfold Product.get_product_by_id.
  rewrite (bind_inr _ _ _ _ _ (get_gift_repository_spec w)).
  fold base. rewrite (bind_inr _ _ _ _ _ Hsel).
  destruct (filter _ _) as [|l found] eqn:Hfound.
  - eexists. split; [done|]. left. split; [done|].
    intros (zr & [i Hi]%list_elem_of_lookup & Heq).
    assert (Hin : (base + i)%nat ∈ filter (λ l, P l = true) (seq base (length (products (db w))))).
    { apply list_elem_of_filter. split.
      - unfold P, base; cbv beta. by rewrite (loaded_lookup w _ _ Hi).
      - apply elem_of_seq. apply lookup_lt_Some in Hi. lia. }
    rewrite Hfound in Hin. by apply elem_of_nil in Hin.
  - eexists. split; [done|]. right.
    assert (Hin : l ∈ filter (λ l, P l = true) (seq base (length (products (db w)))))
      by (rewrite Hfound; apply list_elem_of_here).
    apply list_elem_of_filter in Hin as [HP [Hl1 Hl2]%elem_of_seq].
    destruct (lookup_lt_is_Some_2 (products (db w)) (l - base)) as [zr Hzr]; [lia|].
    pose proof (loaded_lookup w _ _ Hzr) as Hobj.
    replace (length (product_objs w) + (l - base))%nat with l in Hobj by (unfold base in *; lia).
    exists l, zr. split_and!; [done| |..|done].
    + apply list_elem_of_lookup. eauto.
    + unfold P in HP; cbv beta in HP. by rewrite Hobj in HP.
Qed.

Lemma py_eq_int x y : py_eq (PyInt x) (PyInt y) = true ↔ x = y.
Proof. simpl. apply Z.eqb_eq. Qed.

Lemma product_exists_int d z : product_exists d (PyInt z) ↔ z ∈ (products d).*1.
Proof.
  unfold product_exists. rewrite list_elem_of_fmap. split.
  - intros (zr & Hin & Heq%py_eq_int). exists zr. split; [by rewrite Heq|done].
  - intros (zr & -> & Hin). exists zr. by rewrite py_eq_int.
Qed.

(** ** Loading the wedding list from the store *)

Lemma extends_refl w : extends w w.
Proof. by split_and!. Qed.

Lemma extends_trans w1 w2 w3 : extends w1 w2 → extends w2 w3 → extends w1 w3.
Proof.
  intros (? & ? & H12) (? & ? & H23).
  split_and!; [by etrans..|congruence].
Qed.

Lemma extends_loaded w : extends w (loaded w).
Proof. split_and!; [by apply prefix_app_r|done..]. Qed.

Lemma gift_loaded_extends w w' gift l :
  extends w w' → gift_loaded w gift l → gift_loaded w' gift l.
Proof.
  intros (Hp & Hg & Hd) (g & zr & ? & ? & ? & ? & ? & ?).
  exists g, zr. rewrite Hd.
  split_and!; try done; by eapply prefix_lookup_Some.
Qed.

Lemma load_gift_spec gift flag w :
  py_gt0 (of_sql (row_purchased gift.2)) = inr flag →
  (¬ product_exists (db w) (of_sql (row_product_id gift.2)) ∧
   load_gift gift w = (inl UnknownProduct, loaded w)) ∨
  (product_exists (db w) (of_sql (row_product_id gift.2)) ∧
   ∃ l w', load_gift gift w = (inr l, w') ∧ extends w w' ∧ gift_loaded w' gift l).
Proof.
  intros Hflag. unfold load_gift.
  destruct (get_product_by_id_spec (of_sql (row_product_id gift.2)) w)
    as (r & Hr & [[-> Hno]|(l & zr & -> & Hin & Heq & Hobj)]).
  - left. split; [done|]. by rewrite (bind_inl _ _ _ _ _ Hr).
  - right. split; [by exists zr|].
    rewrite (bind_inr _ _ _ _ _ Hr), Hflag.
    eexists _, _. split; [reflexivity|]. split.
    + split_and!; simpl; [by apply prefix_app_r|by apply prefix_app_r|done].
    + exists (mkGiftItem gift.1 l flag), zr. simpl.
      split_and!; try done.
      rewrite lookup_app_r by done. by rewrite Nat.sub_diag.
Qed.

Lemma get_wedding_gifts_unfold w :
  WeddingList.get_wedding_gifts w = for_each load_gift (wedding_gift (db w)) w.
Proof. done. Qed.

Lemma product_exists_extends w w' v :
  extends w w' → product_exists (db w') v ↔ product_exists (db w) v.
Proof. intros (_ & _ & Hd). unfold product_exists. by rewrite Hd. Qed.

Lemma load_gifts_ok rows w :
  Forall flag_readable rows →
  Forall (λ gift : Z * GiftRow, product_exists (db w) (of_sql (row_product_id gift.2))) rows →
  ∃ locs w', for_each load_gift rows w = (inr locs, w') ∧
             extends w w' ∧ Forall2 (gift_loaded w') rows locs.
Proof.
  revert w. induction rows as [|gift rows IH]; intros w Hflags Hall.
  - exists [], w. split_and!; [done|apply extends_refl|constructor].
  - apply Forall_cons in Hflags as [[flag Hflag] Hflags].
    apply Forall_cons in Hall as [Hhd Hall].
    destruct (load_gift_spec gift flag w Hflag) as [[Hno _]|(_ & l & w1 & Hl & Hext & Hload)];
      [done|].
    destruct (IH w1 Hflags) as (locs & w' & Hrest & Hext' & Hloads).
    { eapply Forall_impl; [exact Hall|]. intros g Hg. by apply (product_exists_extends w w1). }
    exists (l :: locs), w'. simpl.
    rewrite (bind_inr _ _ _ _ _ Hl), (bind_inr _ _ _ _ _ Hrest).
    split_and!; [done|by eapply extends_trans|].
    constructor; [|done]. by eapply gift_loaded_extends.
Qed.

Lemma load_gifts_unknown rows w :
  Forall flag_readable rows →
  Exists (λ gift : Z * GiftRow, ¬ product_exists (db w) (of_sql (row_product_id gift.2))) rows →
  ∃ w', for_each load_gift rows w = (inl UnknownProduct, w') ∧ extends w w'.
Proof.
  revert w. induction rows as [|gift rows IH]; intros w Hflags Hex.
  - by apply Exists_nil in Hex.
  - apply Forall_cons in Hflags as [[flag Hflag] Hflags]. simpl.
    destruct (load_gift_spec gift flag w Hflag) as [[Hno Hl]|(Hyes & l & w1 & Hl & Hext & _)].
    + exists (loaded w). rewrite (bind_inl _ _ _ _ _ Hl). split; [done|apply extends_loaded].
    + apply Exists_cons in Hex as [Hex|Hex]; [done|].
      destruct (IH w1 Hflags) as (w' & Hrest & Hext').
      { eapply Exists_impl; [exact Hex|]. intros g Hg. by rewrite (product_exists_extends w w1). }
      exists w'. rewrite (bind_inr _ _ _ _ _ Hl), (bind_inl _ _ _ _ _ Hrest).
      split; [done|by eapply extends_trans].
Qed.

(** C5. [Product.get_product_by_id] returns a product made from the row
    whose identity is the requested one when the table has such a row, and
    raises [UnknownProduct] when it has none. [WeddingList.get_wedding_gifts]
    therefore raises [UnknownProduct] as soon as one gift row refers to a
    product that the table does not have, and otherwise returns one gift
    item for each row, in the order of the rows, each with the row's
    identity and flag and with the product that the row refers to. The
    flags of the rows are values that compare with 0, as the integers that
    the program writes there are. *)
Theorem C5_lookup_and_load w :
  (∀ id : Z,
     (id ∈ (products (db w)).*1 →
      ∃ l row, outcome (Product.get_product_by_id (PyInt id)) w = inr l ∧
               (id, row) ∈ products (db w) ∧
               product_objs (after (Product.get_product_by_id (PyInt id)) w) !! l
               = Some (Filled (attrs_of_row (id, row)))) ∧
     (id ∉ (products (db w)).*1 →
      outcome (Product.get_product_by_id (PyInt id)) w = inl UnknownProduct)) ∧
  (Forall flag_readable (wedding_gift (db w)) →
   (Exists (λ gift : Z * GiftRow,
              ¬ product_exists (db w) (of_sql (row_product_id gift.2)))
           (wedding_gift (db w)) →
    outcome WeddingList.get_wedding_gifts w = inl UnknownProduct) ∧
   (Forall (λ gift : Z * GiftRow,
              product_exists (db w) (of_sql (row_product_id gift.2)))
           (wedding_gift (db w)) →
    ∃ locs, outcome WeddingList.get_wedding_gifts w = inr locs ∧
            Forall2 (gift_loaded (after WeddingList.get_wedding_gifts w))
                    (wedding_gift (db w)) locs)).
Proof.
  unfold outcome, after. split.
  - intros id.
    destruct (get_product_by_id_spec (PyInt id) w)
      as (r & -> & [[-> Hno]|(l & [z row] & -> & Hin & Heq%py_eq_int & Hobj)]);
      simpl in *; subst.
    + split; [|done]. intros Hin. destruct Hno. by apply product_exists_int.
    + split; [eauto|]. intros Hno. destruct Hno.
      apply list_elem_of_fmap. by exists (id, row).
  - intros Hflags. rewrite get_wedding_gifts_unfold. split.
    + intros Hex. by destruct (load_gifts_unknown _ w Hflags Hex) as (w' & -> & _).
    + intros Hall. destruct (load_gifts_ok _ w Hflags Hall) as (locs & w' & -> & _ & Hloads).
      by exists locs.
Qed.

(** ** What a method leaves alone *)

Section frame.
Context (R : World → World → Prop) `{!PreOrder R}.

Lemma preserves_ret {A} (a : A) : preserves R (mret a).
Proof. intros w. simpl. reflexivity. Qed.

Lemma preserves_raise {A} e : preserves R (@raise A e).
Proof. intros w. simpl. reflexivity. Qed.

Lemma preserves_lift {A} (r : result A) : preserves R (lift r).
Proof. intros w. simpl. reflexivity. Qed.

Lemma preserves_get_db : preserves R get_db.
Proof. intros w. simpl. reflexivity. Qed.

Lemma preserves_get_product l : preserves R (get_product l).
Proof. intros w. unfold get_product. destruct (_ !! _); simpl; reflexivity. Qed.

Lemma preserves_get_gift l : preserves R (get_gift l).
Proof. intros w. unfold get_gift. destruct (_ !! _); simpl; reflexivity. Qed.

Lemma preserves_bind {A B} (m : M A) (k : A → M B) :
  preserves R m → (∀ a, preserves R (k a)) → preserves R (m ≫= k).
Proof.
  intros Hm Hk w. specialize (Hm w). unfold mbind, M_bind.
  destruct (m w) as [[e|a] w1]; [done|]. simpl in Hm.
  etrans; [exact Hm|apply Hk].
Qed.

Lemma preserves_get_attrs l : preserves R (get_attrs l).
Proof.
  apply preserves_bind; [apply preserves_get_product|].
  intros [|p]; [apply preserves_raise|apply preserves_ret].
Qed.

Lemma preserves_for_each {A B} (f : A → M B) l :
  (∀ a, preserves R (f a)) → preserves R (for_each f l).
Proof.
  intros Hf. induction l as [|a l IH]; simpl; [apply preserves_ret|].
  apply preserves_bind; [done|]. intros b.
  apply preserves_bind; [done|]. intros bs. apply preserves_ret.
Qed.

Lemma preserves_select {A} (f : A → M bool) l :
  (∀ a, preserves R (f a)) → preserves R (select f l).
Proof.
  intros Hf. induction l as [|a l IH]; simpl; [apply preserves_ret|].
  apply preserves_bind; [done|]. intros b.
  apply preserves_bind; [done|]. intros bs. apply preserves_ret.
Qed.
End frame.

#[local] Instance same_gifts_preorder : PreOrder same_gifts.
Proof. split; [done|]. unfold same_gifts. intros w1 w2 w3. congruence. Qed.

#[local] Instance more_gifts_preorder : PreOrder more_gifts.
Proof.
  split; unfold more_gifts; [intros w; reflexivity|].
  intros w1 w2 w3 ??. by etrans.
Qed.

Lemma same_more_gifts {A} (m : M A) : preserves same_gifts m → preserves more_gifts m.
Proof. intros H w. unfold more_gifts. by rewrite (H w). Qed.

(** The steps of a method: the rules above, and a case analysis where the
    method branches. *)
Ltac frame_step :=
  match goal with
  | |- PreOrder _ => exact _
  | |- ∀ _, _ => intros ?
  | |- preserves _ (match ?x with _ => _ end) => destruct x
  | |- preserves _ (_ ≫= _) => apply preserves_bind
  | |- preserves _ (for_each _ _) => apply preserves_for_each
  | |- preserves _ (select _ _) => apply preserves_select
  | |- preserves _ _ =>
      first [ apply preserves_ret | apply preserves_raise | apply preserves_lift
            | apply preserves_get_db | apply preserves_get_attrs
            | apply preserves_get_gift | apply preserves_get_product
            | by intros ?
            | apply same_more_gifts; by intros ? ]
  end.

Ltac frame := repeat frame_step.

Lemma product_purchase_same_gifts self : preserves same_gifts (Product.purchase self).
Proof. unfold Product.purchase. frame. Qed.









(** ** WeddingList.purchase_gift *)

Lemma index_member (self : list loc) gift w :
  gift ∈ self →
  ∃ i, WeddingList.index self gift w = (inr i, w) ∧ self !! i = Some gift ∧
       ∀ j, (j < i)%nat → self !! j ≠ Some gift.
Proof.
  intros Hin. unfold WeddingList.index.
  destruct (list_find (λ member, member = gift) self) as [[i x]|] eqn:Hfind.
  - apply list_find_Some in Hfind as (Hi & -> & Hbefore).
    exists i. split_and!; [done..|]. intros j Hj Hjg. by apply (Hbefore j gift).
  - apply list_find_None in Hfind. rewrite Forall_forall in Hfind.
    by destruct (Hfind gift Hin).
Qed.

Lemma index_not_member (self : list loc) gift w :
  gift ∉ self → WeddingList.index self gift w = (inl ValueError, w).
Proof.
  intros Hno. unfold WeddingList.index.
  destruct (list_find (λ member, member = gift) self) as [[i x]|] eqn:Hfind; [|done].
  apply list_find_Some in Hfind as (Hi & -> & _).
  destruct Hno. apply list_elem_of_lookup. eauto.
Qed.

Lemma purchase_gift_member (self : list loc) gift w :
  gift ∈ self → WeddingList.purchase_gift self gift w = GiftItem.purchase gift w.
Proof.
  intros Hin. destruct (index_member self gift w Hin) as (i & Hidx & Hi & _).
  unfold WeddingList.purchase_gift.
  rewrite (bind_inr _ _ _ _ _ Hidx).
  unfold WeddingList.getitem. rewrite Hi. done.
Qed.

Lemma purchase_gift_not_member (self : list loc) gift w :
  gift ∉ self → WeddingList.purchase_gift self gift w = (inl ValueError, w).
Proof.
  intros Hno. unfold WeddingList.purchase_gift.
  by rewrite (bind_inl _ _ _ _ _ (index_not_member self gift w Hno)).
Qed.

(** ** The flag of a gift item *)



Lemma next_rowid_fresh {A} (t : list (Z * A)) : next_rowid t ∉ t.*1.
Proof.
  unfold next_rowid. intros Hin.
  assert (Hmax : ∀ z zs x, x ∈ z :: zs → x ≤ foldr Z.max z zs).
  { intros z zs. induction zs as [|y zs IH]; intros x; simpl.
    - intros ->%list_elem_of_singleton. lia.
    - rewrite elem_of_cons, elem_of_cons. intros [->|[->|Hx]].
      + specialize (IH z (list_elem_of_here _ _)). lia.
      + lia.
      + specialize (IH x (list_elem_of_further _ _ _ Hx)). lia. }
  destruct (t.*1) as [|z zs]; [by apply elem_of_nil in Hin|].
  apply Hmax in Hin. lia.
Qed.




(** C6, as amended. [WeddingList.purchase_gift] looks for the target
    object itself among the members: when the target is a member the call
    is the purchase of that object, with its outcome and its effects, and
    when it is not the call raises [ValueError] and changes nothing. *)
Theorem C6_purchase_gift (self : list loc) (gift : loc) (w : World) :
  (gift ∈ self →
   WeddingList.purchase_gift self gift w = GiftItem.purchase gift w) ∧
  (gift ∉ self →
   WeddingList.purchase_gift self gift w = (inl ValueError, w)).
Proof.
  split; [apply purchase_gift_member | apply purchase_gift_not_member].
Qed.

(** ** The partition of a wedding list *)

Lemma purchased_live w l :
  is_Some (gift_objs w !! l) → GiftItem.purchased l w = (inr (is_purchased w l), w).
Proof.
  intros [g Hg]. unfold GiftItem.purchased, is_purchased.
  by rewrite (bind_inr _ _ _ _ _ (get_gift_live _ _ _ Hg)), Hg.
Qed.

Lemma get_purchased_gift_spec w (self : list loc) :
  (∀ l, l ∈ self → is_Some (gift_objs w !! l)) →
  WeddingList.get_purchased_gift self w
  = (inr (filter (λ l, is_purchased w l = true) self), w).
Proof.
  intros Hlive. unfold WeddingList.get_purchased_gift.
  apply select_pure. intros l Hl. by apply purchased_live, Hlive.
Qed.

Lemma get_non_purchased_gift_spec w (self : list loc) :
  (∀ l, l ∈ self → is_Some (gift_objs w !! l)) →
  WeddingList.get_non_purchased_gift self w
  = (inr (filter (λ l, is_purchased w l = false) self), w).
Proof.
  intros Hlive. unfold WeddingList.get_non_purchased_gift.
  rewrite (select_pure _ (λ l, negb (is_purchased w l))).
  - f_equal. f_equal. apply list_filter_iff. intros l. by destruct (is_purchased w l).
  - intros l Hl. by rewrite (bind_inr _ _ _ _ _ (purchased_live _ _ (Hlive l Hl))).
Qed.

Lemma interleave_filter {A} (f : A → bool) (l : list A) :
  interleave (f <$> l) (filter (λ a, f a = true) l) (filter (λ a, f a = false) l) = l.
Proof.
  induction l as [|a l IH]; [done|].
  rewrite fmap_cons. destruct (f a) eqn:Ha.
  - rewrite filter_cons_True, filter_cons_False by congruence. simpl. by rewrite IH.
  - rewrite filter_cons_False, filter_cons_True by congruence. simpl.
    destruct (filter (λ a, f a = true) l); by rewrite IH.
Qed.

Lemma gift_purchase_returns self w w' :
  GiftItem.purchase self w = (inr (), w') →
  ∃ g, gift_objs w !! self = Some g ∧
       gift_objs w' = <[self := mkGiftItem (gift_id g) (product g) true]> (gift_objs w).
Proof.
  intros Hrun. destruct (gift_objs w !! self) as [g|] eqn:Hg.
  - rewrite (gift_purchase_delegates _ _ _ Hg) in Hrun.
    pose proof (product_purchase_same_gifts (product g) w) as Hsame.
    unfold same_gifts in Hsame.
    destruct (Product.purchase (product g) w) as [[e|[]] w1]; simplify_eq/=.
    exists g. by rewrite Hsame.
  - unfold GiftItem.purchase, get_gift, mbind, M_bind in Hrun. by rewrite Hg in Hrun.
Qed.

(** C4. On a wedding list whose members are gift items, the two queries
    return the members whose flag is true and the members whose flag is
    false, each in the order of the list, and leave the world as it is. No
    member is in both results, every member is in one of them, the two
    results together are a rearrangement of the list, and putting them
    back by the flags gives the list itself. The results follow the flags
    of the moment: after a purchase of a member has returned, that member
    is in the purchased part and not in the other. *)
Theorem C4_partition (w : World) (self : list loc) :
  (∀ l, l ∈ self → is_Some (gift_objs w !! l)) →
  ∃ ps nps,
    WeddingList.get_purchased_gift self w = (inr ps, w) ∧
    WeddingList.get_non_purchased_gift self w = (inr nps, w) ∧
    ps = filter (λ l, is_purchased w l = true) self ∧
    nps = filter (λ l, is_purchased w l = false) self ∧
    ps `sublist_of` self ∧ nps `sublist_of` self ∧
    (∀ l, ¬ (l ∈ ps ∧ l ∈ nps)) ∧
    (∀ l, l ∈ self ↔ l ∈ ps ∨ l ∈ nps) ∧
    self ≡ₚ ps ++ nps ∧
    interleave (is_purchased w <$> self) ps nps = self ∧
    (∀ member w',
       member ∈ self → GiftItem.purchase member w = (inr (), w') →
       ∃ ps' nps',
         WeddingList.get_purchased_gift self w' = (inr ps', w') ∧
         WeddingList.get_non_purchased_gift self w' = (inr nps', w') ∧
         member ∈ ps' ∧ member ∉ nps').
Proof.
  intros Hlive. eexists _, _.
  split; [by apply get_purchased_gift_spec|].
  split; [by apply get_non_purchased_gift_spec|].
  split; [done|]. split; [done|].
  split_and!.
  - apply sublist_filter.
  - apply sublist_filter.
  - intros l [[H1 _]%list_elem_of_filter [H2 _]%list_elem_of_filter]. congruence.
  - intros l. rewrite !list_elem_of_filter. split.
    + intros ?. destruct (is_purchased w l); [by left|by right].
    + by intros [[_ ?]|[_ ?]].
  - replace (filter (λ l, is_purchased w l = false) self)
      with (filter (λ l, ¬ is_purchased w l = true) self).
    + symmetry. apply filter_app_complement.
    + apply list_filter_iff. intros l. by destruct (is_purchased w l).
  - apply interleave_filter.
  - intros member w' Hin Hrun.
    destruct (gift_purchase_returns _ _ _ Hrun) as (g & Hg & Hobjs).
    assert (Hlive' : ∀ l, l ∈ self → is_Some (gift_objs w' !! l)).
    { intros l Hl. rewrite Hobjs. apply lookup_lt_is_Some. rewrite length_insert.
      apply lookup_lt_is_Some. by apply Hlive. }
    assert (Hflag : is_purchased w' member = true).
    { unfold is_purchased. rewrite Hobjs, list_lookup_insert_eq; [done|].
      by eapply lookup_lt_Some. }
    eexists _, _.
    split; [by apply get_purchased_gift_spec|].
    split; [by apply get_non_purchased_gift_spec|].
    rewrite !list_elem_of_filter. split; [done|]. intros [? _]. congruence.
Qed.

(** ** Product.__init__ *)

Lemma init_filled d i n b q :
  d !! "id" = Some i → d !! "name" = Some n → d !! "brand" = Some b →
  d !! "in_stock_quantity" = Some q →
  Product.__init__ (Some d) =
    match Product.price_of d with
    | inl e => inl e
    | inr p => inr (Filled (mkProduct i n b p q))
    end.
Proof.
  intros Hi Hn Hb Hq. unfold Product.__init__, Product.getitem.
  rewrite bool_decide_false, Hi, Hn, Hb, Hq; [done|].
  intros ->%map_size_empty_iff. by rewrite lookup_empty in Hi.
Qed.

Lemma price_of_int_price d v :
  d !! "int_price" = Some v → Product.price_of d = inr v.
Proof. intros H. unfold Product.price_of. by rewrite H. Qed.

Lemma py_int_short s : digit_count s ≤ max_str_digits → py_int s = inr (int_of_digits s).
Proof. intros Hs. unfold py_int. by rewrite (proj2 (Z.ltb_ge _ _) Hs). Qed.

Lemma py_int_long s : max_str_digits < digit_count s → py_int s = inl ValueError.
Proof. intros Hs. unfold py_int. by rewrite (proj2 (Z.ltb_lt _ _) Hs). Qed.

Lemma price_of_groups d s g1 g2 rest :
  d !! "int_price" = None → d !! "price" = Some (PyStr s) →
  price_shape s g1 g2 rest →
  Product.price_of d =
    match py_int g1 with inl e => inl e | inr whole =>
    match py_int g2 with inl e => inl e | inr fractional =>
    inr (PyInt (whole * 100 + fractional))
    end end.
Proof.
  intros Hi Hp Hs. unfold Product.price_of. rewrite Hi, Hp.
  by rewrite (proj2 (price_re_match_Some s g1 g2) (ex_intro _ rest Hs)).
Qed.

Lemma price_of_match d s g1 g2 rest :
  d !! "int_price" = None → d !! "price" = Some (PyStr s) →
  price_shape s g1 g2 rest →
  digit_count g1 ≤ max_str_digits → digit_count g2 ≤ max_str_digits →
  Product.price_of d = inr (PyInt (int_of_digits g1 * 100 + int_of_digits g2)).
Proof.
  intros Hi Hp Hs H1 H2. rewrite (price_of_groups d s g1 g2 rest Hi Hp Hs).
  by rewrite (py_int_short g1 H1), (py_int_short g2 H2).
Qed.

Lemma price_of_too_long d s g1 g2 rest :
  d !! "int_price" = None → d !! "price" = Some (PyStr s) →
  price_shape s g1 g2 rest →
  max_str_digits < digit_count g1 ∨ max_str_digits < digit_count g2 →
  Product.price_of d = inl ValueError.
Proof.
  intros Hi Hp Hs Hlong. rewrite (price_of_groups d s g1 g2 rest Hi Hp Hs).
  destruct (Z.lt_ge_cases max_str_digits (digit_count g1)) as [H1|H1].
  - by rewrite (py_int_long g1 H1).
  - rewrite (py_int_short g1 H1). destruct Hlong as [?|H2]; [lia|].
    by rewrite (py_int_long g2 H2).
Qed.

Lemma price_of_no_match d s :
  d !! "int_price" = None → d !! "price" = Some (PyStr s) →
  (∀ g1 g2 rest, ¬ price_shape s g1 g2 rest) →
  Product.price_of d = inl AttributeError.
Proof.
  intros Hi Hp Hs. unfold Product.price_of. rewrite Hi, Hp.
  by rewrite (proj2 (price_re_match_None s) Hs).
Qed.


(** When the price branch raises, the constructor raises, and the
    exception is the one of the price unless a field before it is
    missing. *)
Lemma init_price_raises (d : gmap string pyval) (e0 : exn) :
  d ≠ ∅ → Product.price_of d = inl e0 →
  ∃ e, Product.__init__ (Some d) = inl e ∧
       (∀ w, Product.new (Some d) w = (inl e, w)) ∧
       (is_Some (d !! "id") → is_Some (d !! "name") → is_Some (d !! "brand") → e = e0).
Proof.
  intros Hne Hprice.
  assert (∃ e, Product.__init__ (Some d) = inl e ∧
               (is_Some (d !! "id") → is_Some (d !! "name") → is_Some (d !! "brand") →
                e = e0)) as (e & He & Hkind).
  { unfold Product.__init__, Product.getitem.
    rewrite bool_decide_false by (by intros ?%map_size_empty_iff).
    rewrite Hprice.
    destruct (d !! "id"); [|eexists; split; [done|by intros [? [=]]]].
    destruct (d !! "name"); [|eexists; split; [done|by intros _ [? [=]]]].
    destruct (d !! "brand"); [|eexists; split; [done|by intros _ _ [? [=]]]].
    by eexists. }
  exists e. split_and!; [done| |done].
  intros w. unfold Product.new. by rewrite He.
Qed.


(** C8, as amended. For every price string made of a whole number, a dot,
    two digits and the currency code GBP, the price of the product is the
    integer [whole * 100 + fractional], and the product holds no currency
    code, as long as the whole number has no more digits than [int]
    converts; with more digits the constructor raises [ValueError]. An
    integer given as [int_price] is the price as it is. *)
Theorem C8_price_normalization (d : gmap string pyval) (i n b q : pyval) :
  d !! "id" = Some i → d !! "name" = Some n → d !! "brand" = Some b →
  d !! "in_stock_quantity" = Some q →
  (∀ z, d !! "int_price" = Some (PyInt z) →
        Product.__init__ (Some d) = inr (Filled (mkProduct i n b (PyInt z) q))) ∧
  (∀ whole frac,
     d !! "int_price" = None →
     d !! "price" = Some (PyStr (whole +:+ "." +:+ frac +:+ "GBP")) →
     whole ≠ "" → all_digits whole = true →
     String.length frac = 2%nat → all_digits frac = true →
     Product.__init__ (Some d)
     = if bool_decide (digit_count whole ≤ max_str_digits)
       then inr (Filled (mkProduct i n b
                           (PyInt (int_of_digits whole * 100 + int_of_digits frac)) q))
       else inl ValueError).
Proof.
  intros Hi Hn Hb Hq. rewrite (init_filled d i n b q) by done. split.
  - intros z Hz. by rewrite (price_of_int_price d _ Hz).
  - intros whole frac Hno Hp Hw Hwd Hlen Hfd.
    assert (Hs : price_shape (whole +:+ "." +:+ frac +:+ "GBP") whole frac "").
    { split_and!; try done. by destruct frac. }
    assert (Hfrac : digit_count frac ≤ max_str_digits).
    { unfold digit_count, max_str_digits. rewrite Hlen. lia. }
    case_bool_decide as Hwhole.
    + by rewrite (price_of_match d _ whole frac "" Hno Hp Hs Hwhole Hfrac).
    + rewrite (price_of_too_long d _ whole frac "" Hno Hp Hs); [done|]. left. lia.
Qed.

(** C10, as amended. The pattern is matched at the start of the price
    string: whenever the string starts with digits, a dot, digits and GBP,
    whatever follows, and neither run has more digits than [int]
    converts, the price is the first run times 100 plus the second run
    read as a number, and the constructor returns the product with that
    price when the other fields are there; so 12.5GBP gives 1205 and
    12.500GBP gives 1700. The runs are bounded all the same: with more
    than [max_str_digits] digits in a run the constructor raises
    [ValueError]. An ASCII price string of any other shape, such as
    12.50USD, makes the constructor raise [AttributeError]. In neither
    case does an object come to exist. *)
Theorem C10_price_pattern (d : gmap string pyval) (s : string) :
  d !! "int_price" = None → d !! "price" = Some (PyStr s) →
  (∀ g1 g2 rest,
     price_shape s g1 g2 rest →
     (digit_count g1 ≤ max_str_digits → digit_count g2 ≤ max_str_digits →
      Product.price_of d = inr (PyInt (int_of_digits g1 * 100 + int_of_digits g2)) ∧
      ∀ i n b q,
        d !! "id" = Some i → d !! "name" = Some n → d !! "brand" = Some b →
        d !! "in_stock_quantity" = Some q →
        Product.__init__ (Some d)
        = inr (Filled (mkProduct i n b
                         (PyInt (int_of_digits g1 * 100 + int_of_digits g2)) q))) ∧
     (max_str_digits < digit_count g1 ∨ max_str_digits < digit_count g2 →
      Product.price_of d = inl ValueError ∧
      ∃ e, Product.__init__ (Some d) = inl e ∧
           (∀ w, Product.new (Some d) w = (inl e, w)) ∧
           (is_Some (d !! "id") → is_Some (d !! "name") → is_Some (d !! "brand") →
            e = ValueError))) ∧
  (ascii_text s = true → (∀ g1 g2 rest, ¬ price_shape s g1 g2 rest) →
   Product.price_of d = inl AttributeError ∧
   ∃ e, Product.__init__ (Some d) = inl e ∧
        (∀ w, Product.new (Some d) w = (inl e, w)) ∧
        (is_Some (d !! "id") → is_Some (d !! "name") → is_Some (d !! "brand") →
         e = AttributeError)) ∧
  (s = "12.5GBP" → Product.price_of d = inr (PyInt 1205)) ∧
  (s = "12.500GBP" → Product.price_of d = inr (PyInt 1700)) ∧
  (s = "12.50USD" → Product.price_of d = inl AttributeError).
Proof.
  intros Hno Hp.
  assert (Hne : d ≠ ∅) by (intros ->; by rewrite lookup_empty in Hp).
  assert (Hrun : ∀ g1 g2 rest,
    price_shape s g1 g2 rest →
    digit_count g1 ≤ max_str_digits → digit_count g2 ≤ max_str_digits →
    Product.price_of d = inr (PyInt (int_of_digits g1 * 100 + int_of_digits g2))).
  { intros g1 g2 rest Hs. by apply (price_of_match d s g1 g2 rest). }
  split_and!.
  - intros g1 g2 rest Hs. split.
    + intros H1 H2. assert (Hprice := Hrun g1 g2 rest Hs H1 H2).
      split; [done|]. intros i n b q Hi Hn Hb Hq.
      by rewrite (init_filled d i n b q), Hprice.
    + intros Hlong.
      assert (Hprice := price_of_too_long d s g1 g2 rest Hno Hp Hs Hlong).
      split; [done|]. by apply init_price_raises.
  - intros _ Hs.
    assert (Hprice : Product.price_of d = inl AttributeError)
      by (by apply (price_of_no_match d s)).
    split; [done|]. by apply init_price_raises.
  - intros ->. rewrite (Hrun "12" "5" ""); [done| |done|done].
    split_and!; [reflexivity|discriminate|reflexivity|discriminate|reflexivity].
  - intros ->. rewrite (Hrun "12" "500" ""); [done| |done|done].
    split_and!; [reflexivity|discriminate|reflexivity|discriminate|reflexivity].
  - intros ->. apply (price_of_no_match d "12.50USD"); [done..|].
    by apply price_re_match_None.
Qed.

(** ** The price of a product after the bootstrap *)

(** C9, at the description of the tea pot, priced 12.50GBP. The
    constructor gives the product the integer price 1250. [init_db] stores
    [price / 100.], the float 12.5, and [get_gift_repository] hands the
    stored value back as [int_price]: the product reloaded from the store
    has the price 12.5, a float, which is not 1250. *)
Theorem C9_bootstrap_price_reloaded :
  Product.__init__ (Some tea_pot)
  = inr (Filled (mkProduct (PyInt 1) (PyStr "Tea pot") (PyStr "Le Creuset")
                           (PyInt 1250) (PyInt 50))) ∧
  outcome (init_db false [tea_pot]) empty_world = inr () ∧
  products (db (after (init_db false [tea_pot]) empty_world))
  = [(1, mkProductRow (SqlText "Tea pot") (SqlText "Le Creuset")
           (SqlReal twelve_and_a_half) (SqlInt 50))] ∧
  (let w := after (init_db false [tea_pot]) empty_world in
   outcome (Product.get_product_by_id (PyInt 1)) w = inr 1%nat ∧
   product_objs (after (Product.get_product_by_id (PyInt 1)) w) !! 1%nat
   = Some (Filled (mkProduct (PyInt 1) (PyStr "Tea pot") (PyStr "Le Creuset")
                             (PyFloat twelve_and_a_half) (PyInt 50)))) ∧
  py_eq (PyFloat twelve_and_a_half) (PyInt 1250) = false.
Proof. split_and!; by vm_compute. Qed.

(** ** Instances *)

Lemma C1_witness :
  (outcome (Product.purchase 0%nat) (example_world 3) = inr () ∧
   stored_quantity (db (after (Product.purchase 0%nat) (example_world 3))) 1
   = Some (SqlInt 2)) ∧
  Product.purchase 0%nat (example_world 0) = (inl OutOfStock, example_world 0).
Proof.
  split.
  - destruct (C1_product_purchase (example_world 3) 0%nat
                (mkProduct (PyInt 1) (PyStr "Tea pot") (PyStr "Le Creuset")
                           (PyInt 1250) (PyInt 3)) 3 1)
      as (_ & _ & Hin); [reflexivity|reflexivity|lia|reflexivity|reflexivity| |].
    + eexists; reflexivity.
    + destruct Hin as (Hout & _ & Hq & _); [lia|]. by split.
  - destruct (C1_product_purchase (example_world 0) 0%nat
                (mkProduct (PyInt 1) (PyStr "Tea pot") (PyStr "Le Creuset")
                           (PyInt 1250) (PyInt 0)) 0 1)
      as (_ & Hout & _); [reflexivity|reflexivity|lia|reflexivity|reflexivity| |].
    + eexists; reflexivity.
    + by apply Hout.
Defined.

Lemma C2_witness :
  (outcome (GiftItem.purchase 0%nat) (example_world 3) = inr () ∧
   journal (db (after (GiftItem.purchase 0%nat) (example_world 3)))
   = [UpdateStock (SqlInt 2) (SqlInt 1); UpdateGift (SqlInt 1) (SqlInt 1)]) ∧
  GiftItem.purchase 0%nat (example_world 0) = (inl OutOfStock, example_world 0).
Proof.
  split.
  - destruct (C2_gift_purchase (example_world 3) 0%nat (mkGiftItem 1 0%nat false)
                (mkProduct (PyInt 1) (PyStr "Tea pot") (PyStr "Le Creuset")
                           (PyInt 1250) (PyInt 3)) 3 1)
      as (_ & _ & Hin); [reflexivity|reflexivity|reflexivity|lia|reflexivity|reflexivity|].
    destruct Hin as (Hout & _ & _ & _ & _ & Hj); [lia|]. by split.
  - destruct (C2_gift_purchase (example_world 0) 0%nat (mkGiftItem 1 0%nat false)
                (mkProduct (PyInt 1) (PyStr "Tea pot") (PyStr "Le Creuset")
                           (PyInt 1250) (PyInt 0)) 0 1)
      as (_ & Hout & _); [reflexivity|reflexivity|reflexivity|lia|reflexivity|reflexivity|].
    by apply Hout.
Defined.


Lemma C4_witness :
  ∃ ps nps,
    WeddingList.get_purchased_gift [0%nat] (example_world 3) = (inr ps, example_world 3) ∧
    WeddingList.get_non_purchased_gift [0%nat] (example_world 3)
    = (inr nps, example_world 3) ∧
    [0%nat] ≡ₚ ps ++ nps.
Proof.
  destruct (C4_partition (example_world 3) [0%nat])
    as (ps & nps & Hps & Hnps & _ & _ & _ & _ & _ & _ & Hperm & _).
  - intros l ->%list_elem_of_singleton. eexists; reflexivity.
  - by exists ps, nps.
Defined.

Lemma C5_witness :
  ∃ locs,
    outcome WeddingList.get_wedding_gifts (example_world 3) = inr locs ∧
    Forall2 (gift_loaded (after WeddingList.get_wedding_gifts (example_world 3)))
            (wedding_gift (db (example_world 3))) locs.
Proof.
  destruct (C5_lookup_and_load (example_world 3)) as [_ Hload].
  destruct Hload as [_ Hok].
  - repeat constructor. by exists false.
  - apply Hok. repeat constructor. eexists. split; [apply list_elem_of_here|reflexivity].
Defined.

Lemma C6_witness :
  WeddingList.purchase_gift [0%nat] 0%nat (example_world 3)
  = GiftItem.purchase 0%nat (example_world 3).
Proof.
  destruct (C6_purchase_gift [0%nat] 0%nat (example_world 3)) as [Hin _].
  apply Hin, list_elem_of_here.
Defined.

(** C6 as stated fails when the list holds another object of the same
    gift. After two loads of the list the objects 0 and 1 are both the gift
    of row 1; with the first as the only member and the second as the
    target, the call raises [ValueError] and purchases nothing, although the
    member has the identity of the target and its purchase would return. *)
Lemma C6_counterexample :
  gift_id <$> gift_objs loaded_twice !! 0%nat = Some 1 ∧
  gift_id <$> gift_objs loaded_twice !! 1%nat = Some 1 ∧
  WeddingList.purchase_gift [0%nat] 1%nat loaded_twice = (inl ValueError, loaded_twice) ∧
  outcome (GiftItem.purchase 0%nat) loaded_twice = inr ().
Proof. split_and!; by vm_compute. Qed.



Lemma C8_witness :
  Product.__init__ (Some tea_pot)
  = inr (Filled (mkProduct (PyInt 1) (PyStr "Tea pot") (PyStr "Le Creuset")
                           (PyInt 1250) (PyInt 50))) ∧
  Product.__init__ (Some (with_price (PyStr "0.01GBP")))
  = inr (Filled (mkProduct (PyInt 1) (PyStr "Tea pot") (PyStr "Le Creuset")
                           (PyInt 1) (PyInt 50))) ∧
  Product.__init__ (Some (with_int_price (PyInt 999)))
  = inr (Filled (mkProduct (PyInt 1) (PyStr "Tea pot") (PyStr "Le Creuset")
                           (PyInt 999) (PyInt 50))).
Proof.
  split_and!.
  - destruct (C8_price_normalization tea_pot (PyInt 1) (PyStr "Tea pot")
                (PyStr "Le Creuset") (PyInt 50)) as [_ H]; [reflexivity..|].
    apply (H "12" "50"); [reflexivity|reflexivity|discriminate|reflexivity..].
  - destruct (C8_price_normalization (with_price (PyStr "0.01GBP")) (PyInt 1)
                (PyStr "Tea pot") (PyStr "Le Creuset") (PyInt 50)) as [_ H];
      [reflexivity..|].
    apply (H "0" "01"); [reflexivity|reflexivity|discriminate|reflexivity..].
  - destruct (C8_price_normalization (with_int_price (PyInt 999)) (PyInt 1)
                (PyStr "Tea pot") (PyStr "Le Creuset") (PyInt 50)) as [H _];
      [reflexivity..|].
    apply (H 999). reflexivity.
Defined.

(** C8 as stated fails for a currency code other than GBP: 12.50USD is a
    whole number, a dot, two digits and a currency code, and the
    constructor raises instead of giving the price 1250. *)
Lemma C8_counterexample :
  with_price (PyStr "12.50USD") !! "price" = Some (PyStr ("12" +:+ "." +:+ "50" +:+ "USD")) ∧
  with_price (PyStr "12.50USD") !! "int_price" = None ∧
  Product.__init__ (Some (with_price (PyStr "12.50USD"))) = inl AttributeError.
Proof. split_and!; by vm_compute. Qed.

Lemma C10_witness :
  Product.__init__ (Some (with_price (PyStr "12.500GBP each")))
  = inr (Filled (mkProduct (PyInt 1) (PyStr "Tea pot") (PyStr "Le Creuset")
                           (PyInt 1700) (PyInt 50))) ∧
  Product.price_of (with_price (PyStr "12.50USD")) = inl AttributeError.
Proof.
  split.
  - destruct (C10_price_pattern (with_price (PyStr "12.500GBP each")) "12.500GBP each")
      as [H _]; [reflexivity..|].
    destruct (H "12" "500" " each") as [Hshort _].
    + split_and!; [reflexivity|discriminate|reflexivity|discriminate|reflexivity].
    + destruct Hshort as [_ Hinit]; [discriminate|discriminate|].
      apply Hinit; reflexivity.
  - destruct (C10_price_pattern (with_price (PyStr "12.50USD")) "12.50USD")
      as (_ & Hother & _); [reflexivity..|].
    destruct Hother as [Hprice _]; [reflexivity| |exact Hprice].
    by apply price_re_match_None.
Defined.

Lemma all_digits_iter n :
  all_digits (Nat.iter n (String (Ascii.ascii_of_nat 49)) "") = true.
Proof. induction n as [|n IH]; [done|]. simpl. exact IH. Qed.

Lemma length_iter n c : String.length (Nat.iter n (String c) "") = n.
Proof. induction n as [|n IH]; [done|]. simpl. by rewrite IH. Qed.

(** C10 as stated fails for a run of more than 4300 digits: the string
    made of 4301 digits, a dot, two digits and GBP has the shape that the
    claim says is accepted whatever the length of its runs, and the
    constructor raises [ValueError] instead of giving a price. *)
Lemma C10_counterexample :
  with_price (PyStr long_price) !! "int_price" = None ∧
  with_price (PyStr long_price) !! "price" = Some (PyStr long_price) ∧
  price_shape long_price long_whole "00" "" ∧
  digit_count long_whole = 4301 ∧
  Product.price_of (with_price (PyStr long_price)) = inl ValueError ∧
  Product.__init__ (Some (with_price (PyStr long_price))) = inl ValueError.
Proof.
  assert (Hshape : price_shape long_price long_whole "00" "").
  { split_and!; [reflexivity|discriminate|apply all_digits_iter|discriminate|reflexivity]. }
  assert (Hcount : digit_count long_whole = 4301).
  { unfold digit_count, long_whole. by rewrite length_iter. }
  assert (Hprice : Product.price_of (with_price (PyStr long_price)) = inl ValueError).
  { apply (price_of_too_long _ long_price long_whole "00" ""); [reflexivity|reflexivity|done|].
    left. rewrite Hcount. reflexivity. }
  split_and!; [reflexivity|reflexivity|done|done|done|].
  rewrite (init_filled _ (PyInt 1) (PyStr "Tea pot") (PyStr "Le Creuset") (PyInt 50));
    [|reflexivity..].
  by rewrite Hprice.
Qed.

(** * Further properties of the model *)

(** ** The lookup of a product, as a function of the table *)

Lemma head_filter_seq {A} (P : nat → bool) (Q : A → bool) (rows : list A) (base : nat) :
  (∀ i a, rows !! i = Some a → P (base + i)%nat = Q a) →
  head (filter (λ l, P l = true) (seq base (length rows)))
  = (λ found, (base + found.1)%nat) <$> list_find (λ a, Q a = true) rows.
Proof.
  revert base. induction rows as [|a rows IH]; intros base HPQ; [done|].
  simpl. rewrite filter_cons.
  pose proof (HPQ 0%nat a eq_refl) as H0. rewrite Nat.add_0_r in H0. rewrite H0.
  destruct (Q a) eqn:Ha.
  - rewrite decide_True by done. rewrite decide_True by done. simpl.
    by rewrite Nat.add_0_r.
  - rewrite decide_False by done. rewrite decide_False by done.
    rewrite IH.
    + destruct (list_find _ rows) as [[i x]|]; simpl; [|done]. f_equal. lia.
    + intros i x Hi. rewrite <- (HPQ (S i) x Hi). f_equal. lia.
Qed.

Lemma get_product_by_id_first v w :
  Product.get_product_by_id v w
  = (match find_product (db w) v with
     | Some (i, _) => inr (length (product_objs w) + i)%nat
     | None => inl UnknownProduct
     end, loaded w).
Proof.
  set (base := length (product_objs w)).
  set (P := λ l : loc, match product_objs (loaded w) !! l with
                       | Some (Filled p) => py_eq (product_id p) v
                       | _ => false
                       end).
  assert (Hobj : ∀ i zr, products (db w) !! i = Some zr →
            product_objs (loaded w) !! (base + i)%nat = Some (Filled (attrs_of_row zr))).
  { intros i zr Hi. unfold base. by apply loaded_lookup. }
  assert (Hsel : select (λ product, p ← get_attrs product;
                                    mret (py_eq (product_id p) v))
                   (seq base (length (products (db w)))) (loaded w)
                 = (inr (filter (λ l, P l = true) (seq base (length (products (db w))))),
                    loaded w)).
  { apply select_pure. intros l [Hl1 Hl2]%elem_of_seq.
    destruct (lookup_lt_is_Some_2 (products (db w)) (l - base)) as [zr Hzr]; [lia|].
    pose proof (Hobj _ _ Hzr) as Hl.
    replace (base + (l - base))%nat with l in Hl by lia.
    rewrite (bind_inr _ _ _ _ _ (get_attrs_filled _ _ _ Hl)).
    unfold P; cbv beta. by rewrite Hl. }
  unfold Product.get_product_by_id.
  rewrite (bind_inr _ _ _ _ _ (get_gift_repository_spec w)).
  fold base. rewrite (bind_inr _ _ _ _ _ Hsel).
  assert (Hhead : head (filter (λ l, P l = true) (seq base (length (products (db w)))))
                  = (λ found, (base + found.1)%nat)
                      <$> list_find (λ zr, py_eq (PyInt zr.1) v = true) (products (db w))).
  { apply (head_filter_seq P (λ zr, py_eq (PyInt zr.1) v)).
    intros i zr Hi. unfold P; cbv beta. by rewrite (Hobj _ _ Hi). }
  unfold find_product.
  destruct (filter _ _) as [|l found]; destruct (list_find _ _) as [[i zr]|];
    simpl in Hhead; by simplify_eq.
Qed.

(** ** The load of the wedding list, as a function of the tables *)

Lemma load_gift_run gift w :
  load_gift gift w =
    match find_product (db w) (of_sql (row_product_id gift.2)) with
    | None => (inl UnknownProduct, loaded w)
    | Some (i, _) =>
        match py_gt0 (of_sql (row_purchased gift.2)) with
        | inl e => (inl e, loaded w)
        | inr b =>
            (inr (length (gift_objs w)),
             mkWorld (product_objs (loaded w))
                     (gift_objs w ++ [gift_of_row gift (length (product_objs w) + i) b])
                     (db w))
        end
    end.
Proof.
  unfold load_gift.
  pose proof (get_product_by_id_first (of_sql (row_product_id gift.2)) w) as Hget.
  destruct (find_product _ _) as [[i zr]|].
  - rewrite (bind_inr _ _ _ _ _ Hget).
    unfold mbind, M_bind, lift, alloc_gift.
    by destruct (py_gt0 _) as [e|b].
  - by rewrite (bind_inl _ _ _ _ _ Hget).
Qed.

Lemma gift_object_of_prefix w w' d gift g :
  product_objs w `prefix_of` product_objs w' →
  gift_object_of w d gift g → gift_object_of w' d gift g.
Proof.
  intros Hpre (i & zr & ? & ? & ? & ?). exists i, zr.
  split_and!; [done..|]. by eapply prefix_lookup_Some.
Qed.

(** What a load that returns has done: the database is as before, the
    gift items returned are new objects, one for each row in the order of
    the rows, and the objects that existed are untouched. *)
Lemma load_gifts_returns rows w locs w' :
  for_each load_gift rows w = (inr locs, w') →
  db w' = db w ∧
  product_objs w `prefix_of` product_objs w' ∧
  locs = seq (length (gift_objs w)) (length rows) ∧
  ∃ new, gift_objs w' = gift_objs w ++ new ∧
         Forall2 (gift_object_of w' (db w)) rows new.
Proof.
  revert w locs. induction rows as [|gift rows IH]; intros w locs; simpl.
  - intros [= <- <-]. split_and!; [done..|]. exists []. by rewrite app_nil_r.
  - unfold mbind at 1, M_bind at 1. rewrite load_gift_run.
    destruct (find_product _ _) as [[i zr]|] eqn:Hfind; [|done].
    destruct (py_gt0 _) as [e|b] eqn:Hflag; [done|].
    set (w1 := mkWorld _ _ _).
    unfold mbind at 1, M_bind at 1.
    destruct (for_each load_gift rows w1) as [[e|locs'] w2] eqn:Hrest; [done|].
    intros [= <- <-].
    destruct (IH _ _ Hrest) as (Hdb & Hpre & -> & new & Hobjs & Hnew).
    assert (Hpre1 : product_objs w `prefix_of` product_objs w1)
      by (by apply prefix_app_r).
    split_and!.
    + done.
    + by etrans.
    + subst w1. simpl. rewrite length_app. simpl. f_equal. f_equal. lia.
    + exists (gift_of_row gift (length (product_objs w) + i) b :: new).
      split; [subst w1; simpl in *; by rewrite Hobjs, <- (assoc_L (++))|].
      constructor; [|done].
      exists i, zr. split_and!; [done..|].
      eapply prefix_lookup_Some; [|exact Hpre]. subst w1. simpl.
      destruct (list_find_Some (λ zr, py_eq (PyInt zr.1) (of_sql (row_product_id gift.2)) = true)
                  (products (db w)) i zr) as [Hi _].
      destruct (Hi Hfind) as (Hrow & _).
      by apply (loaded_lookup w).
Qed.

(** A load writes nothing and touches no object, whatever its outcome. *)
Lemma load_gifts_keeps rows w r w' :
  for_each load_gift rows w = (r, w') →
  db w' = db w ∧ gift_objs w `prefix_of` gift_objs w' ∧
  product_objs w `prefix_of` product_objs w'.
Proof.
  assert (Hstep : ∀ w, db (loaded w) = db w ∧ gift_objs w `prefix_of` gift_objs (loaded w) ∧
                       product_objs w `prefix_of` product_objs (loaded w)).
  { intros w0. split_and!; [done|reflexivity|by apply prefix_app_r]. }
  revert w r w'. induction rows as [|gift rows IH]; intros w r w'; simpl.
  { intros [= <- <-]. split_and!; [done|reflexivity..]. }
  unfold mbind at 1, M_bind at 1. rewrite load_gift_run.
  destruct (find_product _ _) as [[i zr]|]; [|intros [= <- <-]; apply Hstep].
  destruct (py_gt0 _) as [e|b]; [intros [= <- <-]; apply Hstep|].
  set (w1 := mkWorld _ _ _).
  assert (H1 : db w1 = db w ∧ gift_objs w `prefix_of` gift_objs w1 ∧
               product_objs w `prefix_of` product_objs w1).
  { subst w1. simpl. split_and!; [done|by apply prefix_app_r..]. }
  destruct H1 as (Hdb1 & Hg1 & Hp1).
  unfold mbind at 1, M_bind at 1.
  destruct (for_each load_gift rows w1) as [[e|locs'] w2] eqn:Hrest;
    destruct (IH _ _ _ Hrest) as (Hdb & Hg & Hp); intros [= <- <-];
    (split_and!; [congruence|by etrans..]).
Qed.

(** ** Rows of a table *)

Lemma update_where_rowids {A} v (f : A → A) (t : list (Z * A)) :
  (update_where v f t).*1 = t.*1.
Proof.
  unfold update_where. rewrite <- list_fmap_compose. apply list_fmap_ext.
  intros i [z r] _. simpl. by destruct (rowid_is v z).
Qed.

Lemma delete_where_int {A} z (t : list (Z * A)) :
  delete_where (SqlInt z) t = filter (λ zr, zr.1 ≠ z) t.
Proof.
  unfold delete_where. apply list_filter_iff. intros [y r]. simpl.
  rewrite Z.eqb_neq. done.
Qed.

Lemma insert_row_perm {A} z (r : A) t : insert_row z r t ≡ₚ (z, r) :: t.
Proof.
  induction t as [|[y s] t IH]; [done|]. simpl.
  destruct (z <? y); [done|]. rewrite IH. apply Permutation_swap.
Qed.

Lemma insert_row_elem_of {A} z (r : A) t x :
  x ∈ insert_row z r t ↔ x = (z, r) ∨ x ∈ t.
Proof. by rewrite insert_row_perm, elem_of_cons. Qed.

Lemma insert_row_rowids {A} z (r : A) t :
  (insert_row z r t).*1 ≡ₚ z :: t.*1.
Proof. by rewrite insert_row_perm. Qed.

Lemma delete_insert_row {A} z (r : A) t :
  z ∉ t.*1 → delete_where (SqlInt z) (insert_row z r t) = t.
Proof.
  rewrite delete_where_int.
  induction t as [|[y s] t IH]; intros Hno; simpl.
  - by rewrite filter_cons_False, filter_nil by (simpl; tauto).
  - rewrite fmap_cons, not_elem_of_cons in Hno. destruct Hno as [Hne Hno]. simpl in Hne.
    destruct (z <? y).
    + rewrite filter_cons_False by (simpl; tauto).
      rewrite filter_cons_True by (simpl; congruence).
      f_equal. clear IH. induction t as [|[y' s'] t IH]; [done|].
      rewrite fmap_cons, not_elem_of_cons in Hno. destruct Hno as [Hne' Hno].
      rewrite filter_cons_True by (simpl in *; congruence). f_equal. by apply IH.
    + rewrite filter_cons_True by (simpl; congruence). f_equal. by apply IH.
Qed.

Lemma next_rowid_above {A} (t : list (Z * A)) z : z ∈ t.*1 → z < next_rowid t.
Proof.
  unfold next_rowid. intros Hin.
  assert (Hmax : ∀ y ys x, x ∈ y :: ys → x ≤ foldr Z.max y ys).
  { intros y ys. induction ys as [|y' ys IH]; intros x; simpl.
    - intros ->%list_elem_of_singleton. lia.
    - rewrite elem_of_cons, elem_of_cons. intros [->|[->|Hx]].
      + specialize (IH y (list_elem_of_here _ _)). lia.
      + lia.
      + specialize (IH x (list_elem_of_further _ _ _ Hx)). lia. }
  destruct (t.*1) as [|y ys]; [by apply elem_of_nil in Hin|].
  apply Hmax in Hin. lia.
Qed.

Lemma insert_row_last {A} z (r : A) t :
  (∀ y, y ∈ t.*1 → y < z) → insert_row z r t = t ++ [(z, r)].
Proof.
  induction t as [|[y s] t IH]; intros Hlt; [done|]. simpl.
  assert (y < z) by (apply Hlt; rewrite fmap_cons; apply list_elem_of_here).
  rewrite (proj2 (Z.ltb_ge z y)) by lia. f_equal. apply IH.
  intros y' Hy'. apply Hlt. rewrite fmap_cons. by apply list_elem_of_further.
Qed.

Lemma lookup_row_filter_ne {A} z y (t : list (Z * A)) :
  y ≠ z → lookup_row y (filter (λ zr, zr.1 ≠ z) t) = lookup_row y t.
Proof.
  intros Hne. induction t as [|[x r] t IH]; [done|].
  destruct (decide (x = z)) as [->|Hx].
  - rewrite filter_cons_False by (simpl; tauto).
    by rewrite lookup_row_cons, decide_False.
  - rewrite filter_cons_True by done. rewrite !lookup_row_cons, IH. done.
Qed.

(** ** GiftItem.remove *)

Lemma remove_run w self g :
  gift_objs w !! self = Some g →
  GiftItem.remove self w
  = (inr (), mkWorld (product_objs w) (gift_objs w)
                     (exec_delete_gift (SqlInt (gift_id g)) (db w))).
Proof.
  intros Hg. unfold GiftItem.remove.
  by rewrite (bind_inr _ _ _ _ _ (get_gift_live _ _ _ Hg)).
Qed.

(** X1. [GiftItem.remove] deletes the row of the gift and no other: the
    other gift rows keep their order and content and the products are
    untouched. The object itself stays as it is, flag included. A load of
    the list after the removal returns no gift item with the removed
    identity. *)
Theorem X1_remove_deletes_row w self g :
  gift_objs w !! self = Some g →
  let w' := after (GiftItem.remove self) w in
  outcome (GiftItem.remove self) w = inr () ∧
  wedding_gift (db w') = filter (λ zr, zr.1 ≠ gift_id g) (wedding_gift (db w)) ∧
  stored_purchased (db w') (gift_id g) = None ∧
  (∀ z, z ≠ gift_id g → stored_purchased (db w') z = stored_purchased (db w) z) ∧
  products (db w') = products (db w) ∧
  gift_objs w' = gift_objs w ∧ product_objs w' = product_objs w ∧
  (∀ locs w'' l g',
     WeddingList.get_wedding_gifts w' = (inr locs, w'') →
     l ∈ locs → gift_objs w'' !! l = Some g' → gift_id g' ≠ gift_id g).
Proof.
  intros Hg. unfold outcome, after. rewrite (remove_run _ _ _ Hg). simpl.
  rewrite delete_where_int.
  split_and!; try done.
  - unfold stored_purchased. simpl. rewrite delete_where_int.
    unfold lookup_row.
    destruct (list_find _ _) as [[i [z r]]|] eqn:Hfind; [|done].
    apply list_find_Some in Hfind as (Hi & Hz & _). simpl in Hz. subst z.
    apply list_elem_of_lookup_2, list_elem_of_filter in Hi as [Hne _]. by destruct Hne.
  - intros z Hz. unfold stored_purchased. simpl.
    by rewrite delete_where_int, lookup_row_filter_ne.
  - intros locs w'' l g' Hload Hl Hg'.
    rewrite get_wedding_gifts_unfold in Hload. simpl in Hload.
    destruct (load_gifts_returns _ _ _ _ Hload) as (_ & _ & -> & new & Hobjs & Hnew).
    simpl in *. apply elem_of_seq in Hl as [Hl1 Hl2].
    rewrite Hobjs, lookup_app_r in Hg' by done.
    destruct (Forall2_lookup_r _ _ _ _ _ Hnew Hg') as (gift & Hgift & Hof).
    destruct Hof as (_ & _ & _ & _ & -> & _).
    apply list_elem_of_lookup_2 in Hgift.
    rewrite delete_where_int in Hgift. by apply list_elem_of_filter in Hgift as [? _].
Qed.

Lemma X1_witness :
  outcome (GiftItem.remove 0%nat) (example_world 3) = inr () ∧
  wedding_gift (db (after (GiftItem.remove 0%nat) (example_world 3))) = [].
Proof.
  destruct (X1_remove_deletes_row (example_world 3) 0%nat (mkGiftItem 1 0%nat false))
    as (Hok & Hrows & _); [reflexivity|].
  split; [exact Hok|]. rewrite Hrows. reflexivity.
Defined.

(** ** GiftItem.get_new_gift_item *)

Lemma get_new_gift_item_run product w p c :
  product_objs w !! product = Some (Filled p) →
  to_sql (product_id p) = inr c →
  GiftItem.get_new_gift_item product w
  = (inr (length (gift_objs w)),
     mkWorld (product_objs w)
             (gift_objs w ++ [mkGiftItem (next_rowid (wedding_gift (db w))) product false])
             (mkDb (products (db w))
                   (insert_row (next_rowid (wedding_gift (db w)))
                               (mkGiftRow c (SqlInt 0)) (wedding_gift (db w)))
                   (journal (db w) ++ [InsertGift c (SqlInt 0)]))).
Proof.
  intros Hp Hc. unfold GiftItem.get_new_gift_item.
  rewrite (bind_inr _ _ _ _ _ (get_attrs_filled _ _ _ Hp)), Hc. done.
Qed.

Lemma get_new_gift_item_returns product w l :
  outcome (GiftItem.get_new_gift_item product) w = inr l →
  ∃ p c, product_objs w !! product = Some (Filled p) ∧ to_sql (product_id p) = inr c.
Proof.
  unfold outcome, GiftItem.get_new_gift_item, get_attrs, get_product.
  unfold mbind, M_bind, lift, raise. simpl.
  destruct (product_objs w !! product) as [[|p]|]; simpl; try discriminate.
  destruct (to_sql (product_id p)) as [e|c] eqn:Hc; simpl; try discriminate.
  intros _. by exists p, c.
Qed.

(** X2. Removing a gift item that the factory has just returned puts the
    table of gifts back as it was, and the products are untouched: the
    insert and the delete are the two writes. The rowid of the removed
    gift is therefore the one that the next gift item gets. *)
Theorem X2_new_gift_then_remove w product l :
  outcome (GiftItem.get_new_gift_item product) w = inr l →
  let w1 := after (GiftItem.get_new_gift_item product) w in
  let w2 := after (GiftItem.remove l) w1 in
  outcome (GiftItem.remove l) w1 = inr () ∧
  wedding_gift (db w2) = wedding_gift (db w) ∧
  products (db w2) = products (db w) ∧
  (∃ c, journal (db w2)
        = journal (db w) ++ [InsertGift c (SqlInt 0);
                             DeleteGift (SqlInt (next_rowid (wedding_gift (db w))))]) ∧
  (∀ l', outcome (GiftItem.get_new_gift_item product) w2 = inr l' →
         gift_id <$> gift_objs (after (GiftItem.get_new_gift_item product) w2) !! l'
         = gift_id <$> gift_objs w1 !! l).
Proof.
  intros Hnew. destruct (get_new_gift_item_returns _ _ _ Hnew) as (p & c & Hp & Hc).
  unfold outcome, after in *.
  rewrite (get_new_gift_item_run _ _ _ _ Hp Hc) in *. simpl in Hnew.
  injection Hnew as <-. simpl.
  set (rowid := next_rowid (wedding_gift (db w))).
  set (w1 := mkWorld _ _ _).
  assert (Hobj : gift_objs w1 !! length (gift_objs w) = Some (mkGiftItem rowid product false)).
  { subst w1. simpl. rewrite lookup_app_r by done. by rewrite Nat.sub_diag. }
  rewrite (remove_run _ _ _ Hobj). simpl.
  assert (Htable : delete_where (SqlInt rowid)
                     (insert_row rowid (mkGiftRow c (SqlInt 0)) (wedding_gift (db w)))
                   = wedding_gift (db w))
    by (apply delete_insert_row, next_rowid_fresh).
  split_and!; [done|done|done| |].
  - exists c. by rewrite <- (assoc_L (++)).
  - intros l'.
    match goal with
    | |- context [GiftItem.get_new_gift_item product ?w2] =>
        rewrite (get_new_gift_item_run product w2 p c Hp Hc)
    end. simpl. intros [= <-].
    rewrite Htable. fold rowid.
    rewrite lookup_app_r by done. rewrite Nat.sub_diag. simpl.
    subst w1. simpl. rewrite lookup_app_r by done. by rewrite Nat.sub_diag.
Qed.

Lemma X2_witness :
  outcome (GiftItem.remove 1%nat)
          (after (GiftItem.get_new_gift_item 0%nat) (example_world 3)) = inr () ∧
  wedding_gift (db (after (GiftItem.remove 1%nat)
                          (after (GiftItem.get_new_gift_item 0%nat) (example_world 3))))
  = wedding_gift (db (example_world 3)).
Proof.
  destruct (X2_new_gift_then_remove (example_world 3) 0%nat 1%nat)
    as (Hok & Hrows & _); [reflexivity|].
  split; [exact Hok|exact Hrows].
Defined.

(** ** A purchase that raises *)

Lemma product_purchase_raises w self e w' :
  Product.purchase self w = (inl e, w') →
  db w' = db w ∧ gift_objs w' = gift_objs w ∧
  (e ≠ OverflowError → w' = w) ∧
  (e = OverflowError →
   ∃ p q, product_objs w !! self = Some (Filled p) ∧
          py_gt0 (in_stock_quantity p) = inr true ∧
          py_sub1 (in_stock_quantity p) = inr q ∧
          product_objs w' = <[self := Filled (with_quantity p q)]> (product_objs w)) ∧
  e ∈ [AttributeError; TypeError; OutOfStock; OverflowError].
Proof.
  unfold Product.purchase, get_attrs, get_product.
  unfold mbind, M_bind, lift, raise, set_product, get_db, put_db.
  destruct (product_objs w !! self) as [[|p]|] eqn:Hp; simpl.
  - intros [= <- <-]. split_and!; [done..|discriminate|set_solver].
  - destruct (py_gt0 (in_stock_quantity p)) as [e0|[]] eqn:Hgt; simpl.
    + intros [= <- <-]. destruct (in_stock_quantity p); simplify_eq/=;
        (split_and!; [done..|discriminate|set_solver]).
    + destruct (py_sub1 (in_stock_quantity p)) as [e1|q] eqn:Hsub; simpl.
      { destruct (in_stock_quantity p); simplify_eq/=. }
      destruct (to_sql q) as [e2|c] eqn:Hq; simpl.
      { intros [= <- <-]. assert (e2 = OverflowError) as ->.
        { destruct q as [| | |[]|]; simpl in Hq; try case_match; by simplify_eq. }
        split_and!; [done..| |set_solver]. intros _. by exists p, q. }
      destruct (to_sql (product_id p)) as [e3|i] eqn:Hi; simpl; [|done].
      intros [= <- <-]. assert (e3 = OverflowError) as ->.
      { destruct (product_id p) as [| | |[]|]; simpl in Hi; try case_match; by simplify_eq. }
      split_and!; [done..| |set_solver]. intros _. by exists p, q.
    + intros [= <- <-]. split_and!; [done..|discriminate|set_solver].
  - intros [= <- <-]. split_and!; [done..|discriminate|set_solver].
Qed.

(** X3. A purchase that raises has written nothing: the tables and the
    journal of writes are as before, and no gift item has changed, its
    flag included. Unless the exception is the [OverflowError] of a value
    that does not fit the database, the whole world is as before; with
    that exception the quantity of the product object has already been
    decremented, so the object and the store then disagree. *)
Theorem X3_failed_purchase_writes_nothing w self e :
  outcome (GiftItem.purchase self) w = inl e →
  let w' := after (GiftItem.purchase self) w in
  db w' = db w ∧ gift_objs w' = gift_objs w ∧
  (e ≠ OverflowError → w' = w) ∧
  (e = OverflowError →
   ∃ g p q, gift_objs w !! self = Some g ∧
            product_objs w !! product g = Some (Filled p) ∧
            py_sub1 (in_stock_quantity p) = inr q ∧
            product_objs w' = <[product g := Filled (with_quantity p q)]> (product_objs w)).
Proof.
  unfold outcome, after.
  destruct (gift_objs w !! self) as [g|] eqn:Hg.
  - rewrite (gift_purchase_delegates _ _ _ Hg).
    destruct (Product.purchase (product g) w) as [[e'|[]] w1] eqn:Hrun; simpl; [|done].
    intros [= ->].
    destruct (product_purchase_raises _ _ _ _ Hrun) as (Hdb & Hgifts & Hsame & Hover & _).
    split_and!; [done..|]. intros He.
    destruct (Hover He) as (p & q & ? & ? & ? & ?). by exists g, p, q.
  - unfold GiftItem.purchase, get_gift, mbind, M_bind. rewrite Hg. simpl.
    intros [= <-]. split_and!; [done..|discriminate].
Qed.

Lemma X3_witness :
  db (after (GiftItem.purchase 0%nat) (example_world 0)) = db (example_world 0) ∧
  gift_objs (after (GiftItem.purchase 0%nat) (example_world 0))
  = gift_objs (example_world 0).
Proof.
  destruct (X3_failed_purchase_writes_nothing (example_world 0) 0%nat OutOfStock)
    as (Hdb & Hgifts & _); [reflexivity|]. by split.
Defined.

(** ** What an operation does to the tables *)

#[local] Instance same_db_preorder : PreOrder same_db.
Proof. split; [done|]. unfold same_db. intros w1 w2 w3. congruence. Qed.

Lemma product_new_same_db d : preserves same_db (Product.new d).
Proof. unfold Product.new. frame. Qed.

Lemma get_gift_repository_same_db : preserves same_db Product.get_gift_repository.
Proof. unfold Product.get_gift_repository. frame; apply product_new_same_db. Qed.

Lemma get_product_by_id_same_db v : preserves same_db (Product.get_product_by_id v).
Proof. unfold Product.get_product_by_id. frame; apply get_gift_repository_same_db. Qed.

Lemma get_example_gift_repository_same_db repo :
  preserves same_db (Product.get_example_gift_repository repo).
Proof. unfold Product.get_example_gift_repository. frame; apply product_new_same_db. Qed.

Lemma get_wedding_gifts_same_db : preserves same_db WeddingList.get_wedding_gifts.
Proof. unfold WeddingList.get_wedding_gifts. frame; apply get_product_by_id_same_db. Qed.

Lemma purchased_same_db l : preserves same_db (GiftItem.purchased l).
Proof. unfold GiftItem.purchased. frame. Qed.

Lemma get_purchased_gift_same_db self : preserves same_db (WeddingList.get_purchased_gift self).
Proof. unfold WeddingList.get_purchased_gift. frame; apply purchased_same_db. Qed.

Lemma get_non_purchased_gift_same_db self :
  preserves same_db (WeddingList.get_non_purchased_gift self).
Proof. unfold WeddingList.get_non_purchased_gift. frame; apply purchased_same_db. Qed.

Lemma list_remove_same_db self gift : preserves same_db (WeddingList.remove self gift).
Proof. unfold WeddingList.remove, WeddingList.index. frame. Qed.

(** What a purchase of a product that returns has done. *)
Lemma product_purchase_returns w self w' :
  Product.purchase self w = (inr (), w') →
  ∃ p q c i,
    product_objs w !! self = Some (Filled p) ∧
    py_gt0 (in_stock_quantity p) = inr true ∧
    py_sub1 (in_stock_quantity p) = inr q ∧
    to_sql q = inr c ∧ to_sql (product_id p) = inr i ∧
    w' = mkWorld (<[self := Filled (with_quantity p q)]> (product_objs w))
                 (gift_objs w)
                 (exec_update_stock c i (db w)).
Proof.
  unfold Product.purchase, get_attrs, get_product.
  unfold mbind, M_bind, lift, raise, set_product, get_db, put_db.
  destruct (product_objs w !! self) as [[|p]|] eqn:Hp; simpl; try done.
  destruct (py_gt0 (in_stock_quantity p)) as [e0|[]] eqn:Hgt; simpl; try done.
  destruct (py_sub1 (in_stock_quantity p)) as [e1|q] eqn:Hsub; simpl; try done.
  destruct (to_sql q) as [e2|c] eqn:Hq; simpl; try done.
  destruct (to_sql (product_id p)) as [e3|i] eqn:Hi; simpl; try done.
  intros [= <-]. by exists p, q, c, i.
Qed.

(** The database after an operation is the one before, or the one before
    with one of the program's statements applied, or with two for the
    purchase of a gift. *)
Lemma product_purchase_db w self :
  db (after (Product.purchase self) w) = db w ∨
  ∃ c i, db (after (Product.purchase self) w) = exec_update_stock c i (db w).
Proof.
  unfold after. destruct (Product.purchase self w) as [[e|[]] w'] eqn:Hrun; simpl.
  - left. by destruct (product_purchase_raises _ _ _ _ Hrun) as (? & _).
  - right. destruct (product_purchase_returns _ _ _ Hrun) as (p & q & c & i & _ & _ & _ & _ & _ & ->).
    by exists c, i.
Qed.

Lemma gift_purchase_db w self :
  db (after (GiftItem.purchase self) w) = db w ∨
  ∃ c i z, db (after (GiftItem.purchase self) w)
           = exec_update_gift (SqlInt 1) (SqlInt z) (exec_update_stock c i (db w)).
Proof.
  unfold after. destruct (gift_objs w !! self) as [g|] eqn:Hg.
  - rewrite (gift_purchase_delegates _ _ _ Hg).
    destruct (Product.purchase (product g) w) as [[e|[]] w'] eqn:Hrun; simpl.
    + left. by destruct (product_purchase_raises _ _ _ _ Hrun) as (? & _).
    + right.
      destruct (product_purchase_returns _ _ _ Hrun) as (p & q & c & i & _ & _ & _ & _ & _ & ->).
      by exists c, i, (gift_id g).
  - left. unfold GiftItem.purchase, get_gift, mbind, M_bind. by rewrite Hg.
Qed.

Lemma gift_remove_db w self :
  db (after (GiftItem.remove self) w) = db w ∨
  ∃ z, db (after (GiftItem.remove self) w) = exec_delete_gift (SqlInt z) (db w).
Proof.
  unfold after. destruct (gift_objs w !! self) as [g|] eqn:Hg.
  - right. rewrite (remove_run _ _ _ Hg). by exists (gift_id g).
  - left. unfold GiftItem.remove, get_gift, mbind, M_bind. by rewrite Hg.
Qed.

Lemma get_new_gift_item_db w product :
  db (after (GiftItem.get_new_gift_item product) w) = db w ∨
  ∃ c, db (after (GiftItem.get_new_gift_item product) w)
       = (exec_insert_gift c (SqlInt 0) (db w)).1.
Proof.
  unfold after, GiftItem.get_new_gift_item, get_attrs, get_product.
  unfold mbind, M_bind, lift, raise, get_db, put_db, alloc_gift. simpl.
  destruct (product_objs w !! product) as [[|p]|]; simpl; try by left.
  destruct (to_sql (product_id p)) as [e|c]; simpl; [by left|].
  right. by exists c.
Qed.

(** ** The rowids of the tables *)

#[local] Instance keeps_preorder (I : World → Prop) : PreOrder (keeps I).
Proof. split; unfold keeps; [by intros w|]. intros w1 w2 w3 H12 H23 ?. auto. Qed.

(** The rules of the frame, with the instance of the order found. *)
Ltac pres_ret := apply preserves_ret; exact _.
Ltac pres_bind := apply preserves_bind; [exact _| |].
Ltac pres_drop := apply preserves_bind; [exact _| |intros; apply preserves_ret; exact _].

Lemma same_db_keeps {A} (J : Db → Prop) (m : M A) :
  preserves same_db m → preserves (keeps (λ w, J (db w))) m.
Proof. intros H w. unfold keeps. by rewrite (H w). Qed.

Lemma sorted_filter_rowids {A} (P : Z * A → Prop) `{!∀ x, Decision (P x)} (t : list (Z * A)) :
  StronglySorted Z.lt t.*1 → StronglySorted Z.lt (filter P t).*1.
Proof.
  induction t as [|[z r] t IH]; [done|].
  rewrite fmap_cons, StronglySorted_cons. intros [Hall Hs]. rewrite filter_cons.
  case_decide; [|by apply IH].
  rewrite fmap_cons, StronglySorted_cons. split; [|by apply IH].
  rewrite Forall_forall in *. intros y ([y' r'] & -> & [_ Hin]%list_elem_of_filter)%list_elem_of_fmap.
  apply Hall, list_elem_of_fmap. by exists (y', r').
Qed.

Lemma sorted_insert_row {A} z (r : A) (t : list (Z * A)) :
  z ∉ t.*1 → StronglySorted Z.lt t.*1 → StronglySorted Z.lt (insert_row z r t).*1.
Proof.
  induction t as [|[y s] t IH]; intros Hno Hs; simpl.
  - repeat constructor.
  - rewrite fmap_cons, not_elem_of_cons in Hno. destruct Hno as [Hne Hno].
    rewrite fmap_cons, StronglySorted_cons in Hs. destruct Hs as [Hall Hs].
    simpl in *. destruct (z <? y) eqn:Hzy.
    + apply Z.ltb_lt in Hzy. rewrite !fmap_cons. simpl.
      apply StronglySorted_cons. split; [|by apply StronglySorted_cons].
      constructor; [done|]. eapply Forall_impl; [exact Hall|]. simpl. lia.
    + apply Z.ltb_ge in Hzy. rewrite fmap_cons. simpl.
      apply StronglySorted_cons. split; [|by apply IH].
      rewrite insert_row_rowids. constructor; [lia|done].
Qed.

Lemma sorted_NoDup (l : list Z) : StronglySorted Z.lt l → NoDup l.
Proof.
  induction l as [|z l IH]; [constructor|].
  rewrite StronglySorted_cons, NoDup_cons. intros [Hall Hs]. split; [|by apply IH].
  intros Hin. rewrite Forall_forall in Hall. specialize (Hall z Hin). lia.
Qed.

Lemma rowids_update_stock c i d :
  rowids_increasing d → rowids_increasing (exec_update_stock c i d).
Proof. unfold rowids_increasing. simpl. by rewrite update_where_rowids. Qed.

Lemma rowids_update_gift c i d :
  rowids_increasing d → rowids_increasing (exec_update_gift c i d).
Proof. unfold rowids_increasing. simpl. by rewrite update_where_rowids. Qed.

Lemma rowids_delete_gift i d :
  rowids_increasing d → rowids_increasing (exec_delete_gift i d).
Proof.
  unfold rowids_increasing, delete_where. simpl. intros [? ?].
  split; [done|]. by apply sorted_filter_rowids.
Qed.

Lemma rowids_insert_gift c f d :
  rowids_increasing d → rowids_increasing (exec_insert_gift c f d).1.
Proof.
  unfold rowids_increasing. simpl. intros [? ?].
  split; [done|]. apply sorted_insert_row; [apply next_rowid_fresh|done].
Qed.

Lemma insert_example_product_rowids l :
  preserves (keeps (λ w, rowids_increasing (db w))) (insert_example_product l).
Proof.
  intros w. unfold keeps, insert_example_product, exec_insert_product, get_attrs, get_product.
  unfold mbind, M_bind, lift, raise, get_db, put_db, mret, M_ret.
  destruct (product_objs w !! l) as [[|p]|]; simpl; try done.
  destruct (py_div100 (price p)) as [?|h]; simpl; try done.
  destruct (to_sql (product_id p)) as [?|i]; simpl; try done.
  destruct (to_sql (name p)) as [?|n]; simpl; try done.
  destruct (to_sql (brand p)) as [?|b]; simpl; try done.
  destruct (to_sql h) as [?|c]; simpl; try done.
  destruct (to_sql (in_stock_quantity p)) as [?|q]; simpl; try done.
  intros [Hp Hg].
  destruct i as [|z| |]; simpl; try done; case_bool_decide; simpl; try done;
    (split; [|done]); simpl; by apply sorted_insert_row.
Qed.

Lemma init_db_rowids has repo :
  preserves (keeps (λ w, rowids_increasing (db w))) (init_db has repo).
Proof.
  unfold init_db. destruct has; [pres_ret|].
  pres_bind; [apply preserves_get_db; exact _|]. intros d.
  pres_bind.
  { intros w _. split; simpl; constructor. }
  intros _. pres_bind.
  { apply same_db_keeps, get_example_gift_repository_same_db. }
  intros gift_repo. pres_drop.
  apply preserves_for_each; [exact _|]. apply insert_example_product_rowids.
Qed.

Lemma run_rowids o : preserves (keeps (λ w, rowids_increasing (db w))) (run o).
Proof.
  destruct o as [p|repo| |v|gift|gift|gift|p|self gift|self|self| |self gift|has repo]; simpl.
  - intros w. unfold keeps.
    destruct (product_purchase_db w p) as [H|(c & i & H)]; unfold after in H;
      rewrite H; [done|apply rowids_update_stock].
  - pres_drop. apply same_db_keeps, get_example_gift_repository_same_db.
  - pres_drop. apply same_db_keeps, get_gift_repository_same_db.
  - pres_drop. apply same_db_keeps, get_product_by_id_same_db.
  - intros w. unfold keeps.
    destruct (gift_purchase_db w gift) as [H|(c & i & z & H)]; unfold after in H;
      rewrite H; [done|]. intros ?. by apply rowids_update_gift, rowids_update_stock.
  - pres_drop. apply same_db_keeps, purchased_same_db.
  - intros w. unfold keeps.
    destruct (gift_remove_db w gift) as [H|(z & H)]; unfold after in H;
      rewrite H; [done|apply rowids_delete_gift].
  - pres_drop. intros w. unfold keeps.
    destruct (get_new_gift_item_db w p) as [H|(c & H)]; unfold after in H;
      rewrite H; [done|apply rowids_insert_gift].
  - intros w. unfold keeps. destruct (decide (gift ∈ self)) as [Hin|Hno].
    + rewrite (purchase_gift_member _ _ _ Hin).
      destruct (gift_purchase_db w gift) as [H|(c & i & z & H)]; unfold after in H;
        rewrite H; [done|]. intros ?. by apply rowids_update_gift, rowids_update_stock.
    + by rewrite (purchase_gift_not_member _ _ _ Hno).
  - pres_drop. apply same_db_keeps, get_purchased_gift_same_db.
  - pres_drop. apply same_db_keeps, get_non_purchased_gift_same_db.
  - pres_drop. apply same_db_keeps, get_wedding_gifts_same_db.
  - pres_drop. apply same_db_keeps, list_remove_same_db.
  - apply init_db_rowids.
Qed.

(** X4. Whatever operations run, in any number and order and whether they
    return or raise, the rowids of both tables stay increasing along the
    scan, and so no operation makes two rows with the same rowid. *)
Theorem X4_rowids_stay_increasing os w :
  rowids_increasing (db w) →
  rowids_increasing (db (run_all os w)) ∧
  NoDup (products (db (run_all os w))).*1 ∧
  NoDup (wedding_gift (db (run_all os w))).*1.
Proof.
  intros Hw.
  assert (Hinv : rowids_increasing (db (run_all os w))).
  { revert w Hw. induction os as [|o os IH]; intros w Hw; [done|]. simpl.
    apply IH. by apply (run_rowids o w). }
  split; [done|]. destruct Hinv. split; by apply sorted_NoDup.
Qed.

Lemma X4_witness :
  rowids_increasing
    (db (run_all [GiftItem_get_new_gift_item 0%nat; GiftItem_purchase 1%nat;
                  GiftItem_remove 0%nat] (example_world 3))).
Proof.
  apply (X4_rowids_stay_increasing _ (example_world 3)).
  split; simpl; repeat constructor.
Defined.

(** ** The stock never goes below zero *)

Lemma preserves_for_each_Forall {A B} (R : World → World → Prop) `{!PreOrder R}
    (f : A → M B) (l : list A) :
  Forall (λ a, preserves R (f a)) l → preserves R (for_each f l).
Proof.
  induction 1 as [|a l Ha Hl IH]; simpl; [pres_ret|].
  pres_bind; [done|]. intros b. pres_drop. done.
Qed.

Lemma stock_ok_same w w' :
  product_objs w' = product_objs w → products (db w') = products (db w) →
  stock_ok w → stock_ok w'.
Proof. unfold stock_ok. by intros -> ->. Qed.

Lemma stock_ok_alloc w p n :
  in_stock_quantity p = PyInt n → 0 ≤ n → stock_ok w →
  stock_ok (mkWorld (product_objs w ++ [Filled p]) (gift_objs w) (db w)).
Proof.
  intros Hq Hn [Hobjs Hrows]. split; [|done]. simpl.
  intros l p' [Hl|[_ Hl]]%lookup_app_Some; [by eapply Hobjs|].
  apply list_lookup_singleton_Some in Hl as [_ [= <-]]. eauto.
Qed.

Lemma stock_ok_loaded w : stock_ok w → stock_ok (loaded w).
Proof.
  intros [Hobjs Hrows]. split; [|done]. simpl.
  intros l p [Hl|[_ Hl]]%lookup_app_Some; [by eapply Hobjs|].
  rewrite list_lookup_fmap in Hl.
  destruct (products (db w) !! _) as [zr|] eqn:Hzr; simplify_eq/=.
  destruct (Hrows zr) as (n & Hn & ?); [by eapply list_elem_of_lookup_2|].
  exists n. by rewrite Hn.
Qed.

Lemma product_new_stock d :
  (∀ dict, d = Some dict → stock_ok_description dict) →
  preserves (keeps stock_ok) (Product.new d).
Proof.
  intros Hd w. unfold keeps, Product.new, mbind, M_bind, lift, alloc_product.
  destruct (Product.__init__ d) as [e|[|p]] eqn:Hinit; simpl; [done| |].
  - intros [Hobjs Hrows]. split; [|done]. simpl.
    intros l p [Hl|[_ Hl]]%lookup_app_Some; [by eapply Hobjs|].
    by apply list_lookup_singleton_Some in Hl as [_ [=]].
  - destruct d as [dict|]; [|done]. unfold Product.__init__, Product.getitem in Hinit.
    case_bool_decide; [done|].
    destruct (dict !! "id"); [|done]. destruct (dict !! "name"); [|done].
    destruct (dict !! "brand"); [|done]. destruct (Product.price_of dict); [done|].
    destruct (dict !! "in_stock_quantity") as [q|] eqn:Hq; [|done].
    injection Hinit as <-.
    destruct (Hd dict eq_refl q Hq) as (k & -> & Hk).
    intros Hok. by apply (stock_ok_alloc w _ k).
Qed.

Lemma load_gift_stock gift : preserves (keeps stock_ok) (load_gift gift).
Proof.
  intros w. unfold keeps. rewrite load_gift_run. intros Hok.
  destruct (find_product _ _) as [[i zr]|]; simpl; [|by apply stock_ok_loaded].
  destruct (py_gt0 _) as [e|b]; simpl; [by apply stock_ok_loaded|].
  by apply (stock_ok_same (loaded w)), stock_ok_loaded.
Qed.

#[local] Instance exn_eq_dec : EqDecision exn.
Proof. solve_decision. Defined.

Lemma product_purchase_stock self : preserves (keeps stock_ok) (Product.purchase self).
Proof.
  intros w. unfold keeps. intros [Hobjs Hrows].
  destruct (Product.purchase self w) as [[e|[]] w'] eqn:Hrun; simpl.
  - destruct (product_purchase_raises _ _ _ _ Hrun) as (Hdb & _ & Hsame & Hover & _).
    destruct (decide (e = OverflowError)) as [->|Hne]; [|by rewrite Hsame].
    destruct (Hover eq_refl) as (p & q & Hp & Hgt & Hsub & Hobjs').
    destruct (Hobjs _ _ Hp) as (n & Hn & ?). rewrite Hn in *. simplify_eq/=.
    apply Z.ltb_lt in Hgt.
    split; [|by rewrite Hdb]. rewrite Hobjs'. intros l p' Hl.
    destruct (decide (l = self)) as [->|Hne].
    + rewrite list_lookup_insert_eq in Hl by (by eapply lookup_lt_Some).
      simplify_eq/=. exists (n - 1). split; [done|lia].
    + rewrite list_lookup_insert_ne in Hl by done. by eapply Hobjs.
  - destruct (product_purchase_returns _ _ _ Hrun)
      as (p & q & c & i & Hp & Hgt & Hsub & Hc & Hi & ->).
    destruct (Hobjs _ _ Hp) as (n & Hn & ?). rewrite Hn in *. simplify_eq/=.
    apply Z.ltb_lt in Hgt.
    assert (c = SqlInt (n - 1)) as -> by (by case_match; simplify_eq).
    split; simpl.
    + intros l p' Hl. destruct (decide (l = self)) as [->|Hne].
      * rewrite list_lookup_insert_eq in Hl by (by eapply lookup_lt_Some).
        simplify_eq/=. exists (n - 1). split; [done|lia].
      * rewrite list_lookup_insert_ne in Hl by done. by eapply Hobjs.
    + intros zr ([z r] & -> & Hin)%list_elem_of_fmap.
      destruct (rowid_is i z); simpl; [|by apply (Hrows (z, r))].
      exists (n - 1). split; [done|lia].
Qed.

Lemma gift_purchase_stock self : preserves (keeps stock_ok) (GiftItem.purchase self).
Proof.
  intros w. unfold keeps. intros Hok.
  destruct (gift_objs w !! self) as [g|] eqn:Hg.
  - rewrite (gift_purchase_delegates _ _ _ Hg).
    pose proof (product_purchase_stock (product g) w Hok) as Hok1.
    destruct (Product.purchase (product g) w) as [[e|[]] w1]; simpl in *; [done|].
    by apply (stock_ok_same w1).
  - unfold GiftItem.purchase, get_gift, mbind, M_bind. by rewrite Hg.
Qed.

Lemma insert_example_product_stock l :
  preserves (keeps stock_ok) (insert_example_product l).
Proof.
  intros w. unfold keeps, insert_example_product, exec_insert_product, get_attrs, get_product.
  unfold mbind, M_bind, lift, raise, get_db, put_db, mret, M_ret.
  intros [Hobjs Hrows].
  destruct (product_objs w !! l) as [[|p]|] eqn:Hp; simpl; try done.
  destruct (py_div100 (price p)) as [?|h]; simpl; try done.
  destruct (to_sql (product_id p)) as [?|i]; simpl; try done.
  destruct (to_sql (name p)) as [?|n]; simpl; try done.
  destruct (to_sql (brand p)) as [?|b]; simpl; try done.
  destruct (to_sql h) as [?|c]; simpl; try done.
  destruct (to_sql (in_stock_quantity p)) as [?|q] eqn:Hq; simpl; try done.
  destruct (Hobjs _ _ Hp) as (k & Hk & ?). rewrite Hk in Hq. simpl in Hq.
  assert (q = SqlInt k) as -> by (by case_match; simplify_eq).
  destruct i as [|z| |]; simpl; try done; case_bool_decide; simpl; try done;
    (split; [done|]); simpl; intros zr [->|Hin]%insert_row_elem_of; eauto.
Qed.

#[local] Instance unchanged_preorder : PreOrder unchanged.
Proof. split; [done|]. unfold unchanged. intros w1 w2 w3. congruence. Qed.

Lemma unchanged_keeps {A} (I : World → Prop) (m : M A) :
  preserves unchanged m → preserves (keeps I) m.
Proof. intros H w. unfold keeps. by rewrite (H w). Qed.

Lemma purchased_unchanged l : preserves unchanged (GiftItem.purchased l).
Proof. unfold GiftItem.purchased. frame. Qed.

Lemma get_purchased_gift_unchanged self :
  preserves unchanged (WeddingList.get_purchased_gift self).
Proof. unfold WeddingList.get_purchased_gift. frame; apply purchased_unchanged. Qed.

Lemma get_non_purchased_gift_unchanged self :
  preserves unchanged (WeddingList.get_non_purchased_gift self).
Proof. unfold WeddingList.get_non_purchased_gift. frame; apply purchased_unchanged. Qed.

Lemma list_remove_unchanged self gift : preserves unchanged (WeddingList.remove self gift).
Proof. unfold WeddingList.remove, WeddingList.index. frame. Qed.

Lemma init_db_stock has repo :
  Forall stock_ok_description repo → preserves (keeps stock_ok) (init_db has repo).
Proof.
  intros Hrepo. unfold init_db. destruct has; [pres_ret|].
  pres_bind; [apply preserves_get_db; exact _|]. intros d.
  pres_bind.
  { intros w [Hobjs _]. split; [done|]. simpl. by intros zr ?%elem_of_nil. }
  intros _. pres_bind.
  { apply preserves_for_each_Forall; [exact _|].
    eapply Forall_impl; [exact Hrepo|]. intros dict Hd. apply product_new_stock.
    by intros ? [= <-]. }
  intros gift_repo. pres_drop.
  apply preserves_for_each; [exact _|]. apply insert_example_product_stock.
Qed.

Lemma run_stock o : repository_ok o → preserves (keeps stock_ok) (run o).
Proof.
  destruct o as [p|repo| |v|gift|gift|gift|p|self gift|self|self| |self gift|has repo];
    simpl; intros Hrepo.
  - apply product_purchase_stock.
  - pres_drop. apply preserves_for_each_Forall; [exact _|].
    eapply Forall_impl; [exact Hrepo|]. intros d Hd. apply product_new_stock.
    by intros ? [= <-].
  - pres_drop. intros w. unfold keeps. rewrite get_gift_repository_spec. apply stock_ok_loaded.
  - pres_drop. intros w. unfold keeps. rewrite get_product_by_id_first. apply stock_ok_loaded.
  - apply gift_purchase_stock.
  - pres_drop. apply unchanged_keeps, purchased_unchanged.
  - intros w. unfold keeps. apply stock_ok_same.
    + unfold GiftItem.remove, get_gift, mbind, M_bind. by destruct (_ !! _).
    + unfold GiftItem.remove, get_gift, mbind, M_bind. by destruct (_ !! _).
  - pres_drop. intros w. unfold keeps. apply stock_ok_same.
    + unfold GiftItem.get_new_gift_item, get_attrs, get_product, mbind, M_bind, lift.
      destruct (_ !! _) as [[|a]|]; simpl; try done. by destruct (to_sql _).
    + unfold GiftItem.get_new_gift_item, get_attrs, get_product, mbind, M_bind, lift.
      destruct (_ !! _) as [[|a]|]; simpl; try done. by destruct (to_sql _).
  - intros w. destruct (decide (gift ∈ self)) as [Hin|Hno].
    + rewrite (purchase_gift_member _ _ _ Hin). apply gift_purchase_stock.
    + by rewrite (purchase_gift_not_member _ _ _ Hno).
  - pres_drop. apply unchanged_keeps, get_purchased_gift_unchanged.
  - pres_drop. apply unchanged_keeps, get_non_purchased_gift_unchanged.
  - pres_drop. intros w. rewrite get_wedding_gifts_unfold.
    apply (preserves_for_each (keeps stock_ok) load_gift (wedding_gift (db w))
             load_gift_stock w).
  - pres_drop. apply unchanged_keeps, list_remove_unchanged.
  - by apply init_db_stock.
Qed.

(** X5. When every stock quantity is a non-negative integer, in the
    product objects and in the store, it stays so whatever operations
    run, in any number and order and whether they return or raise: no
    purchase takes a quantity below zero. The descriptions that a bootstrap
    reads are to have such quantities. *)
Theorem X5_stock_never_negative os w :
  Forall repository_ok os → stock_ok w → stock_ok (run_all os w).
Proof.
  intros Hos. revert w. induction Hos as [|o os Ho Hos IH]; intros w Hw; [done|].
  simpl. apply IH. by apply (run_stock o Ho w).
Qed.

Lemma X5_witness :
  stock_ok (run_all [GiftItem_purchase 0%nat; GiftItem_purchase 0%nat;
                     GiftItem_purchase 0%nat; GiftItem_purchase 0%nat]
                    (example_world 3)).
Proof.
  apply (X5_stock_never_negative _ (example_world 3)).
  - repeat constructor.
  - split.
    + intros l p Hl. destruct l as [|l]; simplify_eq/=. exists 3. by split.
    + intros zr ->%list_elem_of_singleton. exists 3. by split.
Defined.

(** ** Purchases in a row *)

Lemma gift_purchase_in_stock w self g p n pid :
  gift_objs w !! self = Some g →
  product_objs w !! product g = Some (Filled p) →
  in_stock_quantity p = PyInt n → 0 < n < 2 ^ 63 →
  product_id p = PyInt pid → fits_int64 pid = true →
  GiftItem.purchase self w
  = (inr (),
     mkWorld (<[product g := Filled (with_quantity p (PyInt (n - 1)))]> (product_objs w))
             (<[self := mkGiftItem (gift_id g) (product g) true]> (gift_objs w))
             (exec_update_gift (SqlInt 1) (SqlInt (gift_id g))
                (exec_update_stock (SqlInt (n - 1)) (SqlInt pid) (db w)))).
Proof.
  intros Hg Hp Hq Hn Hid Hpid.
  rewrite (gift_purchase_delegates _ _ _ Hg).
  rewrite (purchase_in_stock w (product g) p n pid); [done|done|done|lia| |done|done].
  unfold fits_int64. apply andb_true_intro. split; [apply Z.leb_le|apply Z.ltb_lt]; lia.
Qed.

Lemma stored_quantity_update_gift c i d z :
  stored_quantity (exec_update_gift c i d) z = stored_quantity d z.
Proof. done. Qed.

(** X6. Two purchases in a row of gift items of the same product, each
    with the product in stock in its own product object. When the two gift
    items share one product object the second purchase sees the quantity
    that the first has left, and the store ends two below. When they hold
    two objects of the product, as after a load of the list, the second
    object still has the quantity read at the load: both purchases return
    and set their flags, and the store ends only one below. *)
Theorem X6_two_purchases w l1 l2 g1 g2 a n pid :
  gift_objs w !! l1 = Some g1 → gift_objs w !! l2 = Some g2 →
  product_objs w !! product g1 = Some (Filled a) →
  product_objs w !! product g2 = Some (Filled a) →
  in_stock_quantity a = PyInt n → 2 ≤ n < 2 ^ 63 →
  product_id a = PyInt pid → fits_int64 pid = true →
  is_Some (stored_quantity (db w) pid) →
  let w1 := after (GiftItem.purchase l1) w in
  let w2 := after (GiftItem.purchase l2) w1 in
  outcome (GiftItem.purchase l1) w = inr () ∧
  outcome (GiftItem.purchase l2) w1 = inr () ∧
  is_purchased w2 l1 = true ∧ is_purchased w2 l2 = true ∧
  (product g1 = product g2 → stored_quantity (db w2) pid = Some (SqlInt (n - 2))) ∧
  (product g1 ≠ product g2 → stored_quantity (db w2) pid = Some (SqlInt (n - 1))).
Proof.
  intros Hg1 Hg2 Hp1 Hp2 Hq Hn Hid Hpid [q0 Hrow]. unfold outcome, after.
  rewrite (gift_purchase_in_stock w l1 g1 a n pid) by (done || lia). simpl.
  remember (mkWorld _ _ _) as w1 eqn:Hw1.
  assert (∃ g2', gift_objs w1 !! l2 = Some g2' ∧ product g2' = product g2 ∧
                 gift_id g2' = gift_id g2) as (g2' & Hg2' & Hprod & Hgid).
  { subst w1. simpl. destruct (decide (l1 = l2)) as [->|Hne].
    - rewrite list_lookup_insert_eq by (by eapply lookup_lt_Some).
      eexists. split; [done|]. simplify_eq. done.
    - rewrite list_lookup_insert_ne by done. by exists g2. }
  assert (Hstored1 : stored_quantity (db w1) pid = Some (SqlInt (n - 1))).
  { subst w1. simpl.
    by rewrite stored_quantity_update_gift, stored_quantity_update_stock, decide_True, Hrow. }
  assert (Hflags : ∀ wp d,
    is_purchased (mkWorld wp (<[l2 := mkGiftItem (gift_id g2') (product g2') true]>
                                (gift_objs w1)) d) l1 = true ∧
    is_purchased (mkWorld wp (<[l2 := mkGiftItem (gift_id g2') (product g2') true]>
                                (gift_objs w1)) d) l2 = true).
  { intros wp d. unfold is_purchased. simpl. split.
    - destruct (decide (l2 = l1)) as [->|Hne].
      + by rewrite list_lookup_insert_eq by (by eapply lookup_lt_Some).
      + rewrite list_lookup_insert_ne by done. subst w1. simpl.
        by rewrite list_lookup_insert_eq by (by eapply lookup_lt_Some).
    - by rewrite list_lookup_insert_eq by (by eapply lookup_lt_Some). }
  destruct (decide (product g1 = product g2)) as [Heq|Hne].
  - assert (Hp2' : product_objs w1 !! product g2'
                   = Some (Filled (with_quantity a (PyInt (n - 1))))).
    { subst w1. simpl. rewrite Hprod, <- Heq.
      by rewrite list_lookup_insert_eq by (by eapply lookup_lt_Some). }
    rewrite (gift_purchase_in_stock w1 l2 g2' _ (n - 1) pid Hg2' Hp2') by (done || lia).
    simpl. destruct (Hflags (<[product g2' := Filled (with_quantity (with_quantity a (PyInt (n - 1)))
                                                      (PyInt (n - 1 - 1)))]> (product_objs w1))
                       (exec_update_gift (SqlInt 1) (SqlInt (gift_id g2'))
                          (exec_update_stock (SqlInt (n - 1 - 1)) (SqlInt pid) (db w1)))).
    split_and!; [done..| |done].
    intros _. rewrite stored_quantity_update_gift, stored_quantity_update_stock, decide_True by done.
    rewrite Hstored1. simpl. do 2 f_equal. lia.
  - assert (Hp2' : product_objs w1 !! product g2' = Some (Filled a)).
    { subst w1. simpl. rewrite Hprod. by rewrite list_lookup_insert_ne. }
    rewrite (gift_purchase_in_stock w1 l2 g2' _ n pid Hg2' Hp2') by (done || lia).
    simpl. destruct (Hflags (<[product g2' := Filled (with_quantity a (PyInt (n - 1)))]>
                               (product_objs w1))
                       (exec_update_gift (SqlInt 1) (SqlInt (gift_id g2'))
                          (exec_update_stock (SqlInt (n - 1)) (SqlInt pid) (db w1)))).
    split_and!; [done..|].
    intros _. rewrite stored_quantity_update_gift, stored_quantity_update_stock, decide_True by done.
    by rewrite Hstored1.
Qed.

Lemma X6_witness :
  stored_quantity
    (db (after (GiftItem.purchase 1%nat) (after (GiftItem.purchase 0%nat) two_gifts_loaded)))
    1
  = Some (SqlInt (3 - 1)).
Proof.
  destruct (X6_two_purchases two_gifts_loaded 0%nat 1%nat
              (mkGiftItem 1 0%nat false) (mkGiftItem 2 1%nat false)
              (mkProduct (PyInt 1) (PyStr "Tea pot") (PyStr "Le Creuset")
                         (PyInt 1250) (PyInt 3)) 3 1)
    as (_ & _ & _ & _ & _ & Hstale);
    [reflexivity|reflexivity|reflexivity|reflexivity|reflexivity|lia|reflexivity|reflexivity
    |eexists; reflexivity|].
  apply Hstale. discriminate.
Defined.

(** ** The bootstrap *)

Lemma example_repository_fails repo w :
  Exists (λ d, ∃ e, Product.__init__ (Some d) = inl e) repo →
  ∃ e d w', d ∈ repo ∧ Product.__init__ (Some d) = inl e ∧
            Product.get_example_gift_repository repo w = (inl e, w') ∧
            db w' = db w ∧ gift_objs w' = gift_objs w.
Proof.
  unfold Product.get_example_gift_repository.
  revert w. induction repo as [|d repo IH]; intros w Hex; [by apply Exists_nil in Hex|].
  simpl. unfold mbind at 1, M_bind at 1. unfold Product.new at 1.
  unfold mbind at 1, M_bind at 1, lift.
  destruct (Product.__init__ (Some d)) as [e|o] eqn:Hd; simpl.
  - exists e, d, w. split_and!; [apply list_elem_of_here|done..].
  - apply Exists_cons in Hex as [[e He]|Hex]; [congruence|].
    destruct (IH (mkWorld (product_objs w ++ [o]) (gift_objs w) (db w)) Hex)
      as (e & d' & w' & Hin & He & Hrun & Hdb & Hgifts).
    exists e, d', w'. unfold mbind at 1, M_bind at 1. rewrite Hrun.
    split_and!; [by apply list_elem_of_further|done..].
Qed.

Lemma example_repository_ok repo ps w :
  Forall2 (λ d p, Product.__init__ (Some d) = inr (Filled p)) repo ps →
  Product.get_example_gift_repository repo w
  = (inr (seq (length (product_objs w)) (length repo)),
     mkWorld (product_objs w ++ (Filled <$> ps)) (gift_objs w) (db w)).
Proof.
  unfold Product.get_example_gift_repository.
  intros Hall. revert w. induction Hall as [|d p repo ps Hd Hall IH]; intros w; simpl.
  - rewrite app_nil_r. by destruct w.
  - unfold mbind at 1, M_bind at 1. unfold Product.new at 1.
    unfold mbind at 1, M_bind at 1, lift. rewrite Hd. simpl.
    unfold mbind at 1, M_bind at 1. rewrite IH. simpl.
    rewrite length_app, <- (assoc_L (++)). simpl.
    by replace (length (product_objs w) + 1)%nat with (S (length (product_objs w))) by lia.
Qed.

Lemma insert_example_product_run l w p z row :
  product_objs w !! l = Some (Filled p) →
  example_row p = inr (SqlInt z, row) →
  z ∉ (products (db w)).*1 →
  insert_example_product l w
  = (inr (), mkWorld (product_objs w) (gift_objs w)
                     (mkDb (insert_row z row (products (db w))) (wedding_gift (db w))
                           (journal (db w) ++ [InsertProduct (SqlInt z) row]))).
Proof.
  intros Hp Hrow Hz. unfold insert_example_product.
  rewrite (bind_inr _ _ _ _ _ (get_attrs_filled _ _ _ Hp)).
  unfold example_row in Hrow.
  unfold exec_insert_product, mbind, M_bind, lift, raise, get_db, put_db, mret, M_ret.
  destruct (py_div100 (price p)) as [?|h]; [done|].
  destruct (to_sql (product_id p)) as [?|i]; [done|].
  destruct (to_sql (name p)) as [?|n]; [done|].
  destruct (to_sql (brand p)) as [?|b]; [done|].
  destruct (to_sql h) as [?|c]; [done|].
  destruct (to_sql (in_stock_quantity p)) as [?|q]; [done|].
  injection Hrow as -> <-. simpl. by rewrite bool_decide_false.
Qed.

Lemma insert_example_products_run locs ps rows w :
  Forall2 (λ l p, product_objs w !! l = Some (Filled p)) locs ps →
  Forall2 (λ p (zr : Z * ProductRow), example_row p = inr (SqlInt zr.1, zr.2)) ps rows →
  NoDup (rows.*1 ++ (products (db w)).*1) →
  ∃ units d',
    for_each insert_example_product locs w
    = (inr units, mkWorld (product_objs w) (gift_objs w) d') ∧
    products d' ≡ₚ rows ++ products (db w) ∧
    wedding_gift d' = wedding_gift (db w) ∧
    (StronglySorted Z.lt (products (db w)).*1 → StronglySorted Z.lt (products d').*1).
Proof.
  intros Hlocs. revert rows w Hlocs.
  induction ps as [|p ps IH] in locs |- *; intros rows w Hlocs Hrows Hnd.
  - apply Forall2_nil_inv_r in Hlocs as ->. apply Forall2_nil_inv_l in Hrows as ->.
    exists [], (db w). simpl. split_and!; [by destruct w|done..].
  - apply Forall2_cons_inv_r in Hlocs as (l & locs' & Hl & Hlocs & ->).
    apply Forall2_cons_inv_l in Hrows as ([z row] & rows' & Hrow & Hrows & ->).
    simpl in *. apply NoDup_cons in Hnd as [Hz Hnd].
    assert (Hz' : z ∉ (products (db w)).*1) by (intros ?; apply Hz, elem_of_app; by right).
    set (w1 := mkWorld (product_objs w) (gift_objs w)
                 (mkDb (insert_row z row (products (db w))) (wedding_gift (db w))
                       (journal (db w) ++ [InsertProduct (SqlInt z) row]))).
    destruct (IH locs' rows' w1) as (units & d' & Hrun & Hperm & Hwg & Hsorted).
    + done.
    + done.
    + simpl. rewrite insert_row_rowids.
      apply NoDup_app. apply NoDup_app in Hnd as (Hr & Hdisj & Hp).
      split_and!; [done| |].
      * intros y Hy [->|Hy']%elem_of_cons; [|by apply (Hdisj y)].
        apply Hz, elem_of_app. by left.
      * apply NoDup_cons. by split.
    + exists (() :: units), d'.
      unfold mbind at 1, M_bind at 1.
      rewrite (insert_example_product_run l w p z row Hl Hrow Hz'). fold w1.
      unfold mbind at 1, M_bind at 1. rewrite Hrun. simpl.
      split_and!; [done| |done|].
      * rewrite Hperm. simpl. rewrite insert_row_perm.
        by rewrite Permutation_middle.
      * intros Hs. apply Hsorted. simpl. by apply sorted_insert_row.
Qed.

Lemma init_db_unfold repo w :
  init_db false repo w
  = (Product.get_example_gift_repository repo
     ≫= λ gift_repo, for_each insert_example_product gift_repo ≫= λ _, mret ())
      (mkWorld (product_objs w) (gift_objs w)
               (mkDb [] [] (journal (db w) ++ [CreateSchema]))).
Proof. done. Qed.

(** X7. When the constructor raises for a description of the repository
    file, [init_db] on a database without the tables raises that
    exception before any product is inserted: the schema has been created
    and both tables are empty. *)
Theorem X7_bootstrap_rejects_malformed repo w :
  Exists (λ d, ∃ e, Product.__init__ (Some d) = inl e) repo →
  ∃ e d, d ∈ repo ∧ Product.__init__ (Some d) = inl e ∧
         outcome (init_db false repo) w = inl e ∧
         products (db (after (init_db false repo) w)) = [] ∧
         wedding_gift (db (after (init_db false repo) w)) = [] ∧
         journal (db (after (init_db false repo) w)) = journal (db w) ++ [CreateSchema].
Proof.
  intros Hex. unfold outcome, after. rewrite init_db_unfold.
  remember (mkWorld _ _ _) as w1 eqn:Hw1.
  destruct (example_repository_fails repo w1 Hex) as (e & d & w' & Hin & He & Hrun & Hdb & _).
  exists e, d. unfold mbind, M_bind. rewrite Hrun. simpl. rewrite Hdb, Hw1.
  by split_and!.
Qed.

Lemma X7_witness :
  ∃ e d, d ∈ [tea_pot; with_price (PyStr "12.50USD")] ∧
         Product.__init__ (Some d) = inl e ∧
         outcome (init_db false [tea_pot; with_price (PyStr "12.50USD")]) empty_world = inl e ∧
         products (db (after (init_db false [tea_pot; with_price (PyStr "12.50USD")])
                             empty_world)) = [] ∧
         wedding_gift (db (after (init_db false [tea_pot; with_price (PyStr "12.50USD")])
                                 empty_world)) = [] ∧
         journal (db (after (init_db false [tea_pot; with_price (PyStr "12.50USD")])
                            empty_world))
         = journal (db empty_world) ++ [CreateSchema].
Proof.
  apply (X7_bootstrap_rejects_malformed _ empty_world).
  apply Exists_cons_tl, Exists_cons_hd. exists AttributeError. reflexivity.
Defined.

(** The bootstrap of a repository whose descriptions all make a product
    row, with distinct rowids. *)
Lemma init_db_run repo rows w :
  Forall2 imports_as repo rows →
  NoDup rows.*1 →
  ∃ objs d',
    init_db false repo w = (inr (), mkWorld objs (gift_objs w) d') ∧
    products d' ≡ₚ rows ∧ wedding_gift d' = [] ∧
    StronglySorted Z.lt (products d').*1.
Proof.
  intros Himp Hnd.
  assert (∃ ps, Forall2 (λ d p, Product.__init__ (Some d) = inr (Filled p)) repo ps ∧
                Forall2 (λ p (zr : Z * ProductRow), example_row p = inr (SqlInt zr.1, zr.2))
                        ps rows) as (ps & Hps & Hrows).
  { clear -Himp. induction Himp as [|d zr repo rows (p & Hp & Hrow) _ (ps & ? & ?)].
    - by exists [].
    - exists (p :: ps). split; by constructor. }
  exists (product_objs w ++ (Filled <$> ps)).
  rewrite init_db_unfold.
  remember (mkWorld _ _ _) as w1 eqn:Hw1.
  unfold mbind at 1, M_bind at 1. rewrite (example_repository_ok repo ps w1 Hps).
  remember (mkWorld (product_objs w1 ++ _) _ _) as w2 eqn:Hw2.
  destruct (insert_example_products_run (seq (length (product_objs w1)) (length repo))
              ps rows w2) as (units & d' & Hrun & Hperm & Hwg & Hsorted).
  - apply Forall2_same_length_lookup_2.
    + rewrite length_seq. by eapply Forall2_length.
    + intros i l p [-> Hi]%lookup_seq Hp. subst w2. simpl.
      rewrite lookup_app_r by lia.
      replace (length (product_objs w1) + i - length (product_objs w1))%nat with i by lia.
      by rewrite list_lookup_fmap, Hp.
  - done.
  - subst w2 w1. simpl. by rewrite app_nil_r.
  - exists d'. unfold mbind, M_bind. rewrite Hrun.
    rewrite Hw2, Hw1 in Hperm, Hwg, Hsorted |- *. simpl in Hperm, Hwg, Hsorted |- *.
    rewrite app_nil_r in Hperm.
    split_and!; [done..|]. apply Hsorted. constructor.
Qed.

(** X8. When the constructor returns a product for every description of
    the repository file, the values of its tuple can be bound and the ids
    are distinct integers, [init_db] on a database without the tables
    returns, and [products] holds one row for each description, with the
    ids of the descriptions as rowids, in increasing order; [wedding_gift]
    is empty. With the table already there [init_db] does nothing. What
    the cells of a row hold is left to the column types of the schema. *)
Theorem X8_bootstrap_imports repo ids w :
  Forall2 imports_with_rowid repo ids →
  NoDup ids →
  let w' := after (init_db false repo) w in
  outcome (init_db false repo) w = inr () ∧
  (products (db w')).*1 ≡ₚ ids ∧
  StronglySorted Z.lt (products (db w')).*1 ∧
  length (products (db w')) = length repo ∧
  wedding_gift (db w') = [] ∧
  init_db true repo w' = (inr (), w').
Proof.
  intros Himp Hnd.
  assert (∃ rows, Forall2 imports_as repo rows ∧ rows.*1 = ids) as (rows & Hrows & <-).
  { clear Hnd. induction Himp as [|d z repo ids (p & row & Hp & Hrow) _ (rows & ? & <-)].
    - by exists [].
    - exists ((z, row) :: rows). split; [|done]. constructor; [|done]. by exists p. }
  destruct (init_db_run repo rows w Hrows Hnd) as (objs & d' & Hrun & Hperm & Hwg & Hsorted).
  unfold outcome, after. rewrite Hrun. simpl.
  split_and!; [done|by rewrite Hperm|done| |done|done].
  rewrite Hperm. symmetry. by eapply Forall2_length.
Qed.

Lemma X8_witness :
  outcome (init_db false [tea_pot]) empty_world = inr () ∧
  (products (db (after (init_db false [tea_pot]) empty_world))).*1 ≡ₚ [1].
Proof.
  destruct (X8_bootstrap_imports [tea_pot] [1] empty_world) as (Hok & Hrows & _).
  - repeat constructor. eexists _, _. split; reflexivity.
  - apply NoDup_singleton.
  - split; [exact Hok|exact Hrows].
Defined.

(** ** The price read from a text *)

Lemma int_of_digits_from_nonneg acc s :
  0 ≤ acc → all_digits s = true → 0 ≤ int_of_digits_from acc s.
Proof.
  revert acc. induction s as [|c s IH]; intros acc Hacc Hs; simpl in *; [done|].
  apply andb_prop in Hs as [Hc Hs]. apply IH; [|done].
  unfold is_digit in Hc. apply andb_prop in Hc as [Hlo _].
  apply Nat.leb_le in Hlo. unfold digit_value. lia.
Qed.

(** X19. A price that the constructor reads from a text is never
    negative. When a description has no [int_price] and the constructor
    gets a price for it, the description has a [price] that is a string,
    and the price is an integer that is zero or more: the pattern takes no
    sign. *)
Theorem X19_text_price_not_negative (d : gmap string pyval) p :
  d !! "int_price" = None → Product.price_of d = inr p →
  ∃ s z, d !! "price" = Some (PyStr s) ∧ p = PyInt z ∧ 0 ≤ z.
Proof.
  intros Hint Hprice. unfold Product.price_of in Hprice. rewrite Hint in Hprice.
  destruct (d !! "price") as [[| | | |s]|] eqn:Hp; try discriminate.
  destruct (price_re_match s) as [[g1 g2]|] eqn:Hmatch; [|discriminate].
  unfold py_int in Hprice.
  destruct (max_str_digits <? digit_count g1); [discriminate|].
  destruct (max_str_digits <? digit_count g2); [discriminate|].
  injection Hprice as <-.
  apply price_re_match_Some in Hmatch as (rest & _ & (_ & Hg1) & (_ & Hg2)).
  exists s, (int_of_digits g1 * 100 + int_of_digits g2). split_and!; [done..|].
  pose proof (int_of_digits_from_nonneg 0 g1 ltac:(done) Hg1).
  pose proof (int_of_digits_from_nonneg 0 g2 ltac:(done) Hg2).
  unfold int_of_digits. lia.
Qed.

Lemma X19_witness :
  ∃ s z, tea_pot !! "price" = Some (PyStr s) ∧ PyInt 1250 = PyInt z ∧ 0 ≤ z.
Proof.
  apply (X19_text_price_not_negative tea_pot (PyInt 1250)); reflexivity.
Defined.

(** * Properties of the routes *)

(** ** Loading the wedding list for a route *)

Lemma find_product_exists d v : is_Some (find_product d v) ↔ product_exists d v.
Proof.
  unfold find_product, product_exists. split.
  - intros [[i zr] (Hi & Hzr & _)%list_find_Some]. exists zr. split; [|done].
    by eapply list_elem_of_lookup_2.
  - intros (zr & Hin & Hzr). by eapply list_find_elem_of.
Qed.

Lemma find_product_row d v i zr :
  find_product d v = Some (i, zr) →
  products d !! i = Some zr ∧ zr ∈ products d ∧ py_eq (PyInt zr.1) v = true.
Proof.
  intros (Hi & Hzr & _)%list_find_Some. split_and!; [done| |done].
  by eapply list_elem_of_lookup_2.
Qed.

Lemma for_each_pure {A B} (f : A → M B) l bs w :
  Forall2 (λ a b, f a w = (inr b, w)) l bs → for_each f l w = (inr bs, w).
Proof.
  induction 1 as [|a b l bs Ha _ IH]; [done|]. simpl.
  rewrite (bind_inr _ _ _ _ _ Ha). by rewrite (bind_inr _ _ _ _ _ IH).
Qed.

Lemma py_gt0_raises v e : py_gt0 v = inl e → e = TypeError.
Proof. destruct v; simpl; congruence. Qed.

(** The load of the rows either returns, and then every row can be loaded,
    or raises one of two exceptions at a row that cannot. *)
Lemma load_gifts_outcome rows w :
  match (for_each load_gift rows w).1 with
  | inr _ => Forall (loadable_row (db w)) rows
  | inl e => ¬ Forall (loadable_row (db w)) rows ∧ (e = UnknownProduct ∨ e = TypeError)
  end.
Proof.
  revert w. induction rows as [|gift rows IH]; intros w; simpl; [constructor|].
  unfold mbind at 1, M_bind at 1. rewrite load_gift_run.
  destruct (find_product (db w) (of_sql (row_product_id gift.2))) as [[i zr]|] eqn:Hfind.
  - destruct (py_gt0 (of_sql (row_purchased gift.2))) as [e|b] eqn:Hflag; simpl.
    + split; [|right; by eapply py_gt0_raises].
      intros [[[flag Hf] _] _]%Forall_cons. congruence.
    + unfold mbind, M_bind.
      match goal with |- context [for_each load_gift rows ?w1] =>
        specialize (IH w1);
        destruct (for_each load_gift rows w1) as [[e|locs] w2] end; simpl in *.
      * destruct IH as [Hno He]. split; [|done]. by intros [_ ?]%Forall_cons.
      * constructor; [|done]. split; [by exists b|].
        apply find_product_exists. by rewrite Hfind.
  - simpl. split; [|by left]. intros [[_ Hex%find_product_exists] _]%Forall_cons.
    rewrite Hfind in Hex. by destruct Hex.
Qed.

(** When every row can be loaded the load returns one new gift item for
    each row, in the order of the scan. *)
Lemma load_wedding_list w :
  loadable (db w) →
  ∃ new w',
    WeddingList.get_wedding_gifts w
    = (inr (seq (length (gift_objs w)) (length (wedding_gift (db w)))), w') ∧
    db w' = db w ∧ gift_objs w' = gift_objs w ++ new ∧
    product_objs w `prefix_of` product_objs w' ∧
    Forall2 (gift_object_of w' (db w)) (wedding_gift (db w)) new.
Proof.
  intros Hload. rewrite get_wedding_gifts_unfold.
  pose proof (load_gifts_outcome (wedding_gift (db w)) w) as Hout.
  destruct (for_each load_gift (wedding_gift (db w)) w) as [[e|locs] w'] eqn:Hrun;
    simpl in Hout; [by destruct Hout|].
  destruct (load_gifts_returns _ _ _ _ Hrun) as (Hdb & Hpre & -> & new & Hnew & Hobjs).
  by exists new, w'.
Qed.

(** When some row cannot be loaded the load raises, and the database is as
    it was. *)
Lemma load_wedding_list_fails w :
  ¬ loadable (db w) →
  ∃ e w', WeddingList.get_wedding_gifts w = (inl e, w') ∧ db w' = db w ∧
          (e = UnknownProduct ∨ e = TypeError).
Proof.
  intros Hno. rewrite get_wedding_gifts_unfold.
  pose proof (load_gifts_outcome (wedding_gift (db w)) w) as Hout.
  destruct (for_each load_gift (wedding_gift (db w)) w) as [[e|locs] w'] eqn:Hrun;
    simpl in Hout; [|done].
  destruct (load_gifts_keeps _ _ _ _ Hrun) as (Hdb & _).
  exists e, w'. by destruct Hout.
Qed.

(** The gift items found for an identifier, among the ones just loaded:
    the first is the object of the first row with that rowid. *)
Lemma found_gift_first requested w base new (rows : list (Z * GiftRow)) :
  gift_objs w = base ++ new →
  Forall2 (λ gift g, gift_id g = gift.1) rows new →
  ∃ found,
    found_gift (seq (length base) (length rows)) requested w = (inr found, w) ∧
    head found = (λ f, (length base + f.1)%nat)
                   <$> list_find (λ gift, gift.1 = requested) rows.
Proof.
  intros Hobjs Hids.
  set (P := λ l : loc, match gift_objs w !! l with
                       | Some g => gift_id g =? requested
                       | None => false
                       end).
  exists (filter (λ l, P l = true) (seq (length base) (length rows))). split.
  - unfold found_gift. apply select_pure.
    intros l [Hge Hlt]%elem_of_seq.
    assert (is_Some (gift_objs w !! l)) as [g Hg].
    { apply lookup_lt_is_Some. rewrite Hobjs, length_app.
      rewrite <- (Forall2_length _ _ _ Hids). lia. }
    rewrite (bind_inr _ _ _ _ _ (get_gift_live _ _ _ Hg)). unfold P. by rewrite Hg.
  - rewrite (head_filter_seq P (λ gift, gift.1 =? requested)).
    + f_equal. apply list_find_ext. intros gift. by rewrite Z.eqb_eq.
    + intros i gift Hi. unfold P. rewrite Hobjs, lookup_app_r by lia.
      replace (length base + i - length base)%nat with i by lia.
      destruct (Forall2_lookup_l _ _ _ _ _ Hids Hi) as (g & -> & Hg). by rewrite Hg.
Qed.

(** ** The views that the GET routes answer with *)

Lemma product_to_json_row w l zr :
  product_objs w !! l = Some (Filled (attrs_of_row zr)) →
  Product_to_json l w = (inr (product_view zr), w).
Proof.
  intros Hl. unfold Product_to_json.
  by rewrite (bind_inr _ _ _ _ _ (get_attrs_filled _ _ _ Hl)).
Qed.

(** X9. GET /available-products always answers, with one object for each
    row of [products] in the order of the scan, made of the rowid and the
    four cells of the row; the database is as it was. *)
Theorem X9_available_products_lists_rows w :
  available_products w = (inr (Ok (JArr (product_view <$> products (db w)))), loaded w) ∧
  db (loaded w) = db w.
Proof.
  split; [|done]. unfold available_products.
  rewrite (bind_inr _ _ _ _ _ (get_gift_repository_spec w)).
  erewrite bind_inr; [done|]. apply for_each_pure.
  apply Forall2_fmap_r, Forall2_same_length_lookup_2.
  - by rewrite length_seq.
  - intros i l zr [-> Hi]%lookup_seq Hzr.
    apply product_to_json_row. by apply loaded_lookup.
Qed.

Lemma gift_to_json_loaded w d gift g l :
  gift_objs w !! l = Some g → gift_object_of w d gift g →
  ∃ v, gift_view d gift = Some (_purchased g, v) ∧
       GiftItem_to_json l w = (inr v, w) ∧ is_purchased w l = _purchased g.
Proof.
  intros Hl (i & zr & Hfind & Hflag & Hid & Hp).
  unfold gift_view. rewrite Hfind, Hflag. eexists. split; [done|]. split.
  - unfold GiftItem_to_json.
    rewrite (bind_inr _ _ _ _ _ (get_gift_live _ _ _ Hl)).
    rewrite (bind_inr _ _ _ _ _ (purchased_live w l (mk_is_Some _ _ Hl))).
    rewrite (bind_inr _ _ _ _ _ (product_to_json_row _ _ _ Hp)).
    unfold is_purchased. by rewrite Hl, Hid.
  - unfold is_purchased. by rewrite Hl.
Qed.

Lemma gifts_to_json w d rows new base :
  gift_objs w = base ++ new → Forall2 (gift_object_of w d) rows new →
  ∃ views,
    Forall2 (λ gift bv, gift_view d gift = Some bv) rows views ∧
    Forall2 (λ l bv, GiftItem_to_json l w = (inr bv.2, w) ∧ is_purchased w l = bv.1)
            (seq (length base) (length rows)) views.
Proof.
  intros Hobjs Hall. revert base Hobjs.
  induction Hall as [|gift g rows new Hg _ IH]; intros base Hobjs.
  - exists []. split; constructor.
  - destruct (IH (base ++ [g])) as (views & Hviews & Hjson).
    { by rewrite <- app_assoc. }
    destruct (gift_to_json_loaded w d gift g (length base)) as (v & Hv & Hrun & Hflag);
      [by rewrite Hobjs, list_lookup_middle|done|].
    exists ((_purchased g, v) :: views). split; [by constructor|].
    simpl. constructor; [done|].
    rewrite length_app, Nat.add_1_r in Hjson. done.
Qed.

Lemma report_run w :
  loadable (db w) →
  ∃ views w',
    Forall2 (λ gift bv, gift_view (db w) gift = Some bv) (wedding_gift (db w)) views ∧
    db w' = db w ∧
    get_wedding_list w = (inr (Ok (JArr views.*2)), w') ∧
    get_wedding_list_report w
    = (inr (Ok (JObj [("purchased_gifts", JArr (filter (λ bv, bv.1 = true) views).*2);
                      ("not_purchased_gifts",
                       JArr (filter (λ bv, bv.1 = false) views).*2)])),
       w').
Proof.
  intros Hload.
  destruct (load_wedding_list w Hload) as (new & w' & Hrun & Hdb & Hobjs & _ & Hall).
  destruct (gifts_to_json w' (db w) _ new (gift_objs w) Hobjs Hall) as (views & Hviews & Hjson).
  exists views, w'. split; [done|]. split; [done|].
  set (locs := seq (length (gift_objs w)) (length (wedding_gift (db w)))) in *.
  assert (Hlist : for_each GiftItem_to_json locs w' = (inr views.*2, w')).
  { apply for_each_pure, Forall2_fmap_r. eapply Forall2_impl; [exact Hjson|]. by intros ?? [? _]. }
  assert (Hlive : ∀ l, l ∈ locs → is_Some (gift_objs w' !! l)).
  { intros l [? Hl]%elem_of_seq. apply lookup_lt_is_Some.
    rewrite Hobjs, length_app, <- (Forall2_length _ _ _ Hall). lia. }
  assert (Hpart : ∀ b,
    for_each GiftItem_to_json (filter (λ l, is_purchased w' l = b) locs) w'
    = (inr (filter (λ bv : bool * json, bv.1 = b) views).*2, w')).
  { intros b. apply for_each_pure, Forall2_fmap_r.
    eapply Forall2_impl.
    - apply (Forall2_filter _ (λ l, is_purchased w' l = b) (λ bv, bv.1 = b) _ _); [|exact Hjson].
      intros l bv [_ ->]. done.
    - by intros ?? [? _]. }
  split.
  - unfold get_wedding_list. rewrite (bind_inr _ _ _ _ _ Hrun).
    by rewrite (bind_inr _ _ _ _ _ Hlist).
  - unfold get_wedding_list_report. rewrite (bind_inr _ _ _ _ _ Hrun).
    erewrite bind_inr; [done|]. unfold WeddingList_to_json.
    rewrite (bind_inr _ _ _ _ _ (get_purchased_gift_spec w' locs Hlive)).
    rewrite (bind_inr _ _ _ _ _ (get_non_purchased_gift_spec w' locs Hlive)).
    rewrite (bind_inr _ _ _ _ _ (Hpart true)).
    by rewrite (bind_inr _ _ _ _ _ (Hpart false)).
Qed.

Lemma get_routes_answer w :
  loadable (db w) →
  (∃ body, outcome get_wedding_list w = inr (Ok body)) ∧
  (∃ body, outcome get_wedding_list_report w = inr (Ok body)).
Proof.
  intros Hload. destruct (report_run w Hload) as (views & w' & _ & _ & Hlist & Hreport).
  unfold outcome. rewrite Hlist, Hreport. split; by eexists.
Qed.

(** X10. When every gift row can be loaded, GET /wedding-list answers with
    the views of the rows in the order of the scan, and GET
    /wedding-list-report with the same views in two lists: those of the
    rows whose flag is greater than zero, and those of the others. Neither
    changes the database. *)
Theorem X10_wedding_list_views w :
  loadable (db w) →
  ∃ views,
    Forall2 (λ gift bv, gift_view (db w) gift = Some bv) (wedding_gift (db w)) views ∧
    outcome get_wedding_list w = inr (Ok (JArr views.*2)) ∧
    outcome get_wedding_list_report w
    = inr (Ok (JObj [("purchased_gifts", JArr (filter (λ bv, bv.1 = true) views).*2);
                     ("not_purchased_gifts", JArr (filter (λ bv, bv.1 = false) views).*2)])) ∧
    db (after get_wedding_list w) = db w ∧
    db (after get_wedding_list_report w) = db w.
Proof.
  intros Hload.
  destruct (report_run w Hload) as (views & w' & Hviews & Hdb & Hlist & Hreport).
  exists views. unfold outcome, after. rewrite Hlist, Hreport. cbn [fst snd].
  split_and!; done.
Qed.

Lemma X10_witness :
  outcome get_wedding_list (example_world 3)
  = inr (Ok (JArr [JObj [("id", JVal (PyInt 1));
                         ("product", product_view
                                       (1, mkProductRow (SqlText "Tea pot") (SqlText "Le Creuset")
                                                        (SqlInt 1250) (SqlInt 3)));
                         ("purchased", JVal (PyBool false))]])).
Proof.
  destruct (X10_wedding_list_views (example_world 3)) as (views & Hviews & Hget & _).
  - repeat constructor; [by exists false|].
    eexists. split; [apply list_elem_of_here|reflexivity].
  - reflexivity.
Defined.

(** ** The routes that change the wedding list *)

Lemma getitem_Some (d : gmap string pyval) k v :
  d !! k = Some v → Product.getitem d k = inr v.
Proof. unfold Product.getitem. by intros ->. Qed.

Lemma getitem_None (d : gmap string pyval) k :
  d !! k = None → Product.getitem d k = inl (KeyError k).
Proof. unfold Product.getitem. by intros ->. Qed.

Lemma patch_truthy requested body v w :
  body !! "purchase" = Some v → truthy v = true →
  purchase_gift_from_wedding_list requested body w
  = (wedding_gifts ← WeddingList.get_wedding_gifts;
     found ← found_gift wedding_gifts requested;
     match found with
     | [] => mret (BadRequest requested)
     | gift :: _ => GiftItem.purchase gift;; mret (Ok (JObj []))
     end) w.
Proof.
  intros Hv Htrue. unfold purchase_gift_from_wedding_list.
  rewrite (getitem_Some _ _ _ Hv). unfold lift, mbind at 1, M_bind at 1.
  by rewrite Htrue.
Qed.

(** X11. When some gift row cannot be loaded, because its product is not
    in [products] or its flag is not a number, every route that loads the
    wedding list raises and changes nothing in the database: the two
    listings, the addition of a gift, the purchase and also the removal,
    so that the service cannot take the row out. *)
Theorem X11_unloadable_list_blocks_routes r w :
  ¬ loadable (db w) → loads_wedding_list r →
  ∃ e, outcome (serve r) w = inl e ∧ (e = UnknownProduct ∨ e = TypeError) ∧
       db (after (serve r) w) = db w.
Proof.
  intros Hno Hr.
  destruct (load_wedding_list_fails w Hno) as (e & w' & Hrun & Hdb & He).
  exists e. unfold outcome, after.
  destruct r as [| | |body|requested body|requested]; simpl in *; try done.
  - unfold get_wedding_list. by rewrite (bind_inl _ _ _ _ _ Hrun).
  - unfold get_wedding_list_report. by rewrite (bind_inl _ _ _ _ _ Hrun).
  - unfold add_to_wedding_list. by rewrite (bind_inl _ _ _ _ _ Hrun).
  - destruct Hr as (v & Hv & Htrue). rewrite (patch_truthy _ _ _ _ Hv Htrue).
    by rewrite (bind_inl _ _ _ _ _ Hrun).
  - unfold remove_from_wedding_list. by rewrite (bind_inl _ _ _ _ _ Hrun).
Qed.

Lemma X11_witness :
  ∃ e, outcome (serve (DELETE_wedding_list 1)) dangling_world = inl e ∧
       (e = UnknownProduct ∨ e = TypeError) ∧
       db (after (serve (DELETE_wedding_list 1)) dangling_world) = db dangling_world.
Proof.
  apply (X11_unloadable_list_blocks_routes (DELETE_wedding_list 1) dangling_world).
  - intros [[_ (zr & ->%list_elem_of_singleton & Heq)] _]%Forall_cons. discriminate.
  - exact I.
Defined.

(** The gift item that a route picks for an identifier, after the load of
    a wedding list that can be loaded: none when no row has the rowid, and
    else the object made of the first such row. *)
Lemma route_finds requested w :
  loadable (db w) →
  ∃ new w' found,
    WeddingList.get_wedding_gifts w
    = (inr (seq (length (gift_objs w)) (length (wedding_gift (db w)))), w') ∧
    found_gift (seq (length (gift_objs w)) (length (wedding_gift (db w)))) requested w'
    = (inr found, w') ∧
    db w' = db w ∧ gift_objs w' = gift_objs w ++ new ∧
    match lookup_row requested (wedding_gift (db w)) with
    | None => found = [] ∧ requested ∉ (wedding_gift (db w)).*1
    | Some row =>
        ∃ l rest g,
          found = l :: rest ∧ gift_objs w' !! l = Some g ∧ gift_id g = requested ∧
          l ∈ seq (length (gift_objs w)) (length (wedding_gift (db w))) ∧
          (requested, row) ∈ wedding_gift (db w) ∧
          gift_object_of w' (db w) (requested, row) g
    end.
Proof.
  intros Hload.
  destruct (load_wedding_list w Hload) as (new & w' & Hrun & Hdb & Hobjs & _ & Hall).
  destruct (found_gift_first requested w' (gift_objs w) new (wedding_gift (db w)) Hobjs)
    as (found & Hfound & Hhead).
  { eapply Forall2_impl; [exact Hall|]. by intros gift g (? & ? & _ & _ & ? & _). }
  exists new, w', found. split_and!; [done..|].
  unfold lookup_row.
  destruct (list_find _ (wedding_gift (db w))) as [[k [z row]]|] eqn:Hfind; simpl in *.
  - apply list_find_Some in Hfind as (Hk & Hz & _). simpl in Hz. subst z.
    apply head_Some in Hhead as [rest ->].
    destruct (Forall2_lookup_l _ _ _ _ _ Hall Hk) as (g & Hg & Hobj).
    exists (length (gift_objs w) + k)%nat, rest, g. split_and!; [done| | | | |done].
    + rewrite Hobjs, lookup_app_r by lia.
      by replace (length (gift_objs w) + k - length (gift_objs w))%nat with k by lia.
    + by destruct Hobj as (? & ? & _ & _ & ? & _).
    + apply elem_of_seq. apply lookup_lt_Some in Hk. lia.
    + by eapply list_elem_of_lookup_2.
  - apply head_None in Hhead. split; [done|].
    intros ([z row] & Hz & Hin)%list_elem_of_fmap. simpl in Hz. subst z.
    eapply list_find_None, Forall_forall in Hfind; [|exact Hin]. by apply Hfind.
Qed.

Lemma lookup_row_is_Some {A} z (r : A) t : (z, r) ∈ t → is_Some (lookup_row z t).
Proof.
  intros Hin. unfold lookup_row.
  destruct (list_find_elem_of (λ zr : Z * A, zr.1 = z) t (z, r)) as [found ->]; done.
Qed.

(** The purchase route on a list that can be loaded, for a gift whose
    product has [n] in stock. *)
Lemma patch_run requested body v w gift i zr n :
  body !! "purchase" = Some v → truthy v = true →
  loadable (db w) →
  lookup_row requested (wedding_gift (db w)) = Some gift →
  find_product (db w) (of_sql (row_product_id gift)) = Some (i, zr) →
  row_in_stock_quantity zr.2 = SqlInt n → 0 ≤ n < 2 ^ 63 →
  fits_int64 zr.1 = true →
  (n = 0 →
   ∃ w1, db w1 = db w ∧
         purchase_gift_from_wedding_list requested body w = (inl OutOfStock, w1)) ∧
  (0 < n →
   ∃ w2, db w2 = exec_update_gift (SqlInt 1) (SqlInt requested)
                   (exec_update_stock (SqlInt (n - 1)) (SqlInt zr.1) (db w)) ∧
         purchase_gift_from_wedding_list requested body w = (inr (Ok (JObj [])), w2)).
Proof.
  intros Hv Htrue Hload Hrow Hzr Hn Hrange Hfits.
  destruct (route_finds requested w Hload)
    as (new & w1 & found & Hrun & Hfound & Hdb & Hobjs & Hcase).
  rewrite Hrow in Hcase.
  destruct Hcase as (l & rest & g & -> & Hg & Hid & Hl & Hin & Hobj).
  destruct Hobj as (i' & zr' & Hzr' & _ & _ & Hp). simpl in Hzr'.
  rewrite Hzr in Hzr'. simplify_eq.
  rewrite (patch_truthy _ _ _ _ Hv Htrue).
  rewrite (bind_inr _ _ _ _ _ Hrun), (bind_inr _ _ _ _ _ Hfound).
  split.
  - intros ->. exists w1. split; [done|].
    assert (Hbuy : GiftItem.purchase l w1 = (inl OutOfStock, w1)).
    { rewrite (gift_purchase_delegates _ _ _ Hg).
      rewrite (purchase_out_of_stock w1 (product g) _ 0 Hp); [done| |done].
      simpl. by rewrite Hn. }
    by rewrite (bind_inl _ _ _ _ _ Hbuy).
  - intros Hpos. eexists.
    rewrite (bind_inr _ _ _ _ _
               (gift_purchase_in_stock w1 l g _ n zr'.1 Hg Hp
                  ltac:(simpl; by rewrite Hn) ltac:(lia) eq_refl Hfits)).
    split; [|done]. simpl. by rewrite Hdb.
Qed.

(** X12. PATCH /wedding-list/<gift_id> with a true [purchase], on a list
    that can be loaded, for a gift whose product has [n] in stock: with
    [n = 0] the route raises [OutOfStock] and writes nothing; with [n > 0]
    it answers with the empty object, stores the flag 1 for the gift and
    the quantity [n - 1] for the product, by exactly these two statements.
    The flag that the gift has before plays no part: a gift already
    purchased is purchased again. *)
Theorem X12_patch_purchases requested body v w gift i zr n :
  body !! "purchase" = Some v → truthy v = true →
  loadable (db w) →
  lookup_row requested (wedding_gift (db w)) = Some gift →
  find_product (db w) (of_sql (row_product_id gift)) = Some (i, zr) →
  row_in_stock_quantity zr.2 = SqlInt n → 0 ≤ n < 2 ^ 63 →
  fits_int64 zr.1 = true →
  let w' := after (purchase_gift_from_wedding_list requested body) w in
  (n = 0 →
   outcome (purchase_gift_from_wedding_list requested body) w = inl OutOfStock ∧
   db w' = db w) ∧
  (0 < n →
   outcome (purchase_gift_from_wedding_list requested body) w = inr (Ok (JObj [])) ∧
   db w' = exec_update_gift (SqlInt 1) (SqlInt requested)
             (exec_update_stock (SqlInt (n - 1)) (SqlInt zr.1) (db w)) ∧
   stored_purchased (db w') requested = Some (SqlInt 1) ∧
   stored_quantity (db w') zr.1 = Some (SqlInt (n - 1)) ∧
   journal (db w') = journal (db w) ++ [UpdateStock (SqlInt (n - 1)) (SqlInt zr.1);
                                         UpdateGift (SqlInt 1) (SqlInt requested)]).
Proof.
  intros Hv Htrue Hload Hrow Hzr Hn Hrange Hfits.
  destruct (patch_run requested body v w gift i zr n) as [Hnone Hsome]; [done..|].
  unfold outcome, after. split.
  - intros Hzero. destruct (Hnone Hzero) as (w1 & Hw1 & ->). done.
  - intros Hpos. destruct (Hsome Hpos) as (w2 & Hw2 & ->). simpl. rewrite Hw2.
    split_and!; [done|done| | |simpl; by rewrite <- app_assoc].
    + rewrite stored_purchased_update_gift, decide_True by done.
      unfold stored_purchased. simpl. by rewrite Hrow.
    + rewrite stored_quantity_update_gift, stored_quantity_update_stock, decide_True by done.
      apply find_product_row in Hzr as (_ & Hzr & _).
      destruct zr as [z r]. unfold stored_quantity. simpl.
      by destruct (lookup_row_is_Some z r _ Hzr) as [r' ->].
Qed.

Lemma X12_witness :
  outcome (purchase_gift_from_wedding_list 1 {[ "purchase" := PyBool true ]})
          (example_world 3) = inr (Ok (JObj [])) ∧
  stored_quantity
    (db (after (purchase_gift_from_wedding_list 1 {[ "purchase" := PyBool true ]})
               (example_world 3))) 1
  = Some (SqlInt (3 - 1)).
Proof.
  destruct (X12_patch_purchases 1 {[ "purchase" := PyBool true ]} (PyBool true)
              (example_world 3) (mkGiftRow (SqlInt 1) (SqlInt 0)) 0%nat
              (1, mkProductRow (SqlText "Tea pot") (SqlText "Le Creuset") (SqlInt 1250)
                               (SqlInt 3)) 3) as [_ Hbuy].
  - reflexivity.
  - reflexivity.
  - repeat constructor; [by exists false|].
    eexists. split; [apply list_elem_of_here|reflexivity].
  - reflexivity.
  - reflexivity.
  - reflexivity.
  - lia.
  - reflexivity.
  - destruct Hbuy as (Hok & _ & _ & Hstock & _); [lia|]. by split.
Defined.

Lemma patch_unknown_gift requested body v w :
  body !! "purchase" = Some v → truthy v = true →
  loadable (db w) → requested ∉ (wedding_gift (db w)).*1 →
  ∃ w1, db w1 = db w ∧
        purchase_gift_from_wedding_list requested body w = (inr (BadRequest requested), w1).
Proof.
  intros Hv Htrue Hload Hno.
  destruct (route_finds requested w Hload)
    as (new & w1 & found & Hrun & Hfound & Hdb & Hobjs & Hcase).
  exists w1. split; [done|].
  rewrite (patch_truthy _ _ _ _ Hv Htrue).
  rewrite (bind_inr _ _ _ _ _ Hrun), (bind_inr _ _ _ _ _ Hfound).
  destruct (lookup_row requested (wedding_gift (db w))) as [row|].
  - destruct Hcase as (l & rest & g & _ & _ & _ & _ & Hin & _).
    destruct Hno. apply list_elem_of_fmap. by exists (requested, row).
  - by destruct Hcase as [-> _].
Qed.

Lemma patch_no_key requested body w :
  body !! "purchase" = None →
  purchase_gift_from_wedding_list requested body w = (inl (KeyError "purchase"), w).
Proof.
  intros Hnone. unfold purchase_gift_from_wedding_list.
  by rewrite (getitem_None _ _ Hnone).
Qed.

Lemma patch_falsy requested body v w :
  body !! "purchase" = Some v → truthy v = false →
  purchase_gift_from_wedding_list requested body w = (inr (Ok (JObj [])), w).
Proof.
  intros Hv Hfalse. unfold purchase_gift_from_wedding_list.
  rewrite (getitem_Some _ _ _ Hv). unfold lift, mbind, M_bind. by rewrite Hfalse.
Qed.

(** X13. What PATCH /wedding-list/<gift_id> does when it does not
    purchase. A body without [purchase] raises [KeyError]; a body whose
    [purchase] is false is answered with the empty object and nothing at
    all is done, whether or not the gift exists; a true [purchase] for an
    identifier that no row has is answered with [BadRequest], and the
    database is as it was. *)
Theorem X13_patch_refused requested body w :
  (body !! "purchase" = None →
   purchase_gift_from_wedding_list requested body w = (inl (KeyError "purchase"), w)) ∧
  (∀ v, body !! "purchase" = Some v → truthy v = false →
        purchase_gift_from_wedding_list requested body w = (inr (Ok (JObj [])), w)) ∧
  (∀ v, body !! "purchase" = Some v → truthy v = true →
        loadable (db w) → requested ∉ (wedding_gift (db w)).*1 →
        outcome (purchase_gift_from_wedding_list requested body) w
        = inr (BadRequest requested) ∧
        db (after (purchase_gift_from_wedding_list requested body) w) = db w).
Proof.
  split_and!.
  - apply patch_no_key.
  - intros v. apply patch_falsy.
  - intros v Hv Htrue Hload Hno.
    destruct (patch_unknown_gift requested body v w) as (w1 & Hdb & Hrun); [done..|].
    unfold outcome, after. by rewrite Hrun.
Qed.

Lemma X13_witness :
  outcome (purchase_gift_from_wedding_list 5 {[ "purchase" := PyBool true ]})
          (example_world 3) = inr (BadRequest 5) ∧
  purchase_gift_from_wedding_list 5 {[ "purchase" := PyBool false ]} (example_world 3)
  = (inr (Ok (JObj [])), example_world 3).
Proof.
  destruct (X13_patch_refused 5 {[ "purchase" := PyBool true ]} (example_world 3))
    as (_ & _ & Hbad).
  destruct (X13_patch_refused 5 {[ "purchase" := PyBool false ]} (example_world 3))
    as (_ & Hfalse & _).
  split.
  - apply (Hbad (PyBool true)); [reflexivity|reflexivity| |].
    + repeat constructor; [by exists false|].
      eexists. split; [apply list_elem_of_here|reflexivity].
    + simpl. intros Hin. apply list_elem_of_singleton in Hin. discriminate.
  - apply (Hfalse (PyBool false)); reflexivity.
Defined.

Lemma product_exists_products d d' v :
  (products d').*1 = (products d).*1 → product_exists d v → product_exists d' v.
Proof.
  intros Hrowids ([z r] & Hin & Heq). simpl in Heq.
  assert (z ∈ (products d').*1) as ([z' r'] & Hz & Hin')%list_elem_of_fmap.
  { rewrite Hrowids. apply list_elem_of_fmap. by exists (z, r). }
  simpl in Hz. subst z'. by exists (z, r').
Qed.

Lemma loadable_rows d d' :
  (products d').*1 = (products d).*1 →
  (∀ gift, gift ∈ wedding_gift d' →
           gift ∈ wedding_gift d ∨
           (flag_readable gift ∧ product_exists d (of_sql (row_product_id gift.2)))) →
  loadable d → loadable d'.
Proof.
  intros Hrowids Hsub Hload. apply Forall_forall. intros gift Hin.
  destruct (Hsub gift Hin) as [Hold|[Hflag Hex]].
  - eapply Forall_forall in Hload as [Hflag Hex]; [|exact Hold].
    split; [done|]. by eapply product_exists_products.
  - split; [done|]. by eapply product_exists_products.
Qed.

(** The removal route on a list that can be loaded. *)
Lemma delete_run requested w :
  loadable (db w) →
  (requested ∈ (wedding_gift (db w)).*1 →
   ∃ w1, remove_from_wedding_list requested w
         = (inr (Ok (JObj [])),
            mkWorld (product_objs w1) (gift_objs w1)
                    (exec_delete_gift (SqlInt requested) (db w)))) ∧
  (requested ∉ (wedding_gift (db w)).*1 →
   ∃ w1, db w1 = db w ∧
         remove_from_wedding_list requested w = (inr (BadRequest requested), w1)).
Proof.
  intros Hload.
  destruct (route_finds requested w Hload)
    as (new & w1 & found & Hrun & Hfound & Hdb & Hobjs & Hcase).
  unfold remove_from_wedding_list.
  rewrite (bind_inr _ _ _ _ _ Hrun), (bind_inr _ _ _ _ _ Hfound).
  destruct (lookup_row requested (wedding_gift (db w))) as [row|].
  - destruct Hcase as (l & rest & g & -> & Hg & Hid & Hl & Hin & _). split.
    + intros _. exists w1.
      destruct (index_member _ l w1 Hl) as (k & Hk & _).
      unfold WeddingList.remove. rewrite (bind_inr _ _ _ _ _ (bind_inr _ _ _ _ _ Hk)).
      simpl. rewrite (bind_inr _ _ _ _ _ (remove_run w1 l g Hg)). by rewrite Hid, Hdb.
    + intros Hno. destruct Hno. apply list_elem_of_fmap. by exists (requested, row).
  - destruct Hcase as [-> Hno]. split; [done|]. intros _. by exists w1.
Qed.

(** X14. DELETE /wedding-list/<gift_id> on a list that can be loaded. For
    the identifier of a row the route answers with the empty object and
    deletes the rows with that rowid, by one statement; the other rows and
    the products stay, and the list can still be loaded. For any other
    identifier it answers with [BadRequest] and the database is as it
    was. *)
Theorem X14_delete_removes requested w :
  loadable (db w) →
  let w' := after (remove_from_wedding_list requested) w in
  (requested ∈ (wedding_gift (db w)).*1 →
   outcome (remove_from_wedding_list requested) w = inr (Ok (JObj [])) ∧
   wedding_gift (db w') = filter (λ zr, zr.1 ≠ requested) (wedding_gift (db w)) ∧
   (requested ∉ (wedding_gift (db w')).*1) ∧
   products (db w') = products (db w) ∧
   journal (db w') = journal (db w) ++ [DeleteGift (SqlInt requested)] ∧
   loadable (db w')) ∧
  (requested ∉ (wedding_gift (db w)).*1 →
   outcome (remove_from_wedding_list requested) w = inr (BadRequest requested) ∧
   db w' = db w).
Proof.
  intros Hload. destruct (delete_run requested w Hload) as [Hin Hout].
  unfold outcome, after. split.
  - intros Hrow. destruct (Hin Hrow) as (w1 & ->). simpl.
    rewrite delete_where_int. split_and!; [done|done| |done|done|].
    + intros ([z r] & Hz & [Hne _]%list_elem_of_filter)%list_elem_of_fmap.
      simpl in *. congruence.
    + eapply (loadable_rows (db w)); [done| |done].
      simpl. rewrite delete_where_int. intros gift [_ ?]%list_elem_of_filter. by left.
  - intros Hno. destruct (Hout Hno) as (w1 & Hdb & ->). done.
Qed.

Lemma X14_witness :
  outcome (remove_from_wedding_list 1) (example_world 3) = inr (Ok (JObj [])) ∧
  wedding_gift (db (after (remove_from_wedding_list 1) (example_world 3))) = [].
Proof.
  destruct (X14_delete_removes 1 (example_world 3)) as [Hin _].
  - repeat constructor; [by exists false|].
    eexists. split; [apply list_elem_of_here|reflexivity].
  - destruct Hin as (Hok & Hrows & _); [simpl; apply list_elem_of_here|].
    split; [exact Hok|]. rewrite Hrows. reflexivity.
Defined.

(** The addition route on a list that can be loaded. *)
Lemma put_run body w :
  loadable (db w) →
  ∃ w1,
    db w1 = db w ∧
    match body !! "product_id" with
    | None => add_to_wedding_list body w = (inl (KeyError "product_id"), w1)
    | Some v =>
        match find_product (db w) v with
        | None => add_to_wedding_list body w = (inl UnknownProduct, loaded w1)
        | Some (i, zr) =>
            fits_int64 zr.1 = true →
            ∃ objs gifts,
              add_to_wedding_list body w
              = (inr (Ok (JObj [("gift_id",
                                 JVal (PyInt (next_rowid (wedding_gift (db w)))))])),
                 mkWorld objs gifts (exec_insert_gift (SqlInt zr.1) (SqlInt 0) (db w)).1)
        end
    end.
Proof.
  intros Hload.
  destruct (load_wedding_list w Hload) as (new & w1 & Hrun & Hdb & Hobjs & _ & _).
  exists w1. split; [done|]. unfold add_to_wedding_list.
  rewrite (bind_inr _ _ _ _ _ Hrun).
  destruct (body !! "product_id") as [v|] eqn:Hv.
  - rewrite (getitem_Some _ _ _ Hv).
    destruct (find_product (db w) v) as [[i zr]|] eqn:Hfind; [intros Hfits; eexists _, _|];
      unfold lift, mbind at 1, M_bind at 1; unfold mbind at 1, M_bind at 1;
      rewrite get_product_by_id_first, Hdb, Hfind; [|done].
    apply find_product_row in Hfind as (Hi & _ & _).
    rewrite <- Hdb in Hi. apply loaded_lookup in Hi.
    erewrite bind_inr; cycle 1.
    { eapply get_new_gift_item_run; [exact Hi|]. simpl. by rewrite Hfits. }
    erewrite bind_inr; cycle 1.
    { apply get_gift_live. simpl. apply list_lookup_middle. done. }
    simpl. by rewrite Hdb.
  - by rewrite (getitem_None _ _ Hv).
Qed.

(** X15. PUT /wedding-list on a list that can be loaded. Without
    [product_id] in the body the route raises [KeyError], and for a value
    that is the rowid of no product, by Python's [==], it raises
    [UnknownProduct]; neither writes. Otherwise it inserts one row after
    all the others, not purchased, whose product is the rowid of the row
    found (an integer, whatever number the request gave), and answers with
    the new rowid; the list can still be loaded. *)
Theorem X15_put_adds body w :
  loadable (db w) →
  let w' := after (add_to_wedding_list body) w in
  (body !! "product_id" = None →
   outcome (add_to_wedding_list body) w = inl (KeyError "product_id") ∧ db w' = db w) ∧
  (∀ v, body !! "product_id" = Some v → find_product (db w) v = None →
        outcome (add_to_wedding_list body) w = inl UnknownProduct ∧ db w' = db w) ∧
  (∀ v i zr,
     body !! "product_id" = Some v → find_product (db w) v = Some (i, zr) →
     fits_int64 zr.1 = true →
     let rowid := next_rowid (wedding_gift (db w)) in
     outcome (add_to_wedding_list body) w
     = inr (Ok (JObj [("gift_id", JVal (PyInt rowid))])) ∧
     wedding_gift (db w')
     = wedding_gift (db w) ++ [(rowid, mkGiftRow (SqlInt zr.1) (SqlInt 0))] ∧
     products (db w') = products (db w) ∧
     journal (db w') = journal (db w) ++ [InsertGift (SqlInt zr.1) (SqlInt 0)] ∧
     loadable (db w')).
Proof.
  intros Hload. destruct (put_run body w Hload) as (w1 & Hdb & Hrun).
  unfold outcome, after. split_and!.
  - intros Hnone. rewrite Hnone in Hrun. by rewrite Hrun.
  - intros v Hv Hfind. rewrite Hv, Hfind in Hrun. by rewrite Hrun.
  - intros v i zr Hv Hfind Hfits. rewrite Hv, Hfind in Hrun.
    destruct (Hrun Hfits) as (objs & gifts & ->). simpl.
    assert (Hlast : insert_row (next_rowid (wedding_gift (db w)))
                               (mkGiftRow (SqlInt zr.1) (SqlInt 0)) (wedding_gift (db w))
                    = wedding_gift (db w)
                      ++ [(next_rowid (wedding_gift (db w)),
                           mkGiftRow (SqlInt zr.1) (SqlInt 0))]).
    { apply insert_row_last. intros y Hy. by apply next_rowid_above. }
    split_and!; [done|done|done|done|].
    eapply (loadable_rows (db w)); [done| |done]. simpl. rewrite Hlast.
    intros gift [Hold| ->%list_elem_of_singleton]%elem_of_app; [by left|right].
    split; [by exists false|]. simpl.
    apply find_product_row in Hfind as (_ & Hin & _).
    exists zr. split; [done|]. by apply py_eq_int.
Qed.

Lemma X15_witness :
  outcome (add_to_wedding_list {[ "product_id" := PyFloat (S754_finite false 1 0) ]})
          (example_world 3)
  = inr (Ok (JObj [("gift_id", JVal (PyInt 2))])) ∧
  wedding_gift
    (db (after (add_to_wedding_list {[ "product_id" := PyFloat (S754_finite false 1 0) ]})
               (example_world 3)))
  = [(1, mkGiftRow (SqlInt 1) (SqlInt 0)); (2, mkGiftRow (SqlInt 1) (SqlInt 0))].
Proof.
  destruct (X15_put_adds {[ "product_id" := PyFloat (S754_finite false 1 0) ]}
              (example_world 3)) as (_ & _ & Hadd).
  - repeat constructor; [by exists false|].
    eexists. split; [apply list_elem_of_here|reflexivity].
  - destruct (Hadd (PyFloat (S754_finite false 1 0)) 0%nat
                (1, mkProductRow (SqlText "Tea pot") (SqlText "Le Creuset") (SqlInt 1250)
                                 (SqlInt 3))) as (Hok & Hrows & _);
      [reflexivity|reflexivity|reflexivity|].
    split; [exact Hok|exact Hrows].
Defined.

(** ** The store that the routes keep *)

Lemma lookup_row_None {A} z (t : list (Z * A)) : lookup_row z t = None ↔ z ∉ t.*1.
Proof.
  unfold lookup_row. rewrite fmap_None, list_find_None, Forall_forall. split.
  - intros Hno ([z' r] & Hz & Hin)%list_elem_of_fmap. simpl in Hz. subst z'.
    by apply (Hno _ Hin).
  - intros Hno [z' r] Hin Hz. simpl in Hz. subst z'.
    apply Hno, list_elem_of_fmap. by exists (z, r).
Qed.

Lemma lookup_row_Some_elem_of {A} z (r : A) t : lookup_row z t = Some r → (z, r) ∈ t.
Proof.
  unfold lookup_row. intros ([i [z' r']] & Hfind & [= ->])%fmap_Some.
  apply list_find_Some in Hfind as (Hi & Hz & _). simpl in *. subst z'.
  by eapply list_elem_of_lookup_2.
Qed.

Lemma update_where_elem_of {A} v (f : A → A) (t : list (Z * A)) x :
  x ∈ update_where v f t → x ∈ t ∨ ∃ r, (x.1, r) ∈ t ∧ x.2 = f r.
Proof.
  unfold update_where. intros ([z r] & -> & Hin)%list_elem_of_fmap.
  destruct (rowid_is v z); [right|by left]. by exists r.
Qed.

Lemma store_ok_same d d' :
  products d' = products d → wedding_gift d' = wedding_gift d → store_ok d → store_ok d'.
Proof.
  intros Hp Hg ((Hsp & Hsg) & Hload & Hrows). split_and!.
  - split; by rewrite ?Hp, ?Hg.
  - eapply (loadable_rows d); [by rewrite Hp| |done]. rewrite Hg. by left.
  - by rewrite Hp.
Qed.

Lemma store_ok_insert_gift d zr :
  zr ∈ products d → store_ok d →
  store_ok (exec_insert_gift (SqlInt zr.1) (SqlInt 0) d).1.
Proof.
  intros Hin (Hsorted & Hload & Hrows). split_and!.
  - by apply rowids_insert_gift.
  - eapply (loadable_rows d); [done| |done]. simpl.
    intros gift [->|Hold]%insert_row_elem_of; [right|by left].
    split; [by exists false|]. simpl. exists zr. split; [done|]. by apply py_eq_int.
  - done.
Qed.

Lemma store_ok_purchase d requested zr n :
  zr ∈ products d → 0 < n < 2 ^ 63 → store_ok d →
  store_ok (exec_update_gift (SqlInt 1) (SqlInt requested)
              (exec_update_stock (SqlInt (n - 1)) (SqlInt zr.1) d)).
Proof.
  intros Hin Hn (Hsorted & Hload & Hrows). split_and!.
  - by apply rowids_update_gift, rowids_update_stock.
  - eapply (loadable_rows d); [simpl; apply update_where_rowids| |done]. simpl.
    intros gift [Hold|(r & Hold & Hgift)]%update_where_elem_of; [by left|right].
    eapply Forall_forall in Hload as [_ Hex]; [|exact Hold].
    destruct gift as [z r']. simpl in *. subst r'. split; [by exists true|done].
  - simpl. intros row [Hold|(r & Hold & Hrow)]%update_where_elem_of; [by apply Hrows|].
    destruct (Hrows _ Hold) as [Hfits _]. destruct row as [z r']. simpl in *. subst r'.
    split; [done|]. exists (n - 1). split; [done|lia].
Qed.

Lemma store_ok_delete_gift d requested :
  store_ok d → store_ok (exec_delete_gift (SqlInt requested) d).
Proof.
  intros (Hsorted & Hload & Hrows). split_and!.
  - by apply rowids_delete_gift.
  - eapply (loadable_rows d); [done| |done]. simpl. rewrite delete_where_int.
    intros gift [_ ?]%list_elem_of_filter. by left.
  - done.
Qed.

Lemma product_to_json_same_db l : preserves same_db (Product_to_json l).
Proof. unfold Product_to_json. frame. Qed.

Lemma gift_to_json_same_db l : preserves same_db (GiftItem_to_json l).
Proof.
  unfold GiftItem_to_json. pres_bind; [frame|]. intros g.
  pres_bind; [apply purchased_same_db|]. intros b.
  pres_bind; [apply product_to_json_same_db|]. intros j. pres_ret.
Qed.

Lemma gifts_to_json_same_db ls : preserves same_db (for_each GiftItem_to_json ls).
Proof. apply preserves_for_each; [exact _|]. apply gift_to_json_same_db. Qed.

Lemma get_routes_same_db r :
  r = GET_available_products ∨ r = GET_wedding_list ∨ r = GET_wedding_list_report →
  preserves same_db (serve r).
Proof.
  intros [->|[->| ->]]; simpl.
  - unfold available_products. pres_bind; [apply get_gift_repository_same_db|]. intros ls.
    pres_bind; [|intros; pres_ret].
    apply preserves_for_each; [exact _|]. apply product_to_json_same_db.
  - unfold get_wedding_list. pres_bind; [apply get_wedding_gifts_same_db|]. intros ls.
    pres_bind; [apply gifts_to_json_same_db|intros; pres_ret].
  - unfold get_wedding_list_report. pres_bind; [apply get_wedding_gifts_same_db|]. intros ls.
    pres_bind; [|intros; pres_ret]. unfold WeddingList_to_json.
    pres_bind; [apply get_purchased_gift_same_db|]. intros ps.
    pres_bind; [apply get_non_purchased_gift_same_db|]. intros ns.
    pres_bind; [apply gifts_to_json_same_db|]. intros js.
    pres_bind; [apply gifts_to_json_same_db|intros; pres_ret].
Qed.

Lemma serve_store_ok r w : store_ok (db w) → store_ok (db (after (serve r) w)).
Proof.
  intros Hok. pose proof Hok as (Hsorted & Hload & Hrows).
  destruct r as [| | |body|requested body|requested].
  - unfold after.
    by rewrite (get_routes_same_db GET_available_products (or_introl eq_refl) w).
  - unfold after.
    by rewrite (get_routes_same_db GET_wedding_list (or_intror (or_introl eq_refl)) w).
  - unfold after.
    by rewrite (get_routes_same_db GET_wedding_list_report
                  (or_intror (or_intror eq_refl)) w).
  - simpl. unfold after. destruct (put_run body w Hload) as (w1 & Hdb & Hrun).
    destruct (body !! "product_id") as [v|]; [|by rewrite Hrun; simpl; rewrite Hdb].
    destruct (find_product (db w) v) as [[i zr]|] eqn:Hfind;
      [|by rewrite Hrun; simpl; rewrite Hdb].
    apply find_product_row in Hfind as (_ & Hin & _).
    destruct (Hrun (proj1 (Hrows _ Hin))) as (objs & gifts & ->). simpl.
    by apply store_ok_insert_gift.
  - simpl. unfold after.
    destruct (body !! "purchase") as [v|] eqn:Hv; [|by rewrite patch_no_key].
    destruct (truthy v) eqn:Htruthy; [|by rewrite (patch_falsy _ _ v)].
    destruct (lookup_row requested (wedding_gift (db w))) as [gift|] eqn:Hrow.
    + pose proof (lookup_row_Some_elem_of _ _ _ Hrow) as Hgift.
      eapply Forall_forall in Hload as Hrowok; [|exact Hgift].
      destruct Hrowok as [_ [[i zr] Hfind]%find_product_exists]. simpl in Hfind.
      pose proof (find_product_row _ _ _ _ Hfind) as (_ & Hin & _).
      destruct (Hrows _ Hin) as (Hfits & n & Hn & Hrange).
      destruct (patch_run requested body v w gift i zr n) as [Hzero Hpos]; [done..|].
      destruct (decide (n = 0)) as [Hn0|Hn0].
      * destruct (Hzero Hn0) as (w1 & Hdb & ->). simpl. by rewrite Hdb.
      * destruct Hpos as (w2 & Hdb & ->); [lia|]. simpl. rewrite Hdb.
        apply store_ok_purchase; [done|lia|done].
    + destruct (patch_unknown_gift requested body v w) as (w1 & Hdb & ->); [done..| |].
      * by apply lookup_row_None.
      * simpl. by rewrite Hdb.
  - simpl. unfold after. destruct (delete_run requested w Hload) as [Hin Hout].
    destruct (decide (requested ∈ (wedding_gift (db w)).*1)) as [Hrow|Hrow].
    + destruct (Hin Hrow) as (w1 & ->). simpl. by apply store_ok_delete_gift.
    + destruct (Hout Hrow) as (w1 & Hdb & ->). simpl. by rewrite Hdb.
Qed.

Lemma serve_store_ok_all rs w : store_ok (db w) → store_ok (db (serve_all rs w)).
Proof.
  revert w. induction rs as [|r rs IH]; intros w Hok; [done|].
  simpl. apply IH. by apply serve_store_ok.
Qed.

(** X16. The routes keep the store in order. From a store where rowids
    increase along a scan, every gift row can be loaded and every product
    has a rowid and a stock quantity that are integers of 64 bits, the
    quantity not negative, any sequence of requests, whatever they ask and
    however they are answered, leads to such a store again: no request
    leaves a gift without its product or a negative stock. *)
Theorem X16_routes_keep_store rs w :
  store_ok (db w) → store_ok (db (serve_all rs w)).
Proof.
  intros Hok. induction rs as [|r rs IH] using rev_ind; [done|].
  unfold serve_all. rewrite foldl_app. simpl. by apply serve_store_ok.
Qed.

Lemma X16_witness :
  store_ok (db (serve_all [PUT_wedding_list {[ "product_id" := PyInt 1 ]};
                           PATCH_wedding_list 2 {[ "purchase" := PyBool true ]};
                           DELETE_wedding_list 1]
                          (example_world 3))).
Proof.
  apply (X16_routes_keep_store _ (example_world 3)). split_and!.
  - split; simpl; repeat constructor.
  - repeat constructor; [by exists false|].
    eexists. split; [apply list_elem_of_here|reflexivity].
  - intros zr ->%list_elem_of_singleton. split; [reflexivity|].
    exists 3. split; [reflexivity|lia].
Defined.

(** ** What no request changes *)

#[local] Instance same_catalogue_preorder : PreOrder keeps_catalogue.
Proof.
  split.
  - intros w. unfold keeps_catalogue, same_catalogue. by apply Forall_Forall2_diag, Forall_true.
  - intros w1 w2 w3 H12 H23. unfold keeps_catalogue, same_catalogue in *.
    eapply Forall2_trans; [|exact H12|exact H23].
    intros a b c (-> & -> & -> & ->) (-> & -> & -> & ->). done.
Qed.

Lemma same_db_catalogue {A} (m : M A) : preserves same_db m → preserves keeps_catalogue m.
Proof.
  intros Hm w. specialize (Hm w). unfold same_db in Hm.
  unfold keeps_catalogue. rewrite Hm. apply (reflexivity (R := keeps_catalogue) w).
Qed.

Lemma catalogue_update_stock c i d : same_catalogue d (exec_update_stock c i d).
Proof.
  unfold same_catalogue, exec_update_stock, update_where. simpl.
  apply Forall2_fmap_r, Forall_Forall2_diag, Forall_forall. intros [z r] _.
  simpl. by destruct (rowid_is i z).
Qed.

Lemma catalogue_products d d' : products d' = products d → same_catalogue d d'.
Proof.
  intros Hp. unfold same_catalogue. rewrite Hp. by apply Forall_Forall2_diag, Forall_true.
Qed.

Lemma gift_purchase_catalogue l : preserves keeps_catalogue (GiftItem.purchase l).
Proof.
  intros w. unfold keeps_catalogue.
  destruct (gift_purchase_db w l) as [H|(c & i & z & H)]; unfold after in H; rewrite H.
  - by apply catalogue_products.
  - apply (catalogue_update_stock c i (db w)).
Qed.

Lemma gift_remove_catalogue l : preserves keeps_catalogue (GiftItem.remove l).
Proof.
  intros w. unfold keeps_catalogue.
  destruct (gift_remove_db w l) as [H|(z & H)]; unfold after in H; rewrite H;
    by apply catalogue_products.
Qed.

Lemma get_new_gift_item_catalogue l : preserves keeps_catalogue (GiftItem.get_new_gift_item l).
Proof.
  intros w. unfold keeps_catalogue.
  destruct (get_new_gift_item_db w l) as [H|(c & H)]; unfold after in H; rewrite H;
    by apply catalogue_products.
Qed.

Lemma found_gift_same_db ls requested : preserves same_db (found_gift ls requested).
Proof. unfold found_gift. frame. Qed.

Lemma serve_catalogue r : preserves keeps_catalogue (serve r).
Proof.
  destruct r as [| | |body|requested body|requested].
  - apply same_db_catalogue, get_routes_same_db. by left.
  - apply same_db_catalogue, get_routes_same_db. right. by left.
  - apply same_db_catalogue, get_routes_same_db. right. by right.
  - simpl. unfold add_to_wedding_list.
    pres_bind; [apply same_db_catalogue, get_wedding_gifts_same_db|]. intros ls.
    pres_bind; [apply preserves_lift; exact _|]. intros v.
    pres_bind; [apply same_db_catalogue, get_product_by_id_same_db|]. intros p.
    pres_bind; [apply get_new_gift_item_catalogue|]. intros l.
    pres_bind; [apply preserves_get_gift; exact _|]. intros g. pres_ret.
  - simpl. unfold purchase_gift_from_wedding_list.
    pres_bind; [apply preserves_lift; exact _|]. intros v.
    destruct (truthy v); [|pres_ret].
    pres_bind; [apply same_db_catalogue, get_wedding_gifts_same_db|]. intros ls.
    pres_bind; [apply same_db_catalogue, found_gift_same_db|]. intros [|l found]; [pres_ret|].
    pres_bind; [apply gift_purchase_catalogue|intros; pres_ret].
  - simpl. unfold remove_from_wedding_list.
    pres_bind; [apply same_db_catalogue, get_wedding_gifts_same_db|]. intros ls.
    pres_bind; [apply same_db_catalogue, found_gift_same_db|]. intros [|l found]; [pres_ret|].
    pres_bind; [apply same_db_catalogue, list_remove_same_db|]. intros ?.
    pres_bind; [apply gift_remove_catalogue|intros; pres_ret].
Qed.

(** X17. No request changes the catalogue. Whatever the requests, their
    bodies and their answers, and whatever the store they start from, the
    table [products] has the same rows afterwards, with the same rowids,
    names, brands and prices: no route adds or deletes a product or
    rewrites one, and only stock quantities can differ. *)
Theorem X17_routes_keep_catalogue rs w :
  same_catalogue (db w) (db (serve_all rs w)) ∧
  (products (db (serve_all rs w))).*1 = (products (db w)).*1 ∧
  length (products (db (serve_all rs w))) = length (products (db w)).
Proof.
  assert (Hcat : same_catalogue (db w) (db (serve_all rs w))).
  { revert w. induction rs as [|r rs IH]; intros w.
    - apply (reflexivity (R := keeps_catalogue) w).
    - simpl. apply (transitivity (R := keeps_catalogue) (serve_catalogue r w) (IH _)). }
  split_and!; [done| |].
  - unfold same_catalogue in Hcat. revert Hcat.
    generalize (products (db w)) (products (db (serve_all rs w))).
    induction 1 as [|a b l k (Hab & _) _ IH]; [done|].
    rewrite !fmap_cons. by rewrite Hab, IH.
  - symmetry. by eapply Forall2_length.
Qed.

(** ** Two purchases through the route *)

Lemma find_product_update_stock q z d v i zr :
  find_product d v = Some (i, zr) →
  find_product (exec_update_stock q (SqlInt z) d) v
  = Some (i, if decide (zr.1 = z) then (zr.1, set_stock q zr.2) else zr).
Proof.
  intros Hfind. unfold find_product, exec_update_stock, update_where in *. simpl.
  rewrite list_find_fmap.
  erewrite (list_find_ext _ (λ zr : Z * ProductRow, py_eq (PyInt zr.1) v = true)).
  - rewrite Hfind. simpl. destruct zr as [y r]. simpl.
    destruct (decide (y = z)) as [->|Hne]; [by rewrite Z.eqb_refl|].
    by apply Z.eqb_neq in Hne as ->.
  - intros [y r]. simpl. by destruct (y =? z).
Qed.

Lemma patch_again requested d z gift :
  lookup_row requested (wedding_gift d) = Some gift →
  ∃ gift',
    lookup_row requested
      (wedding_gift (exec_update_gift (SqlInt 1) (SqlInt z) d)) = Some gift' ∧
    row_product_id gift' = row_product_id gift ∧
    (requested = z → row_purchased gift' = SqlInt 1) ∧
    (requested ≠ z → row_purchased gift' = row_purchased gift).
Proof.
  intros Hrow. simpl. rewrite lookup_row_update_where, Hrow. simpl.
  destruct (decide (requested = z)); eexists; split_and!; done.
Qed.

(** X18. Two purchases through the route never lose an update. In a store
    that is in order, two PATCH requests with a true [purchase], for the
    same gift or for two gifts of one product with [n ≥ 2] in stock, are
    both answered with the empty object and leave [n - 2] as the stored
    quantity and the flag 1 for both gifts: each request loads the store
    anew, and a gift that is already purchased takes one more from the
    stock. *)
Theorem X18_two_patches first second body v w gift1 gift2 i zr n :
  body !! "purchase" = Some v → truthy v = true →
  store_ok (db w) →
  lookup_row first (wedding_gift (db w)) = Some gift1 →
  lookup_row second (wedding_gift (db w)) = Some gift2 →
  find_product (db w) (of_sql (row_product_id gift1)) = Some (i, zr) →
  find_product (db w) (of_sql (row_product_id gift2)) = Some (i, zr) →
  row_in_stock_quantity zr.2 = SqlInt n → 2 ≤ n →
  let w1 := after (purchase_gift_from_wedding_list first body) w in
  let w2 := after (purchase_gift_from_wedding_list second body) w1 in
  outcome (purchase_gift_from_wedding_list first body) w = inr (Ok (JObj [])) ∧
  outcome (purchase_gift_from_wedding_list second body) w1 = inr (Ok (JObj [])) ∧
  stored_quantity (db w2) zr.1 = Some (SqlInt (n - 2)) ∧
  stored_purchased (db w2) first = Some (SqlInt 1) ∧
  stored_purchased (db w2) second = Some (SqlInt 1).
Proof.
  intros Hv Htrue Hok Hrow1 Hrow2 Hzr1 Hzr2 Hn Htwo.
  pose proof Hok as (_ & Hload & Hrows).
  pose proof (find_product_row _ _ _ _ Hzr1) as (_ & Hin & _).
  destruct (Hrows _ Hin) as (Hfits & n' & Hn' & Hrange).
  rewrite Hn in Hn'. injection Hn' as <-.
  destruct (patch_run first body v w gift1 i zr n) as [_ Hbuy1]; [done..|].
  destruct Hbuy1 as (w1 & Hdb1 & Hrun1); [lia|].
  unfold outcome, after. rewrite Hrun1. simpl.
  destruct (patch_again second (exec_update_stock (SqlInt (n - 1)) (SqlInt zr.1) (db w))
              first gift2 Hrow2) as (gift2' & Hrow2' & Hpid & _).
  rewrite <- Hdb1 in Hrow2'.
  pose proof (find_product_update_stock (SqlInt (n - 1)) zr.1 (db w) _ i zr Hzr2) as Hzr2'.
  rewrite decide_True in Hzr2' by done.
  destruct (patch_run second body v w1 gift2' i (zr.1, set_stock (SqlInt (n - 1)) zr.2) (n - 1))
    as [_ Hbuy2]; [done|done| |done| |done|lia|done|].
  { rewrite Hdb1. eapply store_ok_purchase; [done|lia|done]. }
  { rewrite Hpid, Hdb1. exact Hzr2'. }
  destruct Hbuy2 as (w2 & Hdb2 & Hrun2); [lia|].
  rewrite Hrun2. simpl. rewrite Hdb2, Hdb1. simpl. split_and!; [done|done| | |].
  - rewrite stored_quantity_update_gift, stored_quantity_update_stock, decide_True by done.
    rewrite stored_quantity_update_gift, stored_quantity_update_stock, decide_True by done.
    destruct zr as [z r]. unfold stored_quantity. simpl.
    destruct (lookup_row_is_Some z r _ Hin) as [r' ->]. simpl.
    do 2 f_equal. lia.
  - rewrite stored_purchased_update_gift.
    assert (Hfirst : stored_purchased
                       (exec_update_stock (SqlInt (n - 1 - 1)) (SqlInt zr.1)
                          (exec_update_gift (SqlInt 1) (SqlInt first)
                             (exec_update_stock (SqlInt (n - 1)) (SqlInt zr.1) (db w))))
                       first = Some (SqlInt 1)).
    { unfold stored_purchased. simpl.
      rewrite lookup_row_update_where, decide_True, Hrow1 by done. done. }
    rewrite Hfirst. by destruct (decide (first = second)).
  - rewrite stored_purchased_update_gift, decide_True by done.
    unfold stored_purchased. simpl.
    rewrite lookup_row_update_where, Hrow2. simpl. by destruct (decide (second = first)).
Qed.

Lemma X18_witness :
  stored_quantity
    (db (after (purchase_gift_from_wedding_list 2 {[ "purchase" := PyBool true ]})
               (after (purchase_gift_from_wedding_list 1 {[ "purchase" := PyBool true ]})
                      (mkWorld [] [] two_gifts_db))))
    1
  = Some (SqlInt (3 - 2)).
Proof.
  destruct (X18_two_patches 1 2 {[ "purchase" := PyBool true ]} (PyBool true)
              (mkWorld [] [] two_gifts_db)
              (mkGiftRow (SqlInt 1) (SqlInt 0)) (mkGiftRow (SqlInt 1) (SqlInt 0)) 0%nat
              (1, mkProductRow (SqlText "Tea pot") (SqlText "Le Creuset") (SqlInt 1250)
                               (SqlInt 3)) 3) as (_ & _ & Hstock & _).
  - reflexivity.
  - reflexivity.
  - split_and!.
    + split; simpl; repeat constructor.
    + repeat constructor; try (by exists false);
        (eexists; split; [apply list_elem_of_here|reflexivity]).
    + intros zr ->%list_elem_of_singleton. split; [reflexivity|].
      exists 3. split; [reflexivity|lia].
  - reflexivity.
  - reflexivity.
  - reflexivity.
  - reflexivity.
  - reflexivity.
  - lia.
  - exact Hstock.
Defined.

(** ** Adding a gift, listing it and removing it again *)

Lemma wedding_list_run w :
  loadable (db w) →
  ∃ views w',
    Forall2 (λ gift bv, gift_view (db w) gift = Some bv) (wedding_gift (db w)) views ∧
    get_wedding_list w = (inr (Ok (JArr views.*2)), w') ∧ db w' = db w.
Proof.
  intros Hload. destruct (report_run w Hload) as (views & w' & Hviews & Hdb & Hlist & _).
  by exists views, w'.
Qed.

Lemma gift_view_products d d' gift :
  products d' = products d → gift_view d' gift = gift_view d gift.
Proof. intros Hp. unfold gift_view, find_product. by rewrite Hp. Qed.

Lemma views_unique d rows (views views' : list (bool * json)) :
  Forall2 (λ gift bv, gift_view d gift = Some bv) rows views →
  Forall2 (λ gift bv, gift_view d gift = Some bv) rows views' →
  views' = views.
Proof. intros H1%mapM_Some_2 H2%mapM_Some_2. congruence. Qed.

(** The row that a lookup finds is the first with its rowid. *)
Lemma find_product_own_rowid d v i zr :
  find_product d v = Some (i, zr) → find_product d (PyInt zr.1) = Some (i, zr).
Proof.
  unfold find_product. intros (Hi & Hzr & Hfirst)%list_find_Some.
  apply list_find_Some. split_and!; [done|by apply py_eq_int|].
  intros j y Hj Hlt Hy%py_eq_int. apply (Hfirst j y Hj Hlt). by rewrite Hy.
Qed.

Lemma loadable_insert_gift d zr :
  zr ∈ products d → loadable d →
  loadable (exec_insert_gift (SqlInt zr.1) (SqlInt 0) d).1.
Proof.
  intros Hin Hload. eapply (loadable_rows d); [done| |done]. simpl.
  intros gift [->|Hold]%insert_row_elem_of; [right|by left].
  split; [by exists false|]. simpl. exists zr. split; [done|]. by apply py_eq_int.
Qed.

(** X20. A gift that is added can be listed and removed again. On a list
    that can be loaded, PUT /wedding-list for a product that is found
    answers with a new identifier; GET /wedding-list then answers with the
    views that it gave before and, after them, the view of the new gift,
    not purchased, with the product found; and DELETE of that identifier
    is answered with the empty object and leaves both tables, and the
    answer of GET /wedding-list, as they were before the addition. *)
Theorem X20_put_list_delete body v i zr w :
  loadable (db w) →
  body !! "product_id" = Some v → find_product (db w) v = Some (i, zr) →
  fits_int64 zr.1 = true →
  let rowid := next_rowid (wedding_gift (db w)) in
  let w1 := after (add_to_wedding_list body) w in
  let w2 := after (remove_from_wedding_list rowid) w1 in
  outcome (add_to_wedding_list body) w
  = inr (Ok (JObj [("gift_id", JVal (PyInt rowid))])) ∧
  outcome (remove_from_wedding_list rowid) w1 = inr (Ok (JObj [])) ∧
  wedding_gift (db w2) = wedding_gift (db w) ∧
  products (db w2) = products (db w) ∧
  ∃ views,
    outcome get_wedding_list w = inr (Ok (JArr views)) ∧
    outcome get_wedding_list w1
    = inr (Ok (JArr (views ++ [JObj [("id", JVal (PyInt rowid));
                                     ("product", product_view zr);
                                     ("purchased", JVal (PyBool false))]]))) ∧
    outcome get_wedding_list w2 = inr (Ok (JArr views)).
Proof.
  intros Hload Hv Hfind Hfits.
  pose proof (find_product_row _ _ _ _ Hfind) as (_ & Hin & _).
  set (row := mkGiftRow (SqlInt zr.1) (SqlInt 0)).
  set (rowid := next_rowid (wedding_gift (db w))).
  assert (Hlast : insert_row rowid row (wedding_gift (db w))
                  = wedding_gift (db w) ++ [(rowid, row)]).
  { apply insert_row_last. intros y Hy. by apply next_rowid_above. }
  destruct (put_run body w Hload) as (w0 & Hdb0 & Hput).
  rewrite Hv, Hfind in Hput. destruct (Hput Hfits) as (objs & gifts & Hrun1).
  unfold outcome, after. simpl. rewrite Hrun1. simpl.
  fold rowid. fold row. rewrite Hlast.
  set (d1 := mkDb (products (db w)) (wedding_gift (db w) ++ [(rowid, row)])
                  (journal (db w) ++ [InsertGift (SqlInt zr.1) (SqlInt 0)])).
  set (w1 := mkWorld objs gifts d1).
  assert (Hload1 : loadable d1).
  { pose proof (loadable_insert_gift (db w) zr Hin Hload) as H1.
    simpl in H1. fold rowid row in H1. by rewrite Hlast in H1. }
  destruct (delete_run rowid w1 Hload1) as [Hdel _].
  destruct Hdel as (w1' & Hrun2).
  { simpl. rewrite fmap_app. apply elem_of_app. right. apply list_elem_of_here. }
  rewrite Hrun2.
  set (w2 := mkWorld (product_objs w1') (gift_objs w1') _).
  assert (Hrows2 : wedding_gift (db w2) = wedding_gift (db w)).
  { simpl. rewrite <- Hlast. apply delete_insert_row, next_rowid_fresh. }
  assert (Hprods2 : products (db w2) = products (db w)) by done.
  assert (Hload2 : loadable (db w2)).
  { eapply (loadable_rows (db w)); [by rewrite Hprods2| |done]. rewrite Hrows2. by left. }
  destruct (wedding_list_run w Hload) as (views & w' & Hviews & Hget & _).
  destruct (wedding_list_run w1 Hload1) as (views1 & w1'' & Hviews1 & Hget1 & _).
  destruct (wedding_list_run w2 Hload2) as (views2 & w2' & Hviews2 & Hget2 & _).
  cbn [fst snd]. split_and!; [done..|].
  simpl in Hviews1. apply Forall2_app_inv_l in Hviews1 as (va & vb & Ha & Hb & ->).
  apply Forall2_cons_inv_l in Hb as (bv & vb' & Hbv & ->%Forall2_nil_inv_l & ->).
  assert (va = views) as ->.
  { apply (views_unique (db w) (wedding_gift (db w))); [done|].
    eapply Forall2_impl; [exact Ha|]. intros gift bv' Hbv'.
    by rewrite <- (gift_view_products (db w) d1). }
  assert (views2 = views) as ->.
  { apply (views_unique (db w) (wedding_gift (db w))); [done|].
    rewrite Hrows2 in Hviews2.
    eapply Forall2_impl; [exact Hviews2|]. intros gift bv' Hbv'.
    by rewrite <- (gift_view_products (db w) (db w2)). }
  unfold gift_view in Hbv. simpl in Hbv.
  change (find_product d1 (PyInt zr.1)) with (find_product (db w) (PyInt zr.1)) in Hbv.
  rewrite (find_product_own_rowid _ _ _ _ Hfind) in Hbv. injection Hbv as <-.
  exists views.*2. rewrite Hget, Hget1, Hget2. cbn [fst snd].
  by rewrite fmap_app.
Qed.

Lemma X20_witness :
  outcome (add_to_wedding_list {[ "product_id" := PyInt 1 ]}) (example_world 3)
  = inr (Ok (JObj [("gift_id", JVal (PyInt 2))])) ∧
  wedding_gift (db (after (remove_from_wedding_list 2)
                          (after (add_to_wedding_list {[ "product_id" := PyInt 1 ]})
                                 (example_world 3))))
  = wedding_gift (db (example_world 3)).
Proof.
  destruct (X20_put_list_delete {[ "product_id" := PyInt 1 ]} (PyInt 1) 0%nat
              (1, mkProductRow (SqlText "Tea pot") (SqlText "Le Creuset") (SqlInt 1250)
                               (SqlInt 3)) (example_world 3))
    as (Hput & _ & Hrows & _).
  - repeat constructor; [by exists false|].
    eexists. split; [apply list_elem_of_here|reflexivity].
  - reflexivity.
  - reflexivity.
  - reflexivity.
  - split; [exact Hput|exact Hrows].
Defined.

(** ** The service from its bootstrap *)

(** X21. The service after its bootstrap. When the repository file makes
    product rows with distinct rowids, and rowids and stock quantities of
    64 bits, the quantities not negative, then after [init_db] and any
    sequence of requests the store is in order, and GET /wedding-list and
    GET /wedding-list-report are answered: no sequence of requests makes
    them raise. *)
Theorem X21_service_after_bootstrap repo rows rs w :
  Forall2 imports_as repo rows → NoDup rows.*1 → Forall row_in_range rows →
  let w' := serve_all rs (after (init_db false repo) w) in
  store_ok (db w') ∧
  (∃ body, outcome get_wedding_list w' = inr (Ok body)) ∧
  (∃ body, outcome get_wedding_list_report w' = inr (Ok body)).
Proof.
  intros Himp Hnd Hrange.
  destruct (init_db_run repo rows w Himp Hnd) as (objs & d' & Hrun & Hperm & Hwg & Hsorted).
  unfold after at 1. rewrite Hrun. cbn [snd].
  assert (Hok : store_ok (db (mkWorld objs (gift_objs w) d'))).
  { split_and!.
    - split; [done|]. simpl. rewrite Hwg. constructor.
    - unfold loadable. simpl. rewrite Hwg. constructor.
    - simpl. intros zr Hzr. rewrite Hperm in Hzr.
      eapply Forall_forall in Hrange; [|exact Hzr]. exact Hrange. }
  pose proof (serve_store_ok_all rs _ Hok) as Hok'.
  split; [done|]. destruct Hok' as (_ & Hload & _).
  pose proof (get_routes_answer _ Hload) as [Hlist Hreport]. by split.
Qed.

Lemma X21_witness :
  store_ok (db (serve_all [PUT_wedding_list {[ "product_id" := PyInt 1 ]};
                           PATCH_wedding_list 1 {[ "purchase" := PyBool true ]}]
                          (after (init_db false [tea_pot]) empty_world))).
Proof.
  destruct (X21_service_after_bootstrap [tea_pot]
              [(1, mkProductRow (SqlText "Tea pot") (SqlText "Le Creuset")
                                (SqlReal twelve_and_a_half) (SqlInt 50))]
              [PUT_wedding_list {[ "product_id" := PyInt 1 ]};
               PATCH_wedding_list 1 {[ "purchase" := PyBool true ]}] empty_world)
    as (Hok & _).
  - repeat constructor. eexists. split; reflexivity.
  - apply NoDup_singleton.
  - repeat constructor. exists 50. split; [reflexivity|lia].
  - exact Hok.
Defined.
